(** * refugees_did: the panel design, the model wrappers and the event-study
      table, embedded from [design.py], [models.py] and [plots.py].

    The data frames of the program are pandas frames.  They are embedded
    column by column, the way the code works on them: a frame is the ordered
    list of its named columns, a column is the list of its cells, and every
    statement of the source on whole columns ([df["post"] = ...],
    [df["treated"] * df["post"]], boolean masks, [map], [groupby]) becomes
    one function on lists.  Numbers are the numbers of pandas: an [int64]
    entry is an integer, a [float64] entry is a binary64 float (the kernel's
    primitive floats), the missing value is [NaN].  Exceptions are an error
    monad.  What statsmodels and numpy compute and the program only passes
    on (the least-squares fit, a group mean, rounding to three decimals) is
    a variable of the section that needs it. *)

From Stdlib Require Import ZArith List String Ascii Floats DecimalString.
From stdpp Require Import base tactics option list strings gmap sorting
  pretty.

Local Open Scope string_scope.
Local Open Scope list_scope.
Local Open Scope Z_scope.

(** ** Exceptions *)

Inductive exn : Type :=
  | KeyError (key : string)
  | ValueError
  | TypeError
  | AttributeError
  | InvalidIndexError.

Inductive result (A : Type) : Type :=
  | Ok (a : A)
  | Raise (e : exn).

Arguments Ok {A} a.
Arguments Raise {A} e.

Global Instance result_ret : MRet result := λ A, @Ok A.
Global Instance result_bind : MBind result := λ A B f r,
  match r with Ok a => f a | Raise e => Raise e end.
Global Instance result_fmap : FMap result := λ A B f r,
  match r with Ok a => Ok (f a) | Raise e => Raise e end.

(** ** Cells *)

(** One entry of a column.  pandas keeps a missing entry of a float column
    as the float nan; [NaN] is that entry, and [of_float] never builds
    [Num nan]. *)
Inductive cell : Type :=
  | Int (z : Z)
  | Num (x : float)
  | Str (s : string)
  | NaN.

Abbreviation Series := (list cell).

(** int64 to float64, rounding to nearest even (exact up to 2^53). *)
Definition of_int64 (z : Z) : float :=
  SF2Prim (binary_normalize prec emax z 0 false).
Arguments of_int64 : simpl never.

Definition int64_min : Z := -9223372036854775808.
Definition int64_max : Z := 9223372036854775807.

(** float64 to int64 as numpy's [astype(int)] does it: the fraction is
    dropped (rounding toward zero); nan, an infinity and a value out of range
    give the smallest int64 (the x86-64 conversion; numpy only warns). *)
Definition float_to_int64 (x : float) : Z :=
  match Prim2SF x with
  | S754_zero _ => 0
  | S754_finite s m e =>
      let mag := Z.shiftl (Z.pos m) e in
      let v := if s then - mag else mag in
      if bool_decide (int64_min ≤ v ≤ int64_max) then v else int64_min
  | _ => int64_min
  end.

Definition of_float (x : float) : cell :=
  if PrimFloat.is_nan x then NaN else Num x.

(** The float a numeric cell stands for in float64 arithmetic; text raises. *)
Definition to_float (c : cell) : result float :=
  match c with
  | Int z => Ok (of_int64 z)
  | Num x => Ok x
  | NaN => Ok PrimFloat.nan
  | Str _ => Raise TypeError
  end.

(** A region label.  The panel's regions are text. *)
Definition as_str (c : cell) : result string :=
  match c with
  | Str s => Ok s
  | _ => Raise TypeError
  end.

Definition isna (c : cell) : bool :=
  match c with NaN => true | _ => false end.

(** [c == n] for an integer scalar [n]: never raises, false on text and on
    a missing entry. *)
Definition eq_scalar (n : Z) (c : cell) : bool :=
  match c with
  | Int z => bool_decide (z = n)
  | Num x => PrimFloat.eqb x (of_int64 n)
  | _ => false
  end.

(** [c >= n] and [c < n] for an integer scalar [n]: false on a missing
    entry, TypeError on text. *)
Definition ge_scalar (n : Z) (c : cell) : result bool :=
  match c with
  | Int z => Ok (bool_decide (n ≤ z))
  | Num x => Ok (PrimFloat.leb (of_int64 n) x)
  | NaN => Ok false
  | Str _ => Raise TypeError
  end.

Definition lt_scalar (n : Z) (c : cell) : result bool :=
  match c with
  | Int z => Ok (bool_decide (z < n))
  | Num x => Ok (PrimFloat.ltb x (of_int64 n))
  | NaN => Ok false
  | Str _ => Raise TypeError
  end.

(** [c > t] for a float scalar [t]: the entry is compared in float64, a
    missing entry is not above anything, text raises. *)
Definition above (t : float) (c : cell) : bool :=
  match c with
  | Int z => PrimFloat.ltb t (of_int64 z)
  | Num x => PrimFloat.ltb t x
  | _ => false
  end.

Definition gt_float (t : float) (c : cell) : result bool :=
  match c with
  | Str _ => Raise TypeError
  | _ => Ok (above t c)
  end.

(** [bool.astype(int)] *)
Definition int_of_bool (b : bool) : Z := if b then 1 else 0.

(** ** Frames *)

Abbreviation DataFrame := (list (string * Series)).

Definition columns (df : DataFrame) : list string := df.*1.

Fixpoint lookup_column (df : DataFrame) (c : string) : option Series :=
  match df with
  | [] => None
  | (k, v) :: rest => if decide (k = c) then Some v else lookup_column rest c
  end.

(** [df[c]] *)
Definition getitem (df : DataFrame) (c : string) : result Series :=
  match lookup_column df c with
  | Some v => Ok v
  | None => Raise (KeyError c)
  end.

(** [df[c] = v]: an existing column is replaced where it stands, a new one
    is added last. *)
Fixpoint setitem (df : DataFrame) (c : string) (v : Series) : DataFrame :=
  match df with
  | [] => [(c, v)]
  | (k, w) :: rest =>
      if decide (k = c) then (k, v) :: rest else (k, w) :: setitem rest c v
  end.

(** Rows kept by a boolean mask, [s[mask]]. *)
Fixpoint select {A : Type} (mask : list bool) (s : list A) : list A :=
  match mask, s with
  | b :: mask', x :: s' => if b then x :: select mask' s' else select mask' s'
  | _, _ => []
  end.

(** [df[mask]]: every column, the rows of the mask. *)
Definition loc (mask : list bool) (df : DataFrame) : DataFrame :=
  prod_map id (select mask) <$> df.

(** Number of rows ([len(df)]): the length of the columns. *)
Definition nrows (df : DataFrame) : nat :=
  match df with
  | [] => 0%nat
  | (_, v) :: _ => length v
  end.

(** ** Column operations of pandas used by the program *)

(** Two columns of one frame combined entry by entry. *)
Definition zip_cells (f : cell → cell → result cell) (a b : Series)
  : result Series :=
  mapM (λ p, f p.1 p.2) (zip a b).

(** [a / b * 100_000]: true division, always in float64. *)
Definition rate_per_100k (a b : cell) : result cell :=
  x ← to_float a; y ← to_float b;
  Ok (of_float (PrimFloat.mul (PrimFloat.div x y) (of_int64 100000))).

(** int64 arithmetic wraps around. *)
Definition wrap64 (z : Z) : Z := (z + 2 ^ 63) `mod` 2 ^ 64 - 2 ^ 63.

(** [a * b]: integer entries multiply as int64, anything else in float64;
    text is outside the panel's schema. *)
Definition mul_cell (a b : cell) : result cell :=
  match a, b with
  | Int x, Int y => Ok (Int (wrap64 (x * y)))
  | _, _ => x ← to_float a; y ← to_float b; Ok (of_float (PrimFloat.mul x y))
  end.

(** [groupby(key)[col].diff()]: every row minus the previous row of its
    own group, in the order of the rows; the first row of a group has no
    previous row and is missing.  [last] holds, for every group met so far,
    the value of its latest row. *)
Fixpoint diff_from (last : gmap string float) (keys : list string)
    (vals : list float) : Series :=
  match keys, vals with
  | k :: keys', v :: vals' =>
      match last !! k with
      | Some p => of_float (PrimFloat.sub v p)
      | None => NaN
      end :: diff_from (<[k := v]> last) keys' vals'
  | _, _ => []
  end.

Definition groupby_diff (keys : list string) (vals : list float) : Series :=
  diff_from ∅ keys vals.

Definition float_le (x y : float) : Prop := PrimFloat.leb x y = true.
Global Instance float_le_dec : RelDecision float_le :=
  λ x y, decide (PrimFloat.leb x y = true).

(** The middle value, or the mean of the two middle values. *)
Definition median_of_sorted (v : list float) : float :=
  let n := length v in
  if decide (n = 0)%nat then PrimFloat.nan
  else if Nat.even n
       then PrimFloat.div
              (PrimFloat.add (default PrimFloat.nan (v !! (n / 2 - 1))%nat)
                             (default PrimFloat.nan (v !! (n / 2)%nat)))
              (of_int64 2)
       else default PrimFloat.nan (v !! (n / 2)%nat).

(** [Series.median()].  Missing entries are skipped.  On a selection
    without rows pandas returns the plain float [nan] ([None] here), on a
    selection with rows a numpy float64, nan when no row has a value. *)
Definition median (s : Series) : result (option float) :=
  xs ← mapM to_float (filter (λ c, isna c = false) s);
  match s with
  | [] => Ok None
  | _ => Ok (Some (median_of_sorted (merge_sort float_le xs)))
  end.

(** [.astype(int)] on the scalar a reduction returned: a method of numpy's
    scalars, which the plain float does not have. *)
Definition astype_int (m : option float) : result Z :=
  match m with
  | None => Raise AttributeError
  | Some x => Ok (float_to_int64 x)
  end.

(** [keys.map(mapper)] with a Series as the mapper: the index of the mapper
    has to be unique; a key it does not hold maps to a missing entry. *)
Definition series_map {A : Type} (keys : list string)
    (mapper : list (string * A)) : result (list (option A)) :=
  if decide (NoDup mapper.*1)
  then Ok ((λ k, (list_to_map mapper : gmap string A) !! k) <$> keys)
  else Raise InvalidIndexError.

(** [.fillna(0).astype(int)] on a column of booleans with gaps. *)
Definition fillna0_int (o : option bool) : cell :=
  Int (from_option int_of_bool 0 o).

(** * design.py *)

Definition add_crime_rate_if_missing (panel : DataFrame) : result DataFrame :=
  let df := panel in
  if decide ("crime_rate_per_100k" ∈ columns df) then Ok df
  else
    total_cases ← getitem df "total_cases";
    population_total ← getitem df "population_total";
    rate ← zip_cells rate_per_100k total_cases population_total;
    Ok (setitem df "crime_rate_per_100k" rate).

(** [df.groupby("region")["foreigners_total"].diff()], the right-hand side
    of the first assignment of [add_treatment_variables]. *)
Definition treatment_intensity (df : DataFrame) : result Series :=
  region ← getitem df "region";
  keys ← mapM as_str region;
  foreigners_total ← getitem df "foreigners_total";
  vals ← mapM to_float foreigners_total;
  Ok (groupby_diff keys vals).

Definition add_treatment_variables (panel : DataFrame) : result DataFrame :=
  let df := panel in
  (* df["treatment_intensity"] = df.groupby("region")["foreigners_total"].diff() *)
  intensity ← treatment_intensity df;
  let df := setitem df "treatment_intensity" intensity in
  (* threshold = df.loc[df['year'] == 2016, 'treatment_intensity'].median().astype(int) *)
  year ← getitem df "year";
  intensity ← getitem df "treatment_intensity";
  med ← median (select (eq_scalar 2016 <$> year) intensity);
  threshold ← astype_int med;
  (* treated_regions: the rows of 2016, indexed by region *)
  year ← getitem df "year";
  let in_2016 := eq_scalar 2016 <$> year in
  intensity ← getitem df "treatment_intensity";
  flags ← mapM (gt_float (of_int64 threshold)) (select in_2016 intensity);
  region ← getitem df "region";
  index ← mapM as_str (select in_2016 region);
  let treated_regions := zip index flags in
  (* df['treated'] = df['region'].map(treated_regions).fillna(0).astype(int) *)
  region ← getitem df "region";
  keys ← mapM as_str region;
  mapped ← series_map keys treated_regions;
  let df := setitem df "treated" (fillna0_int <$> mapped) in
  (* df['post'] = (df['year'] >= 2016).astype(int) *)
  year ← getitem df "year";
  post ← mapM (ge_scalar 2016) year;
  let df := setitem df "post" (Int ∘ int_of_bool <$> post) in
  (* df['did'] = df['treated'] * df['post'] *)
  treated ← getitem df "treated";
  post ← getitem df "post";
  did ← zip_cells mul_cell treated post;
  Ok (setitem df "did" did).

Definition prepare_analysis_panel (panel : DataFrame) : result DataFrame :=
  let df := panel in
  df ← add_crime_rate_if_missing df;
  df ← add_treatment_variables df;
  Ok df.

(** * models.py *)

(** [a - b] on cells: integers as int64, anything else in float64. *)
Definition sub_cell (a b : cell) : result cell :=
  match a, b with
  | Int x, Int y => Ok (Int (wrap64 (x - y)))
  | _, _ => x ← to_float a; y ← to_float b; Ok (of_float (PrimFloat.sub x y))
  end.

Definition min_cell (a b : cell) : result cell :=
  match a, b with
  | Int x, Int y => Ok (Int (Z.min x y))
  | _, _ =>
      x ← to_float a; y ← to_float b;
      Ok (of_float (if PrimFloat.ltb y x then y else x))
  end.

Fixpoint min_from (m : cell) (s : Series) : result cell :=
  match s with
  | [] => Ok m
  | c :: s' => m' ← min_cell m c; min_from m' s'
  end.

(** [Series.min()]: missing entries are skipped, nothing left is missing. *)
Definition series_min (s : Series) : result cell :=
  match filter (λ c, isna c = false) s with
  | [] => Ok NaN
  | c :: s' => min_from c s'
  end.

(** What statsmodels returns from a fit: the estimates, their standard
    errors, their p-values and [conf_int()], each indexed by the names of
    the terms. *)
Module RegressionResults.
Record t : Type := mk {
  params : list (string * float);
  bse : list (string * float);
  pvalues : list (string * float);
  conf_int : list (string * (float * float))
}.
End RegressionResults.

(** [series.get(key, default)] and [key in index] on a named Series. *)
Fixpoint series_lookup {A : Type} (s : list (string * A)) (key : string)
  : option A :=
  match s with
  | [] => None
  | (k, v) :: rest => if decide (k = key) then Some v else series_lookup rest key
  end.

Definition series_get (s : list (string * float)) (key : string)
    (default : float) : float :=
  from_option id default (series_lookup s key).

(** One row of the table of [run_threshold_grid]. *)
Module GridRow.
Record t : Type := mk {
  name : string;
  threshold : float;
  coef_did_alt : float;
  se_did_alt : float;
  pvalue_did_alt : float
}.
End GridRow.

(** The frame [fit_pretrend_interaction] hands to the fit: the rows before
    the cutoff, with [year_num]. *)
Definition pretrend_design (panel : DataFrame) (pre_cutoff_year : Z)
  : result DataFrame :=
  (* pre = panel[panel["year"] < pre_cutoff_year].copy() *)
  year ← getitem panel "year";
  mask ← mapM (lt_scalar pre_cutoff_year) year;
  let pre := loc mask panel in
  (* pre["year_num"] = pre["year"] - pre["year"].min() *)
  year ← getitem pre "year";
  year' ← getitem pre "year";
  first ← series_min year';
  year_num ← mapM (λ y, sub_cell y first) year;
  Ok (setitem pre "year_num" year_num).

(** The frame [run_did_with_threshold] hands to the fit: the panel with
    [treated_alt] and [did_alt]. *)
Definition threshold_design (panel : DataFrame) (threshold : float)
  : result DataFrame :=
  let df := panel in
  (* ti_2016 = df[df["year"] == 2016].set_index("region")["treatment_intensity"] *)
  year ← getitem df "year";
  let in_2016 := eq_scalar 2016 <$> year in
  region ← getitem df "region";
  index ← mapM as_str (select in_2016 region);
  intensity ← getitem df "treatment_intensity";
  (* treated_regions_alt = (ti_2016 > threshold).astype(int) *)
  flags ← mapM (gt_float threshold) (select in_2016 intensity);
  let treated_regions_alt := zip index (int_of_bool <$> flags) in
  (* df["treated_alt"] = df["region"].map(treated_regions_alt).fillna(0).astype(int) *)
  region ← getitem df "region";
  keys ← mapM as_str region;
  mapped ← series_map keys treated_regions_alt;
  let df := setitem df "treated_alt" (Int ∘ from_option id 0 <$> mapped) in
  (* df["did_alt"] = df["treated_alt"] * df["post"] *)
  treated_alt ← getitem df "treated_alt";
  post ← getitem df "post";
  did_alt ← zip_cells mul_cell treated_alt post;
  Ok (setitem df "did_alt" did_alt).

(** The formula of [fit_event_study].  [pretty] writes the reference year
    the way the f-string does: in decimal, with a minus sign when it is
    negative. *)
Definition event_study_formula (ref_year : Z) : string :=
  "crime_rate_per_100k ~ "
  +:+ "C(region) + "
  +:+ "C(year, Treatment(reference=" +:+ pretty ref_year +:+ ")) + "
  +:+ "C(year, Treatment(reference=" +:+ pretty ref_year +:+ ")):treated".

(** The frame [fit_placebo_did] hands to the fit: the panel with
    [fake_post] and [fake_did]. *)
Definition placebo_design (panel : DataFrame) (fake_treatment_year : Z)
  : result DataFrame :=
  let df := panel in
  (* df["fake_post"] = (df["year"] >= fake_treatment_year).astype(int) *)
  year ← getitem df "year";
  fake_post ← mapM (ge_scalar fake_treatment_year) year;
  let df := setitem df "fake_post" (Int ∘ int_of_bool <$> fake_post) in
  (* df["fake_did"] = df["treated"] * df["fake_post"] *)
  treated ← getitem df "treated";
  fake_post ← getitem df "fake_post";
  fake_did ← zip_cells mul_cell treated fake_post;
  Ok (setitem df "fake_did" fake_did).

Section Models.
(** [smf.ols(formula, data).fit(cov_type="HC3")] *)
Variable ols : string → DataFrame → result RegressionResults.t.

Definition fit_event_study (panel : DataFrame) (ref_year : Z)
  : result RegressionResults.t :=
  ols (event_study_formula ref_year) panel.

Definition fit_pretrend_interaction (panel : DataFrame)
    (pre_cutoff_year : Z) : result RegressionResults.t :=
  pre ← pretrend_design panel pre_cutoff_year;
  ols "crime_rate_per_100k ~ treated * year_num + C(region)" pre.

Definition fit_placebo_did (panel : DataFrame) (fake_treatment_year : Z)
  : result RegressionResults.t :=
  df ← placebo_design panel fake_treatment_year;
  ols "crime_rate_per_100k ~ fake_did + C(region) + C(year)" df.

Definition run_did_with_threshold (panel : DataFrame) (threshold : float)
  : result RegressionResults.t :=
  df ← threshold_design panel threshold;
  ols "crime_rate_per_100k ~ did_alt + C(region) + C(year)" df.

(** The loop of [run_threshold_grid] over [thresholds.items()], [rows]
    being the list it appends to. *)
Fixpoint threshold_grid_loop (panel : DataFrame) (rows : list GridRow.t)
    (items : list (string * float)) : result (list GridRow.t) :=
  match items with
  | [] => Ok rows
  | (name, thr) :: items' =>
      model ← run_did_with_threshold panel thr;
      let coef := series_get (RegressionResults.params model) "did_alt" PrimFloat.nan in
      let se := series_get (RegressionResults.bse model) "did_alt" PrimFloat.nan in
      let pval := series_get (RegressionResults.pvalues model) "did_alt" PrimFloat.nan in
      threshold_grid_loop panel
        (rows ++ [GridRow.mk name thr coef se pval]) items'
  end.

(** [thresholds] is the dict in the order of its items. *)
Definition run_threshold_grid (panel : DataFrame)
    (thresholds : list (string * float)) : result (list GridRow.t) :=
  threshold_grid_loop panel [] thresholds.
End Models.

(** * plots.py *)

(** ** The data of the parallel-trends plot *)

(** A grouping key: an integer, or missing (pandas drops such rows).  The
    keys of the program, [year] and [treated], are integer columns; keys of
    another type are not embedded (TypeError here). *)
Definition as_key (c : cell) : result (option Z) :=
  match c with
  | Int z => Ok (Some z)
  | NaN => Ok None
  | _ => Raise TypeError
  end.

Definition pair_key (y t : option Z) : option (Z * Z) :=
  y' ← y; t' ← t; Some (y', t').

(** The order in which [groupby] lists its groups: by year, then by
    treatment status. *)
Definition key_le (a b : Z * Z) : Prop :=
  a.1 < b.1 ∨ (a.1 = b.1 ∧ a.2 ≤ b.2).
Global Instance key_le_dec : RelDecision key_le.
Proof. intros a b. unfold key_le. apply _. Defined.

(** [panel.loc[mask, cols]] *)
Definition select_columns (df : DataFrame) (cols : list string)
  : result DataFrame :=
  mapM (λ c, v ← getitem df c; Ok (c, v)) cols.

Section PlotsData.
(** The mean pandas computes over the values of one group. *)
Variable mean : list float → float.

(** The outcome is a column other than the two keys; with a key as the
    outcome pandas returns that key's column once, under the name [mean],
    which is not embedded. *)
Definition compute_parallel_trends_data (panel : DataFrame)
    (outcome : string) : result DataFrame :=
  let required : gset string := {[ "year"; "treated"; outcome ]} in
  let missing := required ∖ list_to_set (columns panel) in
  if decide (missing ≠ ∅) then Raise ValueError
  else
    (* panel.groupby(["year", "treated"], as_index=False)[outcome].mean() *)
    year ← getitem panel "year";
    years ← mapM as_key year;
    treated ← getitem panel "treated";
    flags ← mapM as_key treated;
    values ← getitem panel outcome;
    xs ← mapM to_float values;
    let keys := zip_with pair_key years flags in
    let groups := merge_sort key_le (remove_dups (omap id keys)) in
    let members g :=
      filter (λ x, PrimFloat.is_nan x = false)
             (select ((λ k, bool_decide (k = Some g)) <$> keys) xs) in
    Ok [("year", (λ g, Int g.1) <$> groups);
        ("treated", (λ g, Int g.2) <$> groups);
        ("mean", (λ g, of_float (mean (members g))) <$> groups)].
End PlotsData.

(** ** The distribution of the treatment intensity *)

Definition compute_treatment_intensity_distribution (panel : DataFrame)
    (year : Z) (intensity_col : string) : result (DataFrame * float) :=
  let required : gset string := {[ "year"; intensity_col ]} in
  let missing := required ∖ list_to_set (columns panel) in
  if decide (missing ≠ ∅) then Raise ValueError
  else
    let cols := ["year"; intensity_col]
      ++ (if decide ("region" ∈ columns panel) then ["region"] else [])
      ++ (if decide ("treated" ∈ columns panel) then ["treated"] else []) in
    (* df_year = panel.loc[panel["year"] == year, cols].copy() *)
    years ← getitem panel "year";
    df_year ← select_columns (loc (eq_scalar year <$> years) panel) cols;
    (* df_year = df_year.dropna(subset=[intensity_col]) *)
    intensity ← getitem df_year intensity_col;
    let df_year := loc ((λ c, negb (isna c)) <$> intensity) df_year in
    if decide (nrows df_year = 0%nat) then Raise ValueError
    else
      intensity ← getitem df_year intensity_col;
      threshold ← median intensity;
      Ok (df_year, default PrimFloat.nan threshold).

(** ** The event-study table *)

(** [_EVENT_PATTERN.match(name)]: the pattern
    [C\(year, Treatment\(reference=\d+\)\)\[(?P<year>\d+)\]:treated]
    matched at the start of [name]; what follows the match is free. *)
Fixpoint strip_prefix (p s : string) : option string :=
  match p, s with
  | EmptyString, _ => Some s
  | String a p', String b s' =>
      if decide (a = b) then strip_prefix p' s' else None
  | String _ _, EmptyString => None
  end.

(** [\d] on text written in ASCII: the ten digits.  In a [str] pattern
    [\d] also holds the decimal digits of other scripts, and [int()] reads
    them; the statements on parameter names are for names written in ASCII
    ([ascii_name] below). *)
Definition is_digit (a : ascii) : bool :=
  bool_decide (48 ≤ nat_of_ascii a ≤ 57)%nat.

(** The longest run of digits at the start, and the rest. *)
Fixpoint span_digits (s : string) : string * string :=
  match s with
  | String a s' =>
      if is_digit a
      then let '(d, r) := span_digits s' in (String a d, r)
      else (EmptyString, s)
  | EmptyString => (EmptyString, EmptyString)
  end.

(** A run [\d+]: at least one digit, as many as there are. *)
Definition digits1 (s : string) : option (string * string) :=
  let '(d, r) := span_digits s in
  if decide (d = EmptyString) then None else Some (d, r).

(** The group [year] of the match. *)
Definition event_pattern_match (name : string) : option string :=
  s ← strip_prefix "C(year, Treatment(reference=" name;
  '(_, s) ← digits1 s;
  s ← strip_prefix "))[" s;
  '(year, s) ← digits1 s;
  _ ← strip_prefix "]:treated" s;
  Some year.
Arguments event_pattern_match : simpl never.

(** [int(digits)] *)
Fixpoint int_of_digits_from (acc : Z) (s : string) : Z :=
  match s with
  | String a s' =>
      int_of_digits_from (10 * acc + (Z.of_nat (nat_of_ascii a) - 48)) s'
  | EmptyString => acc
  end.

Definition int_of_digits (s : string) : Z := int_of_digits_from 0 s.

Module EventRow.
Record t : Type := mk {
  year : Z;
  rel_year : Z;
  coef : float;
  se : float;
  pvalue : float;
  ci_low : float;
  ci_high : float
}.
End EventRow.

(** [df.sort_values("rel_year")]: pandas leaves the order of rows with the
    same [rel_year] open (its default sort is not stable); [merge_sort]
    picks one such order, and the theorems below use only that the result
    is sorted and holds the same rows. *)
Definition rel_year_le (a b : EventRow.t) : Prop :=
  EventRow.rel_year a ≤ EventRow.rel_year b.
Global Instance rel_year_le_dec : RelDecision rel_year_le.
Proof. intros a b. unfold rel_year_le. apply _. Defined.

(** The row added for the reference year: effect 0, nothing else known
    (the dict has no [pvalue], which pandas fills with a missing entry). *)
Definition reference_row (ref_year : Z) : EventRow.t :=
  EventRow.mk ref_year 0 PrimFloat.zero PrimFloat.nan PrimFloat.nan
    PrimFloat.nan PrimFloat.nan.

(** The row of one parameter whose name matches, [digits] being the group
    [year] of the match. *)
Definition event_row (event_model : RegressionResults.t) (ref_year : Z)
    (name : string) (coef : float) (digits : string) : EventRow.t :=
  let year := int_of_digits digits in
  let se := series_get (RegressionResults.bse event_model) name PrimFloat.nan in
  let pvalue :=
    series_get (RegressionResults.pvalues event_model) name PrimFloat.nan in
  let '(ci_low, ci_high) :=
    match series_lookup (RegressionResults.conf_int event_model) name with
    | Some ci => ci
    | None => (PrimFloat.nan, PrimFloat.nan)
    end in
  let rel_year := year - ref_year in
  EventRow.mk year rel_year coef se pvalue ci_low ci_high.

(** The loop over [params.items()], [rows] being the list it appends to. *)
Fixpoint event_rows_loop (event_model : RegressionResults.t) (ref_year : Z)
    (rows : list EventRow.t) (items : list (string * float))
  : list EventRow.t :=
  match items with
  | [] => rows
  | (name, coef) :: items' =>
      match event_pattern_match name with
      | None => event_rows_loop event_model ref_year rows items'
      | Some digits =>
          event_rows_loop event_model ref_year
            (rows ++ [event_row event_model ref_year name coef digits])
            items'
      end
  end.

Section EventStudy.
(** [round(3)] of numpy on one float. *)
Variable round3 : float → float.

(** [df["pvalue"] = df["pvalue"].round(3)] on one row. *)
Definition round_pvalue (r : EventRow.t) : EventRow.t :=
  EventRow.mk (EventRow.year r) (EventRow.rel_year r) (EventRow.coef r)
    (EventRow.se r) (round3 (EventRow.pvalue r)) (EventRow.ci_low r)
    (EventRow.ci_high r).

Definition build_event_study_table (event_model : RegressionResults.t)
    (ref_year : Z) : result (list EventRow.t) :=
  let rows :=
    event_rows_loop event_model ref_year []
      (RegressionResults.params event_model) in
  match rows with
  | [] => Raise ValueError
  | _ =>
      let df := rows in
      let df :=
        if existsb (λ r, bool_decide (EventRow.year r = ref_year)) df
        then df
        else df ++ [reference_row ref_year] in
      let df := merge_sort rel_year_le df in
      Ok (round_pvalue <$> df)
  end.
End EventStudy.

(** ** The plots *)

(** The plot functions compute their data with pandas and hand them to
    matplotlib.  The first part is embedded as it is written; what
    matplotlib does with the data (the figure, the artists, the file saved)
    is a variable of the section, as the fit is for the models. *)

(** [df.sort_values(by)] on a column of numbers, the only kind the program
    sorts by: [plot_treatment_intensity] sorts the rows whose median it has
    just taken.  The rows come in increasing order of the column, the rows
    where it is missing last; pandas leaves the order of rows with the same
    value open, [merge_sort] picks one.  Without the column: KeyError. *)
Definition sort_values (df : DataFrame) (by_col : string) : result DataFrame :=
  key ← getitem df by_col;
  xs ← mapM to_float key;
  let value (i : nat) := default PrimFloat.nan (xs !! i) in
  let rows := seq 0 (length xs) in
  let present := filter (λ i, PrimFloat.is_nan (value i) = false) rows in
  let missing := filter (λ i, PrimFloat.is_nan (value i) = true) rows in
  let order :=
    @merge_sort nat (λ i j, float_le (value i) (value j))
      (λ i j, float_le_dec (value i) (value j)) present ++ missing in
  Ok (prod_map id (λ v : Series, omap (λ i, v !! i) order) <$> df).

(** One pass of the loop of [plot_parallel_trends]: the line of a group,
    if the table has rows of it. *)
Definition trend_line (df : DataFrame) (treated_flag : Z) (label : string)
  : result (list (string * (Series * Series))) :=
  (* sub = df[df["treated"] == treated_flag].copy() *)
  treated ← getitem df "treated";
  let sub := loc (eq_scalar treated_flag <$> treated) df in
  if decide (nrows sub = 0%nat) then Ok []
  else
    years ← getitem sub "year";
    mean ← getitem sub "mean";
    Ok [(label, (years, mean))].

(** [df["treated"].map({0: "#4C72B0", 1: "#DD8452"})] on one entry. *)
Definition color_of (c : cell) : cell :=
  if eq_scalar 0 c then Str "#4C72B0"
  else if eq_scalar 1 c then Str "#DD8452"
  else NaN.

Section Plots.
Variable mean : list float → float.
Variable round3 : float → float.
(** The axes a plot function returns. *)
Variable Axes : Type.
(** The lines of the two groups, the outcome, [ax] and [save_path]. *)
Variable draw_parallel_trends :
  list (string * (Series * Series)) → string → option Axes → option string
  → result Axes.
(** [x], [y], then [x_ci], [ci_low] and [ci_high], then [ref_year], [ax]
    and [save_path]. *)
Variable draw_event_study :
  list Z → list float → list Z → list float → list float → Z
  → option Axes → option string → result Axes.
(** The sorted rows, the colors, the median, [year] and [save_path]. *)
Variable draw_treatment_intensity :
  DataFrame → Series → float → Z → option string → result Axes.

Definition plot_parallel_trends (panel : DataFrame) (outcome : string)
    (ax : option Axes) (save_path : option string) : result Axes :=
  df ← compute_parallel_trends_data mean panel outcome;
  control ← trend_line df 0 "Control regions";
  treated ← trend_line df 1 "Treated regions";
  draw_parallel_trends (control ++ treated) outcome ax save_path.

Definition plot_event_study (event_model : RegressionResults.t)
    (ref_year : Z) (ax : option Axes) (save_path : option string)
  : result Axes :=
  df ← build_event_study_table round3 event_model ref_year;
  let x := EventRow.rel_year <$> df in
  let y := EventRow.coef <$> df in
  (* mask_ci = df["ci_low"].notna() & df["ci_high"].notna() *)
  let with_ci :=
    filter (λ r, PrimFloat.is_nan (EventRow.ci_low r) = false
                 ∧ PrimFloat.is_nan (EventRow.ci_high r) = false) df in
  let x_ci := EventRow.rel_year <$> with_ci in
  let ci_low := EventRow.ci_low <$> with_ci in
  let ci_high := EventRow.ci_high <$> with_ci in
  draw_event_study x y x_ci ci_low ci_high ref_year ax save_path.

Definition plot_treatment_intensity (panel : DataFrame) (year : Z)
    (intensity_col : string) (save_path : option string) : result Axes :=
  '(df, median_thr) ←
    compute_treatment_intensity_distribution panel year intensity_col;
  df ← sort_values df "treatment_intensity";
  treated ← getitem df "treated";
  let colors := color_of <$> treated in
  draw_treatment_intensity df colors median_thr year save_path.
End Plots.

(** * Notions of the statements and of their proofs *)

(** The latest value of every group among the first [i] rows. *)
Definition seen (last : gmap string float) (keys : list string)
    (vals : list float) (i : nat) : gmap string float :=
  foldl (λ m kv, <[kv.1 := kv.2]> m) last (take i (zip keys vals)).

(** A cell that is not text. *)
Definition numeric (c : cell) : Prop :=
  match c with Str _ => False | _ => True end.

(** The rows of the year 2016. *)
Definition in_2016 (years : list Z) : list bool :=
  (λ y, bool_decide (y = 2016)) <$> years.

(** The panel [add_treatment_variables] expects: integer years, text
    regions, numeric counts, one row per region in 2016 at most, and
    the year 2016 among the rows.  [vals] are the counts in float64. *)
Record design_panel (panel : DataFrame) (years : list Z)
    (keys : list string) (vals : list float) : Prop := {
  dp_year : getitem panel "year" = Ok (Int <$> years);
  dp_region : getitem panel "region" = Ok (Str <$> keys);
  dp_counts : ∃ ft, getitem panel "foreigners_total" = Ok ft
                    ∧ mapM to_float ft = Ok vals;
  dp_years_length : length years = length keys;
  dp_vals_length : length vals = length keys;
  dp_unique : NoDup (select (in_2016 years) keys);
  dp_2016 : 2016 ∈ years
}.

(** [treated_regions] as a map: the regions with a row in 2016, each with
    the flag of that row. *)
Definition treated_map (years : list Z) (keys : list string)
    (intensity : Series) (t : float) : gmap string bool :=
  list_to_map (zip (select (in_2016 years) keys)
                   (above t <$> select (in_2016 years) intensity)).

Definition treated_of (M : gmap string bool) (k : string) : Z :=
  from_option int_of_bool 0 (M !! k).

Definition post_of (y : Z) : Z := int_of_bool (bool_decide (2016 ≤ y)).

(** The panel [run_did_with_threshold] expects: integer years, text
    regions, a numeric [treatment_intensity], an integer [post], and one
    row per region in 2016 at most. *)
Record threshold_panel (panel : DataFrame) (years : list Z)
    (keys : list string) (intensity : Series) (posts : list Z) : Prop := {
  tp_year : getitem panel "year" = Ok (Int <$> years);
  tp_region : getitem panel "region" = Ok (Str <$> keys);
  tp_intensity : getitem panel "treatment_intensity" = Ok intensity;
  tp_numeric : Forall numeric intensity;
  tp_post : getitem panel "post" = Ok (Int <$> posts);
  tp_years_length : length years = length keys;
  tp_intensity_length : length intensity = length keys;
  tp_posts_length : length posts = length keys;
  tp_unique : NoDup (select (in_2016 years) keys)
}.

Fixpoint all_digits (s : string) : bool :=
  match s with
  | String a s' => is_digit a && all_digits s'
  | EmptyString => true
  end.

(** No digit at the start: the empty string, or a first character that is
    not a digit. *)
Definition no_leading_digit (s : string) : Prop :=
  match s with
  | String a _ => is_digit a = false
  | EmptyString => True
  end.

(** What the loop does with one parameter: a row if its name matches. *)
Definition extract (event_model : RegressionResults.t) (ref_year : Z)
    (item : string * float) : option EventRow.t :=
  digits ← event_pattern_match item.1;
  Some (event_row event_model ref_year item.1 item.2 digits).

(** The calendar years read off the names that match. *)
Definition extracted_years (event_model : RegressionResults.t) : list Z :=
  omap (λ item : string * float, int_of_digits <$> event_pattern_match item.1)
    (RegressionResults.params event_model).

(** The row of the grid for one entry and its fitted model. *)
Definition grid_row (name : string) (thr : float)
    (model : RegressionResults.t) : GridRow.t :=
  GridRow.mk name thr
    (series_get (RegressionResults.params model) "did_alt" PrimFloat.nan)
    (series_get (RegressionResults.bse model) "did_alt" PrimFloat.nan)
    (series_get (RegressionResults.pvalues model) "did_alt" PrimFloat.nan).

(** The least of [y :: ys]. *)
Definition least (y : Z) (ys : list Z) : Z := foldl Z.min y ys.

(** The frame handed to the fit, from the rows before the cutoff alone:
    [pre] stands for [panel[panel["year"] < pre_cutoff_year]] and [ys] for
    its years. *)
Definition year_num_of (ys : list Z) : list Z :=
  match ys with
  | [] => []
  | y :: ys' => (λ z, wrap64 (z - least y ys')) <$> ys
  end.

(** The columns [add_treatment_variables] assigns, in the order of its
    assignments. *)
Definition design_variables : list string :=
  ["treatment_intensity"; "treated"; "post"; "did"].

(** A frame of [n] rows: every column has [n] entries. *)
Definition rectangular (df : DataFrame) (n : nat) : Prop :=
  Forall (λ cv : string * Series, length cv.2 = n) df.

(** An integer that an int64 entry can hold. *)
Definition int64 (z : Z) : Prop := int64_min ≤ z ≤ int64_max.

(** The factor of the calendar year in the formula of [fit_event_study]. *)
Definition event_factor (ref_year : Z) : string :=
  "C(year, Treatment(reference=" +:+ pretty ref_year +:+ "))".

(** The name of the interaction of the level [year] of that factor with
    [treated]. *)
Definition event_term (ref_year year : Z) : string :=
  event_factor ref_year +:+ "[" +:+ pretty year +:+ "]:treated".

(** The rows of [year] whose intensity is not missing. *)
Definition kept (year : Z) (years intensity : Series) : list bool :=
  zip_with (λ y c, eq_scalar year y && negb (isna c)) years intensity.

(** A name written in ASCII. *)
Definition ascii_name (s : string) : Prop :=
  Forall (λ a, (nat_of_ascii a < 128)%nat) (list_ascii_of_string s).
Global Instance ascii_name_dec (s : string) : Decision (ascii_name s).
Proof. unfold ascii_name. apply _. Defined.

(** ** Small inputs *)

(** A small panel to run the definitions on: regions A and B are observed
    in 2015 and 2016, C in 2015 only, D in 2016 only. *)
Definition demo_panel : DataFrame :=
  [("year", [Int 2015; Int 2015; Int 2015; Int 2016; Int 2016; Int 2016]);
   ("region", [Str "A"; Str "B"; Str "C"; Str "A"; Str "B"; Str "D"]);
   ("foreigners_total", [Int 10; Int 5; Int 7; Int 12; Int 9; Int 3]);
   ("total_cases", [Int 3; Int 4; Int 1; Int 5; Int 6; Int 0]);
   ("population_total",
    [Int 1000; Int 1000; Int 500; Int 1000; Int 2000; Int 0])].

Definition demo_years : list Z := [2015; 2015; 2015; 2016; 2016; 2016].
Definition demo_regions : list string := ["A"; "B"; "C"; "A"; "B"; "D"].
Definition demo_counts : list float := of_int64 <$> [10; 5; 7; 12; 9; 3].

(** What [prepare_analysis_panel] makes of it. *)
Definition demo_prepared : DataFrame :=
  demo_panel ++
  [("crime_rate_per_100k", [Num 300; Num 400; Num 200; Num 500; Num 300; NaN]);
   ("treatment_intensity", [NaN; NaN; NaN; Num 2; Num 4; NaN]);
   ("treated", [Int 0; Int 1; Int 0; Int 0; Int 1; Int 0]);
   ("post", [Int 0; Int 0; Int 0; Int 1; Int 1; Int 1]);
   ("did", [Int 0; Int 0; Int 0; Int 0; Int 1; Int 0])].

Definition demo_foreigners : Series := Int <$> [10; 5; 7; 12; 9; 3].

(** Two regions whose counts fall or stand still from 2015 to 2016: the
    intensities of 2016 are -1 and 0, their median is -0.5. *)
Definition falling_panel : DataFrame :=
  [("year", [Int 2015; Int 2015; Int 2016; Int 2016]);
   ("region", [Str "A"; Str "B"; Str "A"; Str "B"]);
   ("foreigners_total", [Int 10; Int 5; Int 9; Int 5])].

(** A fit that only counts the rows it is given. *)
Definition count_rows_fit (formula : string) (data : DataFrame)
  : result RegressionResults.t :=
  Ok (RegressionResults.mk
        [("nobs", of_int64 (Z.of_nat (nrows data)))] [] [] []).

(** An event-study model of the years 2014 and 2016. *)
Definition demo_model : RegressionResults.t :=
  let a := "C(year, Treatment(reference=2015))[2014]:treated" in
  let b := "C(year, Treatment(reference=2015))[2016]:treated" in
  RegressionResults.mk
    [("Intercept", 10%float); (a, 1%float); (b, 2%float)]
    [("Intercept", 1%float); (a, 0.5%float); (b, 0.25%float)]
    [("Intercept", 0%float); (a, 0.5%float); (b, 0.125%float)]
    [("Intercept", (8%float, 12%float)); (a, (0%float, 2%float));
     (b, (1.5%float, 2.5%float))].

(** A model with two interaction terms of the year 2015, coded against two
    different reference years: both names match the pattern. *)
Definition two_references_model : RegressionResults.t :=
  let a := "C(year, Treatment(reference=2014))[2015]:treated" in
  let b := "C(year, Treatment(reference=2016))[2015]:treated" in
  RegressionResults.mk
    [("Intercept", 10%float); (a, 1%float); (b, 2%float)]
    [("Intercept", 1%float); (a, 0.5%float); (b, 0.25%float)]
    [("Intercept", 0%float); (a, 0.5%float); (b, 0.125%float)]
    [("Intercept", (8%float, 12%float)); (a, (0%float, 2%float));
     (b, (1.5%float, 2.5%float))].

(** Two regions observed in 2014 and 2015 only. *)
Definition early_panel : DataFrame :=
  [("year", [Int 2014; Int 2015; Int 2014; Int 2015]);
   ("region", [Str "A"; Str "A"; Str "B"; Str "B"]);
   ("foreigners_total", [Int 10; Int 12; Int 5; Int 5])].

(** A region with two rows of the year 2016. *)
Definition doubled_panel : DataFrame :=
  [("year", [Int 2015; Int 2016; Int 2016]);
   ("region", [Str "A"; Str "A"; Str "A"]);
   ("foreigners_total", [Int 10; Int 12; Int 13])].

(** The same two regions with their cases and inhabitants: the five
    columns of [prepare_analysis_panel], and no row of 2016. *)
Definition early_cases_panel : DataFrame :=
  early_panel ++
  [("total_cases", [Int 3; Int 4; Int 1; Int 5]);
   ("population_total", [Int 1000; Int 1000; Int 500; Int 500])].

(** The region with two rows of 2016, with its cases and inhabitants. *)
Definition doubled_cases_panel : DataFrame :=
  doubled_panel ++
  [("total_cases", [Int 3; Int 4; Int 1]);
   ("population_total", [Int 1000; Int 1000; Int 1000])].

(** * Lemmas on the error monad and on frames *)

Lemma bind_Ok {A B : Type} (r : result A) (f : A → result B) (b : B) :
  r ≫= f = Ok b ↔ ∃ a, r = Ok a ∧ f a = Ok b.
Proof.
  destruct r as [a|e]; simpl.
  - split; [eauto | by intros (? & [= <-] & ?)].
  - split; [done | by intros (? & [=] & _)].
Qed.

Lemma mapM_Ok_fmap {A B : Type} (f : A → result B) (g : A → B) (l : list A) :
  Forall (λ x, f x = Ok (g x)) l → mapM f l = Ok (g <$> l).
Proof.
  induction 1 as [|x l Hx _ IH]; [done|].
  cbn. rewrite Hx. cbn. by rewrite IH.
Qed.

Lemma mapM_Ok_length {A B : Type} (f : A → result B) (l : list A) (k : list B) :
  mapM f l = Ok k → length k = length l.
Proof.
  revert k. induction l as [|x l IH]; intros k; cbn.
  - by intros [= <-].
  - destruct (f x); cbn; [|done].
    destruct (mapM f l) eqn:E; cbn; [|done].
    intros [= <-]. cbn. f_equal. by apply IH.
Qed.

Lemma getitem_setitem_eq (df : DataFrame) (c : string) (v : Series) :
  getitem (setitem df c v) c = Ok v.
Proof.
  unfold getitem. induction df as [|[k w] df IH]; cbn.
  - by rewrite decide_True.
  - destruct (decide (k = c)) as [->|Hk]; cbn.
    + by rewrite decide_True.
    + by rewrite decide_False.
Qed.

Lemma getitem_setitem_ne (df : DataFrame) (c c' : string) (v : Series) :
  c ≠ c' → getitem (setitem df c v) c' = getitem df c'.
Proof.
  intros Hc. unfold getitem. induction df as [|[k w] df IH]; cbn.
  - by rewrite decide_False.
  - destruct (decide (k = c)) as [->|Hk]; cbn.
    + by rewrite !decide_False.
    + destruct (decide (k = c')); [done|]. apply IH.
Qed.

Lemma columns_setitem (df : DataFrame) (c : string) (v : Series) :
  columns (setitem df c v)
  = if decide (c ∈ columns df) then columns df else columns df ++ [c].
Proof.
  unfold columns. induction df as [|[k w] df IH]; cbn.
  - rewrite decide_False; [done|]. by intros ?%elem_of_nil.
  - destruct (decide (k = c)) as [->|Hk]; cbn.
    + rewrite decide_True; [done|]. by left.
    + rewrite IH. destruct (decide (c ∈ df.*1)) as [Hin|Hin].
      * rewrite decide_True; [done|]. by right.
      * rewrite decide_False; [done|].
        intros [->|?]%elem_of_cons; done.
Qed.

Lemma elem_of_columns_setitem (df : DataFrame) (c c' : string) (v : Series) :
  c' ∈ columns (setitem df c v) ↔ c' = c ∨ c' ∈ columns df.
Proof.
  rewrite columns_setitem. case_decide as Hc.
  - split; [by right|]. by intros [->|?].
  - rewrite elem_of_app, list_elem_of_singleton. tauto.
Qed.

Lemma getitem_Ok_columns (df : DataFrame) (c : string) :
  c ∈ columns df ↔ ∃ v, getitem df c = Ok v.
Proof.
  unfold getitem, columns. induction df as [|[k w] df IH]; cbn.
  - split; [by intros ?%elem_of_nil | by intros [? [=]]].
  - destruct (decide (k = c)) as [->|Hk].
    + split; [eauto | intros; by left].
    + rewrite elem_of_cons, IH. split; [|by right].
      by intros [->|?].
Qed.

(** * The first difference within a group *)

Lemma seen_S (last : gmap string float) keys vals i k v :
  keys !! i = Some k → vals !! i = Some v →
  seen last keys vals (S i) = <[k := v]> (seen last keys vals i).
Proof.
  intros Hk Hv. unfold seen.
  assert (zip keys vals !! i = Some (k, v)) as Hz.
  { rewrite lookup_zip_with. by rewrite Hk, Hv. }
  rewrite (take_S_r _ _ _ Hz), foldl_app. done.
Qed.

Lemma diff_from_length last keys vals :
  length keys = length vals → length (diff_from last keys vals) = length keys.
Proof.
  revert last vals. induction keys as [|k keys IH]; intros last [|v vals];
    cbn; try done.
  intros [= H]. f_equal. by apply IH.
Qed.

Lemma diff_from_lookup last keys vals i k v :
  keys !! i = Some k → vals !! i = Some v →
  diff_from last keys vals !! i
  = Some (match seen last keys vals i !! k with
          | Some p => of_float (PrimFloat.sub v p)
          | None => NaN
          end).
Proof.
  revert last vals i. induction keys as [|k0 keys IH]; intros last vals i;
    [done|].
  destruct vals as [|v0 vals]; [by destruct i|].
  destruct i as [|i]; cbn.
  - by intros [= ->] [= ->].
  - intros Hk Hv. by rewrite (IH _ _ _ Hk Hv).
Qed.

Lemma seen_S_end (last : gmap string float) keys vals i :
  keys !! i = None ∨ vals !! i = None →
  seen last keys vals (S i) = seen last keys vals i.
Proof.
  intros H. unfold seen.
  assert (length (zip keys vals) ≤ i)%nat as Hlen.
  { rewrite length_zip_with.
    destruct H as [H|H]; apply lookup_ge_None in H; lia. }
  rewrite !take_ge; [done|lia|lia].
Qed.

(** No earlier row of the group: nothing has been seen. *)
Lemma seen_first last keys vals i k :
  (∀ j, (j < i)%nat → keys !! j ≠ Some k) →
  seen last keys vals i !! k = last !! k.
Proof.
  induction i as [|i IH]; intros Hno; [done|].
  destruct (keys !! i) as [k'|] eqn:Hk;
    [|rewrite seen_S_end by auto; apply IH; auto with lia].
  destruct (vals !! i) as [v'|] eqn:Hv;
    [|rewrite seen_S_end by auto; apply IH; auto with lia].
  rewrite (seen_S _ _ _ _ _ _ Hk Hv).
  rewrite lookup_insert_ne.
  - apply IH. auto with lia.
  - intros ->. by apply (Hno i); [lia|].
Qed.

(** Row [j] is the latest earlier row of the group: its value is the one
    seen. *)
Lemma seen_previous last keys vals i j k p :
  (j < i)%nat → keys !! j = Some k → vals !! j = Some p →
  (∀ l, (j < l < i)%nat → keys !! l ≠ Some k) →
  seen last keys vals i !! k = Some p.
Proof.
  induction i as [|i IH]; intros Hj Hk Hp Hno; [lia|].
  destruct (decide (j = i)) as [->|Hne].
  - rewrite (seen_S _ _ _ _ _ _ Hk Hp). by rewrite lookup_insert_eq.
  - assert (seen last keys vals i !! k = Some p) as Hi.
    { apply IH; [lia|done|done|]. intros l Hl. apply Hno. lia. }
    destruct (keys !! i) as [k'|] eqn:Hk';
      [|by rewrite seen_S_end by auto].
    destruct (vals !! i) as [v'|] eqn:Hv';
      [|by rewrite seen_S_end by auto].
    rewrite (seen_S _ _ _ _ _ _ Hk' Hv').
    rewrite lookup_insert_ne; [done|].
    intros ->. apply (Hno i); [lia|done].
Qed.

(** * design.py: the treatment intensity *)

Lemma mapM_as_str (keys : list string) : mapM as_str (Str <$> keys) = Ok keys.
Proof.
  induction keys as [|k keys IH]; [done|]. cbn. by rewrite IH.
Qed.

(** What [treatment_intensity] returns on a panel whose regions are text and
    whose counts are numbers. *)
Lemma treatment_intensity_Ok panel keys ft vals :
  getitem panel "region" = Ok (Str <$> keys) →
  getitem panel "foreigners_total" = Ok ft →
  mapM to_float ft = Ok vals →
  treatment_intensity panel = Ok (groupby_diff keys vals).
Proof.
  intros Hr Hf Hv. unfold treatment_intensity.
  rewrite Hr. cbn. rewrite mapM_as_str. cbn. rewrite Hf. cbn. by rewrite Hv.
Qed.

(** Splits a hypothesis [r ≫= f = Ok b] into the two steps. *)
Ltac inv_bind H :=
  let x := fresh "x" in
  let Hx := fresh "H" x in
  apply bind_Ok in H as (x & Hx & H); cbn beta in H.

(** The frame [add_treatment_variables] returns: the panel with the four
    columns assigned in turn. *)
Lemma add_treatment_variables_inv panel df' :
  add_treatment_variables panel = Ok df' →
  ∃ intensity treated post did,
    treatment_intensity panel = Ok intensity ∧
    df' = setitem (setitem (setitem (setitem panel
            "treatment_intensity" intensity) "treated" treated)
            "post" post) "did" did.
Proof.
  unfold add_treatment_variables. cbn zeta. intros H.
  repeat inv_bind H. injection H as <-. eauto 10.
Qed.

Lemma add_treatment_variables_intensity panel df' intensity :
  treatment_intensity panel = Ok intensity →
  add_treatment_variables panel = Ok df' →
  getitem df' "treatment_intensity" = Ok intensity.
Proof.
  intros Hi (i' & tr & po & di & Hi' & ->)%add_treatment_variables_inv.
  rewrite Hi in Hi'. injection Hi' as <-.
  rewrite !getitem_setitem_ne by done. apply getitem_setitem_eq.
Qed.

(** C4. On a panel whose regions are text and whose counts are numbers,
    [add_treatment_variables] computes [treatment_intensity] as the first
    difference of [foreigners_total] inside each region: the entry of a row
    is missing when no earlier row has its region, and otherwise it is the
    count of the row minus the count of the latest earlier row of its
    region (in float64, as pandas subtracts).  The column of the returned
    frame is this one. *)
Theorem treatment_intensity_first_difference
    (panel : DataFrame) (keys : list string) (ft : Series)
    (vals : list float) :
  getitem panel "region" = Ok (Str <$> keys) →
  getitem panel "foreigners_total" = Ok ft →
  mapM to_float ft = Ok vals →
  length ft = length keys →
  ∃ intensity,
    treatment_intensity panel = Ok intensity ∧
    length intensity = length keys ∧
    (∀ df', add_treatment_variables panel = Ok df' →
            getitem df' "treatment_intensity" = Ok intensity) ∧
    ∀ i k v, keys !! i = Some k → vals !! i = Some v →
      ((∀ j, (j < i)%nat → keys !! j ≠ Some k) →
       intensity !! i = Some NaN) ∧
      (∀ j p, (j < i)%nat → keys !! j = Some k → vals !! j = Some p →
              (∀ l, (j < l < i)%nat → keys !! l ≠ Some k) →
              intensity !! i = Some (of_float (PrimFloat.sub v p))).
Proof.
  intros Hr Hf Hv Hlen.
  pose proof (treatment_intensity_Ok _ _ _ _ Hr Hf Hv) as Hti.
  exists (groupby_diff keys vals). split; [done|].
  assert (length vals = length keys) as Hlen'.
  { rewrite <- Hlen. by eapply mapM_Ok_length. }
  split; [by apply diff_from_length|].
  split; [intros df'; by apply add_treatment_variables_intensity|].
  intros i k v Hk Hvi. unfold groupby_diff.
  rewrite (diff_from_lookup _ _ _ _ _ _ Hk Hvi). split.
  - intros Hno. by rewrite seen_first, lookup_empty.
  - intros j p Hj Hkj Hpj Hno.
    by rewrite (seen_previous _ _ _ _ _ _ _ Hj Hkj Hpj Hno).
Qed.

(** * Masks and numeric columns *)

Lemma select_fmap {A B : Type} (f : A → B) (mask : list bool) (l : list A) :
  select mask (f <$> l) = f <$> select mask l.
Proof.
  revert l. induction mask as [|b mask IH]; intros [|x l]; cbn; try done.
  destruct b; cbn; by rewrite IH.
Qed.

Lemma select_zip {A B : Type} (mask : list bool) (a : list A) (b : list B) :
  select mask (zip a b) = zip (select mask a) (select mask b).
Proof.
  revert a b. induction mask as [|m mask IH]; intros [|x a] [|y b]; cbn;
    try done.
  - by destruct m, (select mask a).
  - destruct m; cbn; by rewrite IH.
Qed.

Lemma select_length {A B : Type} (mask : list bool) (a : list A) (b : list B) :
  length a = length b → length (select mask a) = length (select mask b).
Proof.
  revert a b. induction mask as [|m mask IH]; intros [|x a] [|y b]; cbn;
    try done.
  intros [= H]. destruct m; cbn; by rewrite (IH a b).
Qed.

Lemma elem_of_select {A : Type} (mask : list bool) (l : list A) (x : A) :
  x ∈ select mask l ↔ ∃ j, mask !! j = Some true ∧ l !! j = Some x.
Proof.
  revert l. induction mask as [|m mask IH]; intros [|y l]; cbn.
  - split; [by intros ?%elem_of_nil | by intros (? & ? & ?)].
  - split; [by intros ?%elem_of_nil | by intros (? & ? & ?)].
  - split; [by intros ?%elem_of_nil | by intros (? & ? & ?)].
  - destruct m.
    + rewrite elem_of_cons, IH. split.
      * intros [->|(j & ? & ?)]; [by exists 0%nat | by exists (S j)].
      * intros ([|j] & Hm & Hl); cbn in *; [left; congruence | right; eauto].
    + rewrite IH. split.
      * intros (j & ? & ?). by exists (S j).
      * intros ([|j] & Hm & Hl); cbn in *; [done | eauto].
Qed.

Lemma Forall_select {A : Type} (P : A → Prop) (mask : list bool) (l : list A) :
  Forall P l → Forall P (select mask l).
Proof.
  intros H. apply Forall_forall. intros x (j & _ & Hx)%elem_of_select.
  by eapply Forall_lookup_1.
Qed.

Lemma of_float_numeric (x : float) : numeric (of_float x).
Proof. unfold of_float. by destruct (PrimFloat.is_nan x). Qed.

Lemma diff_from_numeric last keys vals :
  Forall numeric (diff_from last keys vals).
Proof.
  revert last vals. induction keys as [|k keys IH]; intros last [|v vals];
    cbn; try done.
  constructor; [|apply IH].
  destruct (last !! k); [apply of_float_numeric | done].
Qed.

Lemma mapM_to_float_numeric (l : Series) :
  Forall numeric l ↔ ∃ xs, mapM to_float l = Ok xs.
Proof.
  induction l as [|c l IH]; cbn.
  - split; [eauto | done].
  - rewrite Forall_cons, IH. split.
    + intros [Hc [xs ->]]. destruct c; cbn; try done; eauto.
    + destruct c; cbn; try (by intros [? [=]]);
        destruct (mapM to_float l); cbn; eauto; by intros [? [=]].
Qed.

Lemma mapM_gt_float (t : float) (l : Series) :
  Forall numeric l → mapM (gt_float t) l = Ok (above t <$> l).
Proof.
  intros H. apply mapM_Ok_fmap. eapply Forall_impl; [done|].
  by intros [].
Qed.

Lemma median_Ok (s : Series) :
  Forall numeric s → s ≠ [] → ∃ m, median s = Ok (Some m).
Proof.
  intros Hs Hne. unfold median.
  assert (Forall numeric (filter (λ c, isna c = false) s)) as Hf.
  { apply Forall_forall. intros c [_ Hc]%list_elem_of_filter.
    by eapply Forall_forall in Hs. }
  apply mapM_to_float_numeric in Hf as [xs ->]. cbn.
  destruct s; [done|eauto].
Qed.

Lemma wrap64_small (z : Z) : - 2 ^ 63 ≤ z < 2 ^ 63 → wrap64 z = z.
Proof.
  intros H. unfold wrap64. rewrite Z.mod_small; lia.
Qed.

(** * design.py: the treatment variables *)

Lemma eq_scalar_Int (n : Z) (years : list Z) :
  eq_scalar n <$> (Int <$> years) = (λ y, bool_decide (y = n)) <$> years.
Proof. by rewrite <- list_fmap_compose. Qed.

Lemma mapM_ge_scalar_Int (n : Z) (years : list Z) :
  mapM (ge_scalar n) (Int <$> years)
  = Ok ((λ y, bool_decide (n ≤ y)) <$> years).
Proof.
  rewrite (mapM_Ok_fmap _ (λ c, match c with Int z => bool_decide (n ≤ z)
                                 | _ => false end)).
  - by rewrite <- list_fmap_compose.
  - apply Forall_fmap, Forall_true. done.
Qed.

Lemma zip_cells_mul_Int (a b : list Z) :
  zip_cells mul_cell (Int <$> a) (Int <$> b)
  = Ok (zip_with (λ x y, Int (wrap64 (x * y))) a b).
Proof.
  unfold zip_cells. revert b. induction a as [|x a IH]; intros [|y b]; cbn;
    try done.
  specialize (IH b). cbn in IH. by rewrite IH.
Qed.

Lemma fmap_zip_with {A B C D : Type} (g : C → D) (f : A → B → C)
    (a : list A) (b : list B) :
  zip_with (λ x y, g (f x y)) a b = g <$> zip_with f a b.
Proof.
  revert b. induction a as [|x a IH]; intros [|y b]; cbn; try done.
  by rewrite IH.
Qed.

Lemma treated_of_01 M k : treated_of M k = 0 ∨ treated_of M k = 1.
Proof. unfold treated_of. destruct (M !! k) as [[]|]; cbn; auto. Qed.

Lemma post_of_01 y : post_of y = 0 ∨ post_of y = 1.
Proof. unfold post_of. case_bool_decide; cbn; auto. Qed.

Lemma select_2016_nonempty {A : Type} (years : list Z) (l : list A) :
  2016 ∈ years → length l = length years → select (in_2016 years) l ≠ [].
Proof.
  intros [j Hj]%list_elem_of_lookup Hlen.
  destruct (lookup_lt_is_Some_2 l j) as [x Hx].
  { rewrite Hlen. by eapply lookup_lt_Some. }
  assert (x ∈ select (in_2016 years) l) as Hin.
  { apply elem_of_select. exists j. split; [|done].
    unfold in_2016. rewrite list_lookup_fmap, Hj. cbn.
    by rewrite bool_decide_eq_true_2. }
  intros E. rewrite E in Hin. by apply elem_of_nil in Hin.
Qed.

(** The frame returned on such a panel, column by column. *)
Lemma add_treatment_variables_design panel years keys vals :
  design_panel panel years keys vals →
  ∃ m, median (select (in_2016 years) (groupby_diff keys vals)) = Ok (Some m) ∧
    let M := treated_map years keys (groupby_diff keys vals)
               (of_int64 (float_to_int64 m)) in
    add_treatment_variables panel
    = Ok (setitem (setitem (setitem (setitem panel
            "treatment_intensity" (groupby_diff keys vals))
            "treated" ((λ k, Int (treated_of M k)) <$> keys))
            "post" ((λ y, Int (post_of y)) <$> years))
            "did" (zip_with (λ k y, Int (treated_of M k * post_of y))
                     keys years)).
Proof.
  intros [Hy Hr (ft & Hf & Hv) Hly Hlv Hnd H16].
  set (intensity := groupby_diff keys vals).
  assert (length intensity = length keys) as Hli.
  { by apply diff_from_length. }
  assert (Forall numeric (select (in_2016 years) intensity)) as Hnum.
  { apply Forall_select, diff_from_numeric. }
  destruct (median_Ok (select (in_2016 years) intensity)) as [m Hm];
    [done | apply select_2016_nonempty; [done|lia] |].
  exists m. split; [done|]. intros M.
  unfold add_treatment_variables. cbn zeta.
  rewrite (treatment_intensity_Ok _ _ _ _ Hr Hf Hv). cbn.
  fold intensity.
  rewrite (getitem_setitem_ne _ "treatment_intensity" "year") by done.
  rewrite Hy. cbn.
  rewrite getitem_setitem_eq. cbn.
  rewrite eq_scalar_Int. fold (in_2016 years).
  rewrite Hm. cbn.
  rewrite (mapM_gt_float _ _ Hnum). cbn.
  rewrite (getitem_setitem_ne _ "treatment_intensity" "region") by done.
  rewrite Hr. cbn.
  rewrite select_fmap, !mapM_as_str. cbn.
  unfold series_map. rewrite decide_True; last first.
  { rewrite fst_zip; [done|].
    rewrite length_fmap. by rewrite (select_length _ keys intensity). }
  cbn.
  rewrite (getitem_setitem_ne _ "treated" "year") by done.
  rewrite (getitem_setitem_ne _ "treatment_intensity" "year") by done.
  rewrite Hy. cbn. rewrite mapM_ge_scalar_Int. cbn.
  rewrite (getitem_setitem_ne _ "post" "treated") by done.
  rewrite !getitem_setitem_eq. cbn.
  replace (fillna0_int <$> _) with (Int <$> (treated_of M <$> keys))
    by (by rewrite <- !list_fmap_compose).
  replace (Int ∘ int_of_bool <$> _) with (Int <$> (post_of <$> years))
    by (by rewrite <- !list_fmap_compose).
  rewrite zip_cells_mul_Int. cbn.
  rewrite <- !list_fmap_compose. do 2 f_equal.
  rewrite zip_with_fmap_l, zip_with_fmap_r.
  apply zip_with_ext; [|done..]. intros k y. f_equal.
  apply wrap64_small.
  destruct (treated_of_01 M k) as [->| ->], (post_of_01 y) as [->| ->]; lia.
Qed.

Lemma in_2016_lookup (years : list Z) (j : nat) :
  in_2016 years !! j = Some true ↔ years !! j = Some 2016.
Proof.
  unfold in_2016. rewrite list_lookup_fmap.
  destruct (years !! j) as [y|]; cbn; [|done].
  case_bool_decide; split; intros [=]; by subst.
Qed.

(** A region is in [treated_regions] with flag [b] exactly when one of its
    rows is a row of 2016 whose intensity has flag [b]. *)
Lemma treated_map_Some years keys intensity t k b :
  length years = length keys → length intensity = length keys →
  NoDup (select (in_2016 years) keys) →
  treated_map years keys intensity t !! k = Some b ↔
  ∃ j c, years !! j = Some 2016 ∧ keys !! j = Some k
         ∧ intensity !! j = Some c ∧ b = above t c.
Proof.
  intros Hly Hli Hnd. unfold treated_map.
  rewrite <- elem_of_list_to_map; last first.
  { rewrite fst_zip; [done|].
    rewrite length_fmap. by rewrite (select_length _ keys intensity). }
  rewrite zip_with_fmap_r, zip_with_zip, list_elem_of_fmap.
  rewrite <- select_zip. split.
  - intros ([k' c] & [= -> ->] & (j & Hj & Hz)%elem_of_select).
    apply lookup_zip_with_Some in Hz as (? & ? & [= <- <-] & ? & ?).
    exists j, c. by rewrite <- in_2016_lookup.
  - intros (j & c & Hj & Hk & Hc & ->). exists (k, c). split; [done|].
    apply elem_of_select. exists j. rewrite in_2016_lookup. split; [done|].
    rewrite lookup_zip_with, Hk, Hc. done.
Qed.

Lemma treated_map_None years keys intensity t k :
  length years = length keys → length intensity = length keys →
  treated_map years keys intensity t !! k = None ↔
  ∀ j, years !! j = Some 2016 → keys !! j ≠ Some k.
Proof.
  intros Hly Hli. unfold treated_map.
  rewrite <- not_elem_of_list_to_map.
  rewrite fst_zip; last first.
  { rewrite length_fmap. by rewrite (select_length _ keys intensity). }
  rewrite elem_of_select. split.
  - intros Hno j Hj Hk. apply Hno. exists j. by rewrite in_2016_lookup.
  - intros Hno (j & Hj%in_2016_lookup & Hk). by eapply Hno.
Qed.

Lemma treated_of_1 (M : gmap string bool) (k : string) :
  treated_of M k = 1 ↔ M !! k = Some true.
Proof.
  unfold treated_of. destruct (M !! k) as [[]|]; cbn; split; try done; lia.
Qed.

(** The columns of the frame of [add_treatment_variables_design], read
    back from it. *)
Lemma design_columns panel intensity treated post did :
  let df' := setitem (setitem (setitem (setitem panel
               "treatment_intensity" intensity) "treated" treated)
               "post" post) "did" did in
  getitem df' "treatment_intensity" = Ok intensity ∧
  getitem df' "treated" = Ok treated ∧
  getitem df' "post" = Ok post ∧
  getitem df' "did" = Ok did.
Proof.
  cbn zeta. repeat split.
  - rewrite !getitem_setitem_ne by done. apply getitem_setitem_eq.
  - rewrite !getitem_setitem_ne by done. apply getitem_setitem_eq.
  - rewrite !getitem_setitem_ne by done. apply getitem_setitem_eq.
  - apply getitem_setitem_eq.
Qed.


Lemma NoDup_by_decide {A : Type} `{EqDecision A} (l : list A) :
  bool_decide (NoDup l) = true → NoDup l.
Proof. apply bool_decide_eq_true_1. Qed.

(** [demo_panel] is a panel for [add_treatment_variables]. *)
Lemma design_panel_demo :
  design_panel demo_panel demo_years demo_regions demo_counts.
Proof.
  split; try done.
  - by eexists.
  - by apply NoDup_by_decide.
  - by apply (list_elem_of_lookup_2 _ 3%nat).
Qed.


(** * design.py: the crime rate and the prepared panel *)

Lemma zip_cells_rate_numeric (a b : Series) :
  Forall numeric a → Forall numeric b →
  ∃ rate, zip_cells rate_per_100k a b = Ok rate.
Proof.
  intros Ha. unfold zip_cells. revert b.
  induction Ha as [|x a Hx Ha IH]; intros b Hb; [by eexists|].
  destruct Hb as [|y b Hy Hb]; [by eexists|].
  destruct (IH b Hb) as [rate Hrate]. cbn in *. rewrite Hrate.
  destruct x, y; cbn; try done; eauto.
Qed.

(** What [add_crime_rate_if_missing] returns: the panel itself when it has
    the column, the panel with the column otherwise. *)
Lemma add_crime_rate_if_missing_inv panel df :
  add_crime_rate_if_missing panel = Ok df →
  ("crime_rate_per_100k" ∈ columns panel ∧ df = panel) ∨
  (("crime_rate_per_100k" ∉ columns panel) ∧
   ∃ rate, df = setitem panel "crime_rate_per_100k" rate).
Proof.
  unfold add_crime_rate_if_missing. cbn zeta. case_decide as Hc.
  - intros [= <-]. by left.
  - intros H. repeat inv_bind H. injection H as <-. right. eauto.
Qed.

Lemma add_crime_rate_if_missing_Ok panel tc pt :
  getitem panel "total_cases" = Ok tc →
  getitem panel "population_total" = Ok pt →
  Forall numeric tc → Forall numeric pt →
  ∃ df, add_crime_rate_if_missing panel = Ok df.
Proof.
  intros Htc Hpt Hn1 Hn2. unfold add_crime_rate_if_missing. cbn zeta.
  case_decide; [by eexists|].
  rewrite Htc, Hpt. cbn.
  destruct (zip_cells_rate_numeric tc pt Hn1 Hn2) as [rate ->]. cbn.
  by eexists.
Qed.

Lemma design_panel_crime_rate panel df years keys vals :
  add_crime_rate_if_missing panel = Ok df →
  design_panel panel years keys vals → design_panel df years keys vals.
Proof.
  intros [[_ ->]|[_ [rate ->]]]%add_crime_rate_if_missing_inv; [done|].
  intros [Hy Hr (ft & Hf & Hv) Hly Hlv Hnd H16].
  split; try done.
  - by rewrite getitem_setitem_ne.
  - by rewrite getitem_setitem_ne.
  - exists ft. by rewrite getitem_setitem_ne.
Qed.

(** C3, amended.  On a region-year panel (integer years, text regions,
    numeric counts) with at least one row of 2016 and at most one row per
    region in 2016, and with numeric [total_cases] and [population_total],
    [prepare_analysis_panel] returns a frame with the integer columns
    [treated], [post] and [did]: [post] is 1 on the rows with
    [year >= 2016] and 0 on the others, [treated] is 0 or 1 and the same on
    all rows of a region, and [did] is [treated * post]. *)
Theorem prepare_analysis_panel_design
    (panel : DataFrame) (years : list Z) (keys : list string)
    (vals : list float) (total_cases population_total : Series) :
  design_panel panel years keys vals →
  getitem panel "total_cases" = Ok total_cases →
  getitem panel "population_total" = Ok population_total →
  Forall numeric total_cases → Forall numeric population_total →
  ∃ df' treated post did,
    prepare_analysis_panel panel = Ok df' ∧
    getitem df' "treated" = Ok (Int <$> treated) ∧
    getitem df' "post" = Ok (Int <$> post) ∧
    getitem df' "did" = Ok (Int <$> did) ∧
    length treated = length years ∧
    length post = length years ∧
    length did = length years ∧
    (∀ i y, years !! i = Some y →
            post !! i = Some (if decide (2016 ≤ y) then 1 else 0)) ∧
    (∀ i t, treated !! i = Some t → t = 0 ∨ t = 1) ∧
    (∀ i j k, keys !! i = Some k → keys !! j = Some k →
              treated !! i = treated !! j) ∧
    (∀ i t p, treated !! i = Some t → post !! i = Some p →
              did !! i = Some (t * p)).
Proof.
  intros Hp Htc Hpt Hn1 Hn2.
  destruct (add_crime_rate_if_missing_Ok _ _ _ Htc Hpt Hn1 Hn2) as [df Hdf].
  pose proof (design_panel_crime_rate _ _ _ _ _ Hdf Hp) as Hp'.
  destruct (add_treatment_variables_design _ _ _ _ Hp') as (m & Hm & Hdf').
  cbn zeta in Hdf'.
  set (M := treated_map years keys (groupby_diff keys vals)
              (of_int64 (float_to_int64 m))) in *.
  destruct (design_columns df (groupby_diff keys vals)
              ((λ k, Int (treated_of M k)) <$> keys)
              ((λ y, Int (post_of y)) <$> years)
              (zip_with (λ k y, Int (treated_of M k * post_of y)) keys years))
    as (_ & Ht & Hpo & Hd).
  destruct Hp as [_ _ _ Hly Hlv _ _].
  eexists _, (treated_of M <$> keys), (post_of <$> years),
    (zip_with (λ k y, treated_of M k * post_of y) keys years).
  split.
  { unfold prepare_analysis_panel. cbn zeta. rewrite Hdf. cbn.
    rewrite Hdf'. done. }
  split; [by rewrite Ht, <- list_fmap_compose|].
  split; [by rewrite Hpo, <- list_fmap_compose|].
  split.
  { rewrite Hd. f_equal. apply fmap_zip_with. }
  split; [by rewrite length_fmap|].
  split; [by rewrite length_fmap|].
  split; [rewrite length_zip_with; lia|].
  split.
  { intros i y Hy. rewrite list_lookup_fmap, Hy. cbn. f_equal.
    unfold post_of. case_bool_decide; by case_decide. }
  split.
  { intros i t. rewrite list_lookup_fmap.
    destruct (keys !! i) as [k|]; cbn; [|done].
    intros [= <-]. apply treated_of_01. }
  split.
  { intros i j k Hi Hj. by rewrite !list_lookup_fmap, Hi, Hj. }
  intros i t p. rewrite !list_lookup_fmap, lookup_zip_with.
  destruct (keys !! i) as [k|]; cbn; [|done].
  destruct (years !! i) as [y|]; cbn; [|done].
  by intros [= <-] [= <-].
Qed.

(** C3 as the spec states it fails on [early_cases_panel] and on
    [doubled_cases_panel], which have the five columns:
    [prepare_analysis_panel] returns no frame, it raises AttributeError on
    the first (no row of 2016: the median is the plain float, which has no
    [astype]) and InvalidIndexError on the second (two rows of a region in
    2016: [map] refuses the repeated index). *)
Lemma prepare_analysis_panel_returns_fails :
  Forall (λ c, c ∈ columns early_cases_panel ∧ c ∈ columns doubled_cases_panel)
    ["year"; "region"; "foreigners_total"; "total_cases";
     "population_total"] ∧
  prepare_analysis_panel early_cases_panel = Raise AttributeError ∧
  prepare_analysis_panel doubled_cases_panel = Raise InvalidIndexError ∧
  ¬ (∃ df, prepare_analysis_panel early_cases_panel = Ok df) ∧
  ¬ (∃ df, prepare_analysis_panel doubled_cases_panel = Ok df).
Proof.
  split.
  { by apply (bool_decide_eq_true_1
                (Forall (λ c, c ∈ columns early_cases_panel
                              ∧ c ∈ columns doubled_cases_panel)
                   ["year"; "region"; "foreigners_total"; "total_cases";
                    "population_total"])). }
  assert (prepare_analysis_panel early_cases_panel = Raise AttributeError)
    as H1 by by vm_compute.
  assert (prepare_analysis_panel doubled_cases_panel
          = Raise InvalidIndexError) as H2 by by vm_compute.
  split; [exact H1|]. split; [exact H2|].
  split; intros [df H]; congruence.
Qed.

(** * models.py: the alternative threshold *)

Lemma treated_map_astype_int years keys intensity t k :
  from_option id 0
    ((list_to_map (zip (select (in_2016 years) keys)
                       (int_of_bool <$> (above t <$> select (in_2016 years) intensity)))
      : gmap string Z) !! k)
  = treated_of (treated_map years keys intensity t) k.
Proof.
  unfold treated_of, treated_map.
  set (idx := select (in_2016 years) keys).
  set (flags := above t <$> select (in_2016 years) intensity).
  replace (zip idx (int_of_bool <$> flags))
    with (prod_map id int_of_bool <$> zip idx flags).
  - rewrite list_to_map_fmap, lookup_fmap.
    by destruct (list_to_map (zip idx flags) !! k).
  - generalize idx flags. clear. intros idx.
    induction idx as [|a idx IH]; intros [|b flags]; cbn; try done.
    by rewrite IH.
Qed.

(** The frame handed to the fit on such a panel, column by column. *)
Lemma threshold_design_panel panel years keys intensity posts threshold :
  threshold_panel panel years keys intensity posts →
  let M := treated_map years keys intensity threshold in
  threshold_design panel threshold
  = Ok (setitem (setitem panel
          "treated_alt" ((λ k, Int (treated_of M k)) <$> keys))
          "did_alt" (zip_with (λ k p, Int (wrap64 (treated_of M k * p)))
                       keys posts)).
Proof.
  intros [Hy Hr Hi Hnum Hpo Hly Hli Hlp Hnd] M.
  unfold threshold_design. cbn zeta.
  rewrite Hy. cbn. rewrite Hr. cbn.
  rewrite eq_scalar_Int. fold (in_2016 years).
  rewrite select_fmap, !mapM_as_str. cbn. rewrite Hi. cbn.
  rewrite (mapM_gt_float _ _ (Forall_select _ _ _ Hnum)). cbn.
  unfold series_map. rewrite decide_True; last first.
  { rewrite fst_zip; [done|].
    rewrite !length_fmap. by rewrite (select_length _ keys intensity). }
  cbn. rewrite getitem_setitem_eq. cbn.
  rewrite (getitem_setitem_ne _ "treated_alt" "post") by done.
  rewrite Hpo. cbn.
  replace (Int ∘ from_option id 0 <$> _) with (Int <$> (treated_of M <$> keys)).
  - rewrite zip_cells_mul_Int. cbn. rewrite <- list_fmap_compose.
    by rewrite zip_with_fmap_l.
  - rewrite <- (list_fmap_compose (treated_of M)).
    rewrite <- (list_fmap_compose _ (Int ∘ from_option id 0)).
    apply list_fmap_ext. intros _ k _. cbn.
    by rewrite treated_map_astype_int.
Qed.

(** A region whose rows of 2016 (if any) have a missing intensity is not
    treated, whatever the threshold. *)
Lemma treated_of_control years keys intensity t k :
  length years = length keys → length intensity = length keys →
  NoDup (select (in_2016 years) keys) →
  (∀ j, years !! j = Some 2016 → keys !! j = Some k →
        intensity !! j = Some NaN) →
  treated_of (treated_map years keys intensity t) k = 0.
Proof.
  intros Hly Hli Hnd Hna. unfold treated_of.
  destruct (treated_map years keys intensity t !! k) as [b|] eqn:E; [|done].
  apply treated_map_Some in E as (j & c & Hj & Hk & Hc & ->); [|done..].
  rewrite (Hna j Hj Hk) in Hc. by injection Hc as <-.
Qed.

(** C9, amended.  On a panel with at most one row per region in 2016
    (for [add_treatment_variables] also with at least one row of 2016, for
    [run_did_with_threshold] with an integer [post]), a region without a
    row of 2016, or whose row of 2016 has a missing [treatment_intensity],
    is a control region in both constructions: in the frame of
    [add_treatment_variables] its [treated] and [did] are 0 on every row,
    and in the frame [run_did_with_threshold] fits its [treated_alt] and
    [did_alt] are 0 on every row. *)
Theorem control_without_intensity_2016
    (panel : DataFrame) (years : list Z) (keys : list string)
    (vals : list float)
    (panel2 : DataFrame) (years2 : list Z) (keys2 : list string)
    (intensity2 : Series) (posts2 : list Z) (threshold : float) :
  design_panel panel years keys vals →
  threshold_panel panel2 years2 keys2 intensity2 posts2 →
  (∃ df' intensity treated did,
     add_treatment_variables panel = Ok df' ∧
     getitem df' "treatment_intensity" = Ok intensity ∧
     getitem df' "treated" = Ok (Int <$> treated) ∧
     getitem df' "did" = Ok (Int <$> did) ∧
     ∀ k, (∀ j, years !! j = Some 2016 → keys !! j = Some k →
                intensity !! j = Some NaN) →
          ∀ i, keys !! i = Some k →
               treated !! i = Some 0 ∧ did !! i = Some 0) ∧
  (∃ df' treated_alt did_alt,
     threshold_design panel2 threshold = Ok df' ∧
     (∀ ols, run_did_with_threshold ols panel2 threshold
             = ols "crime_rate_per_100k ~ did_alt + C(region) + C(year)" df') ∧
     getitem df' "treated_alt" = Ok (Int <$> treated_alt) ∧
     getitem df' "did_alt" = Ok (Int <$> did_alt) ∧
     ∀ k, (∀ j, years2 !! j = Some 2016 → keys2 !! j = Some k →
                intensity2 !! j = Some NaN) →
          ∀ i, keys2 !! i = Some k →
               treated_alt !! i = Some 0 ∧ did_alt !! i = Some 0).
Proof.
  intros Hp Hp2. split.
  - destruct (add_treatment_variables_design _ _ _ _ Hp) as (m & Hm & Hdf).
    cbn zeta in Hdf.
    set (M := treated_map years keys (groupby_diff keys vals)
                (of_int64 (float_to_int64 m))) in *.
    destruct (design_columns panel (groupby_diff keys vals)
                ((λ k, Int (treated_of M k)) <$> keys)
                ((λ y, Int (post_of y)) <$> years)
                (zip_with (λ k y, Int (treated_of M k * post_of y)) keys years))
      as (Hi & Ht & _ & Hd).
    destruct Hp as [_ _ _ Hly Hlv Hnd _].
    eexists _, (groupby_diff keys vals), (treated_of M <$> keys),
      (zip_with (λ k y, treated_of M k * post_of y) keys years).
    split; [exact Hdf|]. split; [exact Hi|].
    split; [by rewrite Ht, <- list_fmap_compose|].
    split; [rewrite Hd; f_equal; apply fmap_zip_with|].
    intros k Hna i Hk.
    assert (treated_of M k = 0) as H0.
    { apply treated_of_control; [done | by apply diff_from_length | done..]. }
    split.
    + by rewrite list_lookup_fmap, Hk, <- H0.
    + rewrite lookup_zip_with, Hk. cbn.
      destruct (years !! i) as [y|] eqn:Hy; cbn.
      * by rewrite H0.
      * apply lookup_ge_None in Hy. apply lookup_lt_Some in Hk. lia.
  - pose proof (threshold_design_panel _ _ _ _ _ threshold Hp2) as Hdf.
    cbn zeta in Hdf.
    set (M := treated_map years2 keys2 intensity2 threshold) in *.
    destruct Hp2 as [_ _ _ _ _ Hly Hli Hlp Hnd].
    eexists _, (treated_of M <$> keys2),
      (zip_with (λ k p, wrap64 (treated_of M k * p)) keys2 posts2).
    split; [exact Hdf|].
    split; [intros ols; unfold run_did_with_threshold; by rewrite Hdf|].
    split.
    { rewrite getitem_setitem_ne by done. rewrite getitem_setitem_eq.
      by rewrite <- list_fmap_compose. }
    split; [rewrite getitem_setitem_eq; f_equal; apply fmap_zip_with|].
    intros k Hna i Hk.
    assert (treated_of M k = 0) as H0 by by apply treated_of_control.
    split.
    + by rewrite list_lookup_fmap, Hk, <- H0.
    + rewrite lookup_zip_with, Hk. cbn.
      destruct (posts2 !! i) as [p|] eqn:Hpi; cbn.
      * by rewrite H0.
      * apply lookup_ge_None in Hpi. apply lookup_lt_Some in Hk. lia.
Qed.

(** C9 as the spec states it fails on [early_panel]: no region has a row
    of 2016, and [add_treatment_variables] assigns no region to the control
    group, it raises AttributeError. *)
Lemma control_without_row_of_2016_fails :
  getitem early_panel "year" = Ok (Int <$> [2014; 2015; 2014; 2015]) ∧
  getitem early_panel "region" = Ok (Str <$> ["A"; "A"; "B"; "B"]) ∧
  (2016 ∉ [2014; 2015; 2014; 2015]) ∧
  add_treatment_variables early_panel = Raise AttributeError ∧
  ¬ (∃ df treated,
       add_treatment_variables early_panel = Ok df ∧
       getitem df "treated" = Ok treated).
Proof.
  assert (add_treatment_variables early_panel = Raise AttributeError) as H
    by by vm_compute.
  split; [reflexivity|]. split; [reflexivity|].
  split; [by apply (bool_decide_eq_false_1 (2016 ∈ [2014; 2015; 2014; 2015]))|].
  split; [exact H|]. intros (df & treated & Hdf & _). congruence.
Qed.

Lemma add_crime_rate_if_missing_present panel :
  "crime_rate_per_100k" ∈ columns panel →
  add_crime_rate_if_missing panel = Ok panel.
Proof.
  intros H. unfold add_crime_rate_if_missing. cbn zeta. by rewrite decide_True.
Qed.

Lemma add_crime_rate_if_missing_again panel df :
  add_crime_rate_if_missing panel = Ok df →
  add_crime_rate_if_missing df = Ok df.
Proof.
  intros [[Hc ->]|[_ [rate ->]]]%add_crime_rate_if_missing_inv;
    apply add_crime_rate_if_missing_present; [done|].
  apply elem_of_columns_setitem. by left.
Qed.

(** C8. [add_crime_rate_if_missing] is idempotent: applied to its own
    result it returns that result (and an exception of the first
    application is the outcome of both); a panel that already has
    [crime_rate_per_100k] is returned as it is; and on a panel with numeric
    [total_cases] and [population_total] it does return a frame. *)
Theorem add_crime_rate_if_missing_idempotent (panel : DataFrame) :
  add_crime_rate_if_missing panel ≫= add_crime_rate_if_missing
  = add_crime_rate_if_missing panel ∧
  ("crime_rate_per_100k" ∈ columns panel →
   add_crime_rate_if_missing panel = Ok panel) ∧
  (∀ total_cases population_total,
     getitem panel "total_cases" = Ok total_cases →
     getitem panel "population_total" = Ok population_total →
     Forall numeric total_cases → Forall numeric population_total →
     ∃ df, add_crime_rate_if_missing panel = Ok df
           ∧ add_crime_rate_if_missing df = Ok df).
Proof.
  split; [|split].
  - destruct (add_crime_rate_if_missing panel) as [df|e] eqn:E; [|done].
    cbn. by eapply add_crime_rate_if_missing_again.
  - apply add_crime_rate_if_missing_present.
  - intros tc pt Htc Hpt Hn1 Hn2.
    destruct (add_crime_rate_if_missing_Ok _ _ _ Htc Hpt Hn1 Hn2) as [df Hdf].
    exists df. split; [done|]. by eapply add_crime_rate_if_missing_again.
Qed.

(** * plots.py: the column checks *)




Lemma mapM_as_key_Int (l : list Z) :
  mapM as_key (Int <$> l) = Ok (Some <$> l).
Proof.
  rewrite (mapM_Ok_fmap _ (λ c, match c with Int z => Some z | _ => None end)).
  - by rewrite <- list_fmap_compose.
  - apply Forall_fmap, Forall_true. done.
Qed.

(** Some required column is missing exactly when the set difference is not
    empty. *)
Lemma missing_columns (required : gset string) (cols : list string) :
  required ∖ list_to_set cols ≠ ∅ ↔ ∃ c, c ∈ required ∧ c ∉ cols.
Proof.
  split.
  - intros (c & Hc)%set_choose_L.
    apply elem_of_difference in Hc as [H1 H2].
    exists c. by rewrite elem_of_list_to_set in H2.
  - intros (c & H1 & H2). apply (non_empty_inhabited_L c).
    apply elem_of_difference. by rewrite elem_of_list_to_set.
Qed.

Global Instance key_le_total : Total key_le.
Proof. intros [a1 a2] [b1 b2]. unfold key_le. cbn. lia. Qed.

Global Instance key_le_trans : Transitive key_le.
Proof. intros [a1 a2] [b1 b2] [c1 c2]. unfold key_le. cbn. lia. Qed.

Lemma pair_key_Some (years flags : list Z) :
  zip_with pair_key (Some <$> years) (Some <$> flags)
  = Some <$> zip years flags.
Proof.
  revert flags. induction years as [|y years IH]; intros [|t flags]; cbn;
    try done.
  by rewrite IH.
Qed.

Lemma omap_id_Some {A : Type} (l : list A) : omap id (Some <$> l) = l.
Proof. induction l as [|x l IH]; cbn; [done|]. by rewrite IH. Qed.

Lemma required_missing (a b c : string) (cols : list string) :
  ({[ a; b; c ]} : gset string) ∖ list_to_set cols ≠ ∅
  ↔ a ∉ cols ∨ b ∉ cols ∨ c ∉ cols.
Proof.
  rewrite missing_columns. split.
  - intros (x & Hx & Hno). rewrite !elem_of_union, !elem_of_singleton in Hx.
    destruct Hx as [[->| ->]| ->]; auto.
  - intros [H|[H|H]]; eexists; (split; [|exact H]);
      rewrite !elem_of_union, !elem_of_singleton; auto.
Qed.

Lemma required_missing2 (a b : string) (cols : list string) :
  ({[ a; b ]} : gset string) ∖ list_to_set cols ≠ ∅ ↔ a ∉ cols ∨ b ∉ cols.
Proof.
  rewrite missing_columns. split.
  - intros (x & Hx & Hno). rewrite elem_of_union, !elem_of_singleton in Hx.
    destruct Hx as [->| ->]; auto.
  - intros [H|H]; eexists; (split; [|exact H]);
      rewrite elem_of_union, !elem_of_singleton; auto.
Qed.




(** * plots.py: the event-study pattern *)

Local Arguments String.append !_ _ : simpl nomatch.

Lemma strip_prefix_Some (p s r : string) :
  strip_prefix p s = Some r ↔ s = (p ++ r)%string.
Proof.
  revert s. induction p as [|a p IH]; intros s; cbn.
  - split; [by intros [= ->] | by intros ->].
  - destruct s as [|b s]; [split; intros [=]|].
    destruct (decide (a = b)) as [->|Hab].
    + rewrite IH. split; [by intros -> | by intros [= ->]].
    + split; [done | intros [= -> ->]; done].
Qed.

Lemma span_digits_spec (s d r : string) :
  span_digits s = (d, r) ↔
  s = (d ++ r)%string ∧ all_digits d = true ∧ no_leading_digit r.
Proof.
  revert d r. induction s as [|a s IH]; intros d r; cbn.
  - split.
    + by intros [= <- <-].
    + intros (H & _ & _). destruct d; [|done]. cbn in H. by subst.
  - destruct (is_digit a) eqn:Ha.
    + destruct (span_digits s) as [d' r'] eqn:E. split.
      * intros [= <- <-]. destruct (proj1 (IH d' r') eq_refl) as (-> & ? & ?).
        cbn. by rewrite Ha.
      * intros (H & Hd & Hr). destruct d as [|b d]; cbn in *.
        -- subst r. cbn in Hr. congruence.
        -- injection H as <- ->. apply andb_true_iff in Hd as [_ Hd].
           assert ((d', r') = (d, r)) as [= -> ->]; [|done].
           apply IH. done.
    + split.
      * intros [= <- <-]. by cbn.
      * intros (H & Hd & Hr). destruct d as [|b d]; cbn in *.
        -- by subst.
        -- injection H as <- ->. rewrite Ha in Hd. done.
Qed.

Lemma digits1_Some (s d r : string) :
  digits1 s = Some (d, r) ↔
  s = (d ++ r)%string ∧ all_digits d = true ∧ d ≠ EmptyString
  ∧ no_leading_digit r.
Proof.
  unfold digits1. destruct (span_digits s) as [d' r'] eqn:E.
  apply span_digits_spec in E as (-> & Hd & Hr).
  destruct (decide (d' = EmptyString)) as [->|Hne].
  - split; [done|]. intros (H & Hd' & Hne & Hr').
    assert (span_digits r' = (d, r)) as E by by apply span_digits_spec.
    cbn in H. rewrite (proj2 (span_digits_spec r' EmptyString r')) in E
      by done. by injection E as <- <-.
  - split.
    + by intros [= <- <-].
    + intros (H & Hd' & Hne' & Hr').
      assert (span_digits (d' ++ r') = (d, r)) as E by by apply span_digits_spec.
      rewrite (proj2 (span_digits_spec (d' ++ r') d' r')) in E by done.
      by injection E as <- <-.
Qed.

(** The pattern, spelled out: [name] matches with group [year = d] exactly
    when it is the fixed text around two runs of digits, the second being
    [d], followed by anything. *)
Lemma event_pattern_match_spec (name d : string) :
  event_pattern_match name = Some d ↔
  ∃ ref rest,
    name = ("C(year, Treatment(reference=" ++ ref ++ "))[" ++ d
            ++ "]:treated" ++ rest)%string
    ∧ all_digits ref = true ∧ ref ≠ EmptyString
    ∧ all_digits d = true ∧ d ≠ EmptyString.
Proof.
  unfold event_pattern_match. split.
  - intros H.
    destruct (strip_prefix _ name) as [s1|] eqn:E1; cbn -[strip_prefix digits1 String.append] in H; [|done].
    apply strip_prefix_Some in E1 as ->.
    destruct (digits1 s1) as [[ref s2]|] eqn:E2; cbn -[strip_prefix digits1 String.append] in H; [|done].
    apply digits1_Some in E2 as (-> & Href & Hne & _).
    destruct (strip_prefix "))[" s2) as [s3|] eqn:E3; cbn -[strip_prefix digits1 String.append] in H; [|done].
    apply strip_prefix_Some in E3 as ->.
    destruct (digits1 s3) as [[d' s4]|] eqn:E4; cbn -[strip_prefix digits1 String.append] in H; [|done].
    apply digits1_Some in E4 as (-> & Hd & Hne' & _).
    destruct (strip_prefix "]:treated" s4) as [s5|] eqn:E5; cbn -[strip_prefix digits1 String.append] in H; [|done].
    apply strip_prefix_Some in E5 as ->. injection H as <-.
    by exists ref, s5.
  - intros (ref & rest & -> & Href & Hne & Hd & Hne').
    rewrite (proj2 (strip_prefix_Some _ _ _) eq_refl).
    cbn -[strip_prefix digits1 String.append].
    rewrite (proj2 (digits1_Some _ ref _)) by done.
    cbn -[strip_prefix digits1 String.append].
    rewrite (proj2 (strip_prefix_Some "))[" _ _) eq_refl).
    cbn -[strip_prefix digits1 String.append].
    rewrite (proj2 (digits1_Some _ d _)) by done.
    cbn -[strip_prefix digits1 String.append].
    by rewrite (proj2 (strip_prefix_Some "]:treated" _ rest) eq_refl).
Qed.

(** * Entries by label, and decimal numerals *)

(** The entry of a label is the first one that carries it. *)
Lemma series_lookup_list_find {A : Type} (s : list (string * A))
    (key : string) :
  series_lookup s key
  = (λ e : nat * (string * A), e.2.2)
      <$> list_find (λ kv : string * A, kv.1 = key) s.
Proof.
  induction s as [|[k v] s IH]; [done|]. cbn.
  destruct (decide (k = key)) as [->|Hne]; [done|].
  rewrite IH. by destruct (list_find _ s) as [[i [k' v']]|].
Qed.

Lemma series_get_list_find (s : list (string * float)) (key : string)
    (d : float) :
  series_get s key d
  = from_option (λ e : nat * (string * float), e.2.2) d
      (list_find (λ kv : string * float, kv.1 = key) s).
Proof.
  unfold series_get. rewrite series_lookup_list_find.
  by destruct (list_find _ s).
Qed.








(** * plots.py: the event-study table *)

Lemma event_rows_loop_omap m ref rows items :
  event_rows_loop m ref rows items = rows ++ omap (extract m ref) items.
Proof.
  revert rows. induction items as [|[name coef] items IH]; intros rows; cbn.
  - by rewrite app_nil_r.
  - unfold extract at 1. cbn.
    destruct (event_pattern_match name) as [digits|]; cbn.
    + by rewrite IH, <- (assoc_L (++)).
    + apply IH.
Qed.

Lemma event_row_year m ref name coef digits :
  EventRow.year (event_row m ref name coef digits) = int_of_digits digits.
Proof.
  unfold event_row. by destruct (series_lookup _ name) as [[??]|].
Qed.

Lemma extract_years m ref (items : list (string * float)) :
  EventRow.year <$> omap (extract m ref) items
  = omap (λ item : string * float,
            int_of_digits <$> event_pattern_match item.1) items.
Proof.
  induction items as [|[name coef] items IH]; [done|]. cbn.
  unfold extract at 1. cbn.
  destruct (event_pattern_match name) as [digits|]; cbn; [|done].
  by rewrite event_row_year, IH.
Qed.

Lemma Forall2_filter_omap {A B : Type} (f : A → option B) (l : list A) :
  Forall2 (λ a b, f a = Some b) (filter (λ a, is_Some (f a)) l) (omap f l).
Proof.
  induction l as [|a l IH]; [constructor|].
  rewrite filter_cons. cbn. destruct (f a) as [b|] eqn:E.
  - rewrite decide_True by eauto. by constructor.
  - rewrite decide_False; [done|]. by intros [? [=]].
Qed.

Lemma omap_nil_iff {A B : Type} (f : A → option B) (l : list A) :
  omap f l = [] ↔ ∀ a, a ∈ l → f a = None.
Proof.
  induction l as [|a l IH]; cbn.
  - split; [by intros _ ? ?%elem_of_nil | done].
  - destruct (f a) as [b|] eqn:E.
    + split; [done|]. intros H. specialize (H a (list_elem_of_here _ _)).
      congruence.
    + rewrite IH. split.
      * intros H x [->|?]%elem_of_cons; auto.
      * intros H x Hx. apply H. by right.
Qed.

Global Instance rel_year_le_total : Total rel_year_le.
Proof. intros a b. unfold rel_year_le. lia. Qed.

Global Instance rel_year_le_trans : Transitive rel_year_le.
Proof. intros a b c. unfold rel_year_le. lia. Qed.

Section EventStudyFacts.
Variable round3 : float → float.

(** The table in one piece: the rows of the loop, the reference row when no
    row has the reference year, sorted, the p-values rounded. *)
Lemma build_event_study_table_eq m ref :
  build_event_study_table round3 m ref
  = match omap (extract m ref) (RegressionResults.params m) with
    | [] => Raise ValueError
    | rows =>
        Ok (round_pvalue round3 <$>
            merge_sort rel_year_le
              (if existsb (λ r, bool_decide (EventRow.year r = ref)) rows
               then rows else rows ++ [reference_row ref]))
    end.
Proof.
  unfold build_event_study_table. cbn zeta.
  rewrite event_rows_loop_omap. cbn. by destruct (omap _ _).
Qed.

Lemma existsb_year rows ref :
  existsb (λ r, bool_decide (EventRow.year r = ref)) rows = true
  ↔ ref ∈ EventRow.year <$> rows.
Proof.
  rewrite existsb_exists, list_elem_of_fmap. split.
  - intros (r & Hr%list_elem_of_In & Hy%bool_decide_eq_true). eauto.
  - intros (r & -> & Hr). exists r.
    by rewrite <- list_elem_of_In, bool_decide_eq_true.
Qed.

Lemma filter_year_round rows ref :
  length (filter (λ r, EventRow.year r = ref) (round_pvalue round3 <$> rows))
  = length (filter (λ r, EventRow.year r = ref) rows).
Proof.
  induction rows as [|r rows IH]; [done|].
  rewrite fmap_cons, !filter_cons. cbn [round_pvalue EventRow.year].
  case_decide; cbn [length]; by rewrite IH.
Qed.
End EventStudyFacts.

Lemma filter_year_unique {A : Type} (f : A → Z) (l : list A) (x : Z) :
  NoDup (f <$> l) → x ∈ f <$> l →
  length (filter (λ a, f a = x) l) = 1%nat.
Proof.
  induction l as [|a l IH].
  - by intros _ ?%elem_of_nil.
  - rewrite fmap_cons. intros [Hn Hnd]%NoDup_cons Hx. rewrite filter_cons.
    destruct (decide (f a = x)) as [<-|Hne]; cbn [length].
    + f_equal. destruct (filter _ l) as [|b k] eqn:E; [done|].
      assert (b ∈ filter (λ a0, f a0 = f a) l) as [Hb Hin]%list_elem_of_filter
        by (rewrite E; left).
      destruct Hn. rewrite <- Hb. by apply list_elem_of_fmap_2.
    + apply IH; [done|]. apply elem_of_cons in Hx as [?|?]; congruence.
Qed.


Lemma filter_reference_row (ref_year : Z) :
  filter (λ row, EventRow.year row = ref_year) [reference_row ref_year]
  = [reference_row ref_year].
Proof. by rewrite filter_cons, decide_True. Qed.

Lemma filter_year_none {A : Type} (f : A → Z) (l : list A) (x : Z) :
  x ∉ f <$> l → filter (λ a, f a = x) l = [].
Proof.
  induction l as [|a l IH]; [done|]. rewrite fmap_cons, not_elem_of_cons.
  intros [Hne Hl]. rewrite filter_cons, decide_False by done. by apply IH.
Qed.

(** C10, amended.  [build_event_study_table] raises ValueError exactly when
    no parameter matches the pattern.  A table it returns is sorted by
    [rel_year] and has at least one row of the reference year; it has
    exactly one when the years written in the matching names are pairwise
    distinct; and when none of these years is the reference year, a row of
    the reference year is the added one: [rel_year = 0], [coef = 0.0], and
    [se], [ci_low], [ci_high] missing. *)
Theorem event_table_sorted_with_reference (round3 : float → float)
    (m : RegressionResults.t) (ref_year : Z) :
  (build_event_study_table round3 m ref_year = Raise ValueError
   ↔ ∀ item, item ∈ RegressionResults.params m →
             event_pattern_match item.1 = None) ∧
  ∀ table, build_event_study_table round3 m ref_year = Ok table →
    StronglySorted (λ a b, EventRow.rel_year a ≤ EventRow.rel_year b) table ∧
    (∃ row, row ∈ table ∧ EventRow.year row = ref_year) ∧
    (NoDup (extracted_years m) →
     length (filter (λ row, EventRow.year row = ref_year) table) = 1%nat) ∧
    (ref_year ∉ extracted_years m →
     length (filter (λ row, EventRow.year row = ref_year) table) = 1%nat ∧
     ∀ row, row ∈ table → EventRow.year row = ref_year →
       EventRow.rel_year row = 0 ∧ EventRow.coef row = PrimFloat.zero ∧
       EventRow.se row = PrimFloat.nan ∧ EventRow.ci_low row = PrimFloat.nan ∧
       EventRow.ci_high row = PrimFloat.nan).
Proof.
  rewrite build_event_study_table_eq.
  pose proof (extract_years m ref_year (RegressionResults.params m)) as Hy.
  fold (extracted_years m) in Hy.
  assert (omap (extract m ref_year) (RegressionResults.params m) = []
          ↔ ∀ item, item ∈ RegressionResults.params m →
                    event_pattern_match item.1 = None) as Hnil.
  { rewrite omap_nil_iff. apply forall_proper. intros [name coef].
    unfold extract. cbn. destruct (event_pattern_match name); cbn; [|done].
    split; intros H Hin; by specialize (H Hin). }
  destruct (omap (extract m ref_year) (RegressionResults.params m))
    as [|r rows] eqn:E.
  { split; [by rewrite <- Hnil | done]. }
  split.
  { rewrite <- Hnil. split; done. }
  remember (r :: rows) as all eqn:Hall. clear r rows Hall Hnil.
  intros table [= <-].
  set (full := if existsb (λ r0, bool_decide (EventRow.year r0 = ref_year)) all
               then all else all ++ [reference_row ref_year]).
  assert (length (filter (λ row, EventRow.year row = ref_year)
                    (round_pvalue round3 <$> merge_sort rel_year_le full))
          = length (filter (λ row, EventRow.year row = ref_year) full)) as Hlen.
  { by rewrite merge_sort_Permutation, filter_year_round. }
  split; [|split; [|split]].
  - eapply StronglySorted_fmap; [|apply StronglySorted_merge_sort; apply _].
    by intros x y.
  - setoid_rewrite list_elem_of_fmap.
    setoid_rewrite merge_sort_Permutation.
    unfold full. destruct (existsb _ all) eqn:Hex.
    + apply existsb_year in Hex as (row & -> & Hin)%list_elem_of_fmap.
      exists (round_pvalue round3 row). split; [eauto|done].
    + exists (round_pvalue round3 (reference_row ref_year)).
      split; [|done]. eexists. split; [done|].
      apply elem_of_app. right. by left.
  - intros Hnd. rewrite Hlen. unfold full.
    destruct (existsb _ all) eqn:Hex.
    + apply filter_year_unique; [by rewrite Hy | by apply existsb_year].
    + rewrite filter_app, length_app, filter_reference_row.
      rewrite filter_year_none; [done|].
      rewrite <- existsb_year. by rewrite Hex.
  - intros Hno. rewrite <- Hy in Hno.
    assert (existsb (λ r0, bool_decide (EventRow.year r0 = ref_year)) all
            = false) as Hex.
    { apply not_true_is_false. by rewrite existsb_year. }
    split.
    + rewrite Hlen. unfold full. rewrite Hex.
      by rewrite filter_app, length_app, filter_reference_row,
        filter_year_none.
    + intros row (row' & -> & Hin)%list_elem_of_fmap Hrow.
      rewrite merge_sort_Permutation in Hin. unfold full in Hin.
      rewrite Hex in Hin. apply elem_of_app in Hin as [Hin|Hin].
      * destruct Hno. cbn in Hrow. rewrite <- Hrow.
        by apply list_elem_of_fmap_2.
      * apply list_elem_of_singleton in Hin as ->. done.
Qed.

(** C10 as the spec states it fails on [two_references_model] with
    reference year 2015: the table has two rows of the year 2015, not
    one. *)
Lemma event_table_two_reference_rows :
  build_event_study_table (λ x, x) two_references_model 2015
  = Ok [EventRow.mk 2015 0 1 0.5 0.5 0 2;
        EventRow.mk 2015 0 2 0.25 0.125 1.5 2.5] ∧
  ¬ (∀ table,
       build_event_study_table (λ x, x) two_references_model 2015 = Ok table →
       length (filter (λ row, EventRow.year row = 2015) table) = 1%nat).
Proof.
  assert (build_event_study_table (λ x, x) two_references_model 2015
          = Ok [EventRow.mk 2015 0 1 0.5 0.5 0 2;
                EventRow.mk 2015 0 2 0.25 0.125 1.5 2.5]) as H
    by by vm_compute.
  split; [exact H|]. intros Hone. specialize (Hone _ H). by vm_compute in Hone.
Qed.

(** * models.py: the threshold grid *)

Section ModelsFacts.
Variable ols : string → DataFrame → result RegressionResults.t.

Lemma threshold_grid_loop_Ok panel rows items table :
  threshold_grid_loop ols panel rows items = Ok table ↔
  ∃ out, table = rows ++ out ∧
    Forall2 (λ (item : string * float) row,
      ∃ model, run_did_with_threshold ols panel item.2 = Ok model
               ∧ row = grid_row item.1 item.2 model) items out.
Proof.
  revert rows table. induction items as [|[name thr] items IH];
    intros rows table; cbn.
  - split.
    + intros [= <-]. exists []. by rewrite app_nil_r.
    + intros (out & -> & ->%Forall2_nil_inv_l). by rewrite app_nil_r.
  - split.
    + intros H. inv_bind H. apply IH in H as (out & -> & HF).
      eexists (_ :: out). split; [by rewrite <- (assoc_L (++))|].
      constructor; [|done]. by exists x.
    + intros (out & -> & HF).
      apply Forall2_cons_inv_l in HF as (row & out' & (model & Hm & ->) & HF & ->).
      cbn in Hm. rewrite Hm. cbn. apply IH. exists out'.
      split; [by rewrite <- (assoc_L (++))|done].
Qed.
End ModelsFacts.

(** C5. [run_threshold_grid] returns a table exactly when every fit
    returns a model, and then the table has one row per entry of the
    mapping, in the order of its items: the row of an entry holds its label,
    its threshold, and the coefficient, standard error and p-value of
    [did_alt] in the model [run_did_with_threshold] fits on the panel with
    that threshold, that is the entry labelled [did_alt] of the model's
    [params], [bse] and [pvalues], or nan where there is none. *)
Theorem threshold_grid_rows
    (ols : string → DataFrame → result RegressionResults.t)
    (panel : DataFrame) (thresholds : list (string * float))
    (table : list GridRow.t) :
  let did_alt_of (s : list (string * float)) : float :=
    match list_find (λ kv : string * float, kv.1 = "did_alt") s with
    | Some (_, (_, v)) => v
    | None => PrimFloat.nan
    end in
  run_threshold_grid ols panel thresholds = Ok table ↔
  length table = length thresholds ∧
  ∀ i name thr, thresholds !! i = Some (name, thr) →
    ∃ model,
      run_did_with_threshold ols panel thr = Ok model ∧
      table !! i
      = Some (GridRow.mk name thr
                (did_alt_of (RegressionResults.params model))
                (did_alt_of (RegressionResults.bse model))
                (did_alt_of (RegressionResults.pvalues model))).
Proof.
  intros did_alt_of.
  assert (∀ s, series_get s "did_alt" PrimFloat.nan = did_alt_of s) as Hget.
  { intros s. rewrite series_get_list_find. unfold did_alt_of.
    by destruct (list_find _ s) as [[i [k v]]|]. }
  unfold run_threshold_grid. rewrite threshold_grid_loop_Ok. split.
  - intros (out & -> & HF). cbn. split; [symmetry; by eapply Forall2_length|].
    intros i name thr Hi.
    destruct (Forall2_lookup_l _ _ _ _ _ HF Hi) as (row & Hrow & model & Hm & ->).
    exists model. split; [done|]. rewrite Hrow. unfold grid_row.
    by rewrite !Hget.
  - intros [Hlen H]. exists table. split; [done|].
    apply Forall2_same_length_lookup. split; [done|].
    intros i [name thr] row Hi Hrow.
    destruct (H i name thr Hi) as (model & Hm & Hrow').
    exists model. split; [done|]. rewrite Hrow in Hrow'.
    injection Hrow' as ->. unfold grid_row. by rewrite !Hget.
Qed.

(** * models.py: the pre-period *)

Lemma getitem_loc (mask : list bool) (df : DataFrame) (c : string) :
  getitem (loc mask df) c = select mask <$> getitem df c.
Proof.
  unfold getitem, loc. induction df as [|[k v] df IH]; cbn; [done|].
  destruct (decide (k = c)); [done|]. apply IH.
Qed.

Lemma mapM_lt_scalar_Int (n : Z) (years : list Z) :
  mapM (lt_scalar n) (Int <$> years)
  = Ok ((λ y, bool_decide (y < n)) <$> years).
Proof.
  rewrite (mapM_Ok_fmap _ (λ c, match c with Int z => bool_decide (z < n)
                                 | _ => false end)).
  - by rewrite <- list_fmap_compose.
  - apply Forall_fmap, Forall_true. done.
Qed.

Lemma select_filter (n : Z) (years : list Z) :
  select ((λ y, bool_decide (y < n)) <$> years) years
  = filter (λ y, y < n) years.
Proof.
  induction years as [|y years IH]; [done|].
  rewrite filter_cons. cbn. rewrite IH.
  case_bool_decide; by case_decide.
Qed.

Lemma least_spec (y : Z) (ys : list Z) :
  least y ys ∈ y :: ys ∧ ∀ z, z ∈ y :: ys → least y ys ≤ z.
Proof.
  unfold least. revert y. induction ys as [|x ys IH]; intros y; cbn.
  - split; [by left|]. intros z ->%list_elem_of_singleton. lia.
  - destruct (IH (Z.min y x)) as [Hin Hle]. split.
    + apply elem_of_cons in Hin as [->|Hin]; [|by do 2 right].
      destruct (Z.min_spec y x) as [[_ ->]|[_ ->]]; [by left|right; by left].
    + intros z Hz. rewrite !elem_of_cons in Hz.
      destruct Hz as [->|[->|Hz]].
      * specialize (Hle (Z.min y x) (list_elem_of_here _ _)). lia.
      * specialize (Hle (Z.min y x) (list_elem_of_here _ _)). lia.
      * apply Hle. by right.
Qed.

Lemma min_from_Int (y : Z) (ys : list Z) :
  min_from (Int y) (Int <$> ys) = Ok (Int (least y ys)).
Proof.
  unfold least. revert y. induction ys as [|x ys IH]; intros y; [done|].
  cbn. apply IH.
Qed.

Lemma filter_notna_Int (ys : list Z) :
  filter (λ c, isna c = false) (Int <$> ys) = Int <$> ys.
Proof.
  induction ys as [|y ys IH]; [done|].
  rewrite fmap_cons, filter_cons. cbn. by rewrite IH.
Qed.

Lemma pretrend_design_Int panel cutoff years :
  getitem panel "year" = Ok (Int <$> years) →
  let keep := (λ y, bool_decide (y < cutoff)) <$> years in
  pretrend_design panel cutoff
  = Ok (setitem (loc keep panel) "year_num"
          (Int <$> year_num_of (select keep years))).
Proof.
  intros Hy keep. unfold pretrend_design.
  rewrite Hy. cbn. rewrite mapM_lt_scalar_Int. cbn. fold keep.
  rewrite getitem_loc, Hy. cbn. rewrite select_fmap.
  unfold series_min. rewrite filter_notna_Int.
  destruct (select keep years) as [|y ys]; [done|].
  rewrite fmap_cons, min_from_Int. cbn -[least].
  rewrite (mapM_Ok_fmap _ (λ c, match c with
                                | Int z => Int (wrap64 (z - least y ys))
                                | _ => NaN end)).
  - cbn -[least]. do 4 f_equal. by rewrite <- !list_fmap_compose.
  - apply Forall_fmap, Forall_true. done.
Qed.

Lemma fmap_Int_inj (a b : list Z) : Int <$> a = Int <$> b → a = b.
Proof.
  revert b. induction a as [|x a IH]; intros [|y b]; cbn; try done.
  intros [= -> H]. f_equal. by apply IH.
Qed.

(** C6. [fit_pretrend_interaction] fits on the rows with
    [year < pre_cutoff_year] alone: the frame it hands to the fit has every
    column of the panel cut to these rows, and [year_num], the year minus
    the least year of these rows in int64 (the plain difference as long as
    it is below 2^63), so the least year has [year_num = 0].  Two panels
    with the same rows before the cutoff give the same fit, whatever their
    other rows are. *)
Theorem pretrend_fits_pre_period
    (ols : string → DataFrame → result RegressionResults.t)
    (panel : DataFrame) (pre_cutoff_year : Z) (years : list Z) :
  getitem panel "year" = Ok (Int <$> years) →
  let keep := (λ y, bool_decide (y < pre_cutoff_year)) <$> years in
  let pre_years := filter (λ y, y < pre_cutoff_year) years in
  ∃ pre year_num,
    pretrend_design panel pre_cutoff_year = Ok pre ∧
    fit_pretrend_interaction ols panel pre_cutoff_year
    = ols "crime_rate_per_100k ~ treated * year_num + C(region)" pre ∧
    (∀ c, c ≠ "year_num" → getitem pre c = select keep <$> getitem panel c) ∧
    getitem pre "year" = Ok (Int <$> pre_years) ∧
    getitem pre "year_num" = Ok (Int <$> year_num) ∧
    (∃ first,
       (pre_years ≠ [] → first ∈ pre_years) ∧
       (∀ y, y ∈ pre_years → first ≤ y) ∧
       year_num = (λ y, wrap64 (y - first)) <$> pre_years ∧
       ((∀ y, y ∈ pre_years → y - first < 2 ^ 63) →
        year_num = (λ y, y - first) <$> pre_years)) ∧
    (pre_years ≠ [] → 0 ∈ year_num) ∧
    (∀ panel2 years2,
       getitem panel2 "year" = Ok (Int <$> years2) →
       loc ((λ y, bool_decide (y < pre_cutoff_year)) <$> years2) panel2
       = loc keep panel →
       fit_pretrend_interaction ols panel2 pre_cutoff_year
       = fit_pretrend_interaction ols panel pre_cutoff_year).
Proof.
  intros Hy keep pre_years.
  pose proof (pretrend_design_Int _ pre_cutoff_year _ Hy) as Hpre.
  cbn zeta in Hpre. fold keep in Hpre.
  assert (select keep years = pre_years) as Hsel by apply select_filter.
  rewrite Hsel in Hpre.
  assert (∃ first,
            (pre_years ≠ [] → first ∈ pre_years) ∧
            (∀ y, y ∈ pre_years → first ≤ y) ∧
            year_num_of pre_years = (λ y, wrap64 (y - first)) <$> pre_years ∧
            ((∀ y, y ∈ pre_years → y - first < 2 ^ 63) →
             year_num_of pre_years = (λ y, y - first) <$> pre_years))
    as Hfirst.
  { assert (∃ first,
              (pre_years ≠ [] → first ∈ pre_years) ∧
              (∀ y, y ∈ pre_years → first ≤ y) ∧
              year_num_of pre_years = (λ y, wrap64 (y - first)) <$> pre_years)
      as (first & Hin & Hle & Hnum).
    { destruct pre_years as [|y ys];
        [exists 0; split; [done|]; split; [|done];
         by intros ? ?%elem_of_nil|].
      exists (least y ys). destruct (least_spec y ys) as [Hin Hle]. done. }
    exists first. split; [done|]. split; [done|]. split; [done|].
    intros Hsmall. rewrite Hnum. apply list_fmap_ext.
    intros i y Hi%list_elem_of_lookup_2. apply wrap64_small.
    specialize (Hle y Hi). specialize (Hsmall y Hi). lia. }
  eexists _, (year_num_of pre_years). split; [exact Hpre|].
  split; [unfold fit_pretrend_interaction; by rewrite Hpre|].
  split.
  { intros c Hc. rewrite getitem_setitem_ne by done. apply getitem_loc. }
  split.
  { rewrite getitem_setitem_ne by done. rewrite getitem_loc, Hy. cbn.
    by rewrite select_fmap, Hsel. }
  split; [apply getitem_setitem_eq|].
  split; [exact Hfirst|].
  split.
  { intros Hne. destruct Hfirst as (first & Hin & _ & -> & _).
    apply list_elem_of_fmap. exists first. split; [|by apply Hin].
    by rewrite Z.sub_diag. }
  intros panel2 years2 Hy2 Hloc.
  assert (select ((λ y, bool_decide (y < pre_cutoff_year)) <$> years2) years2
          = pre_years) as Hsel2.
  { apply fmap_Int_inj. rewrite <- Hsel, <- !select_fmap.
    assert (getitem (loc ((λ y, bool_decide (y < pre_cutoff_year)) <$> years2)
                       panel2) "year"
            = getitem (loc keep panel) "year") as H by by rewrite Hloc.
    rewrite !getitem_loc, Hy, Hy2 in H. cbn in H. by injection H. }
  unfold fit_pretrend_interaction.
  rewrite Hpre, (pretrend_design_Int _ pre_cutoff_year _ Hy2).
  cbn zeta. by rewrite Hloc, Hsel2.
Qed.

(** * Frames, assignment by assignment *)

Lemma getitem_rectangular (df : DataFrame) (n : nat) (c : string) (v : Series) :
  rectangular df n → getitem df c = Ok v → length v = n.
Proof.
  unfold rectangular, getitem. induction 1 as [|[k w] df Hw _ IH]; cbn; [done|].
  destruct (decide (k = c)); [by intros [= <-] | done].
Qed.

Lemma rectangular_setitem (df : DataFrame) (n : nat) (c : string) (v : Series) :
  rectangular df n → length v = n → rectangular (setitem df c v) n.
Proof.
  unfold rectangular. intros H Hv. induction H as [|[k w] df Hw H IH]; cbn.
  - by repeat constructor.
  - destruct (decide (k = c)); by constructor.
Qed.

Lemma setitem_same (df : DataFrame) (c : string) (v : Series) :
  getitem df c = Ok v → setitem df c v = df.
Proof.
  unfold getitem. induction df as [|[k w] df IH]; cbn; [done|].
  destruct (decide (k = c)) as [->|Hk].
  - by intros [= ->].
  - intros H. by rewrite IH.
Qed.

(** The columns after some assignments: the old ones in their places, then
    the new names in the order of their first assignment. *)
Lemma columns_setitem_app (df : DataFrame) (base news : list string)
    (c : string) (v : Series) :
  columns df = base ++ filter (λ x, x ∉ base) news →
  c ∉ news →
  columns (setitem df c v) = base ++ filter (λ x, x ∉ base) (news ++ [c]).
Proof.
  intros Hcols Hc. rewrite columns_setitem, filter_app, Hcols.
  rewrite filter_cons, filter_nil.
  destruct (decide (c ∈ base)) as [Hin|Hin].
  - rewrite decide_True by (apply elem_of_app; by left).
    rewrite decide_False by (intros H; by apply H).
    by rewrite app_nil_r.
  - rewrite decide_False; last first.
    { intros [?|[_ ?]%list_elem_of_filter]%elem_of_app; done. }
    rewrite decide_True by done. by rewrite <- (assoc_L (++)).
Qed.

Lemma zip_cells_length (f : cell → cell → result cell) (a b r : Series) :
  zip_cells f a b = Ok r → length r = (length a `min` length b)%nat.
Proof.
  unfold zip_cells. intros H%mapM_Ok_length. by rewrite H, length_zip_with.
Qed.

Lemma treatment_intensity_ext (a b : DataFrame) :
  getitem a "region" = getitem b "region" →
  getitem a "foreigners_total" = getitem b "foreigners_total" →
  treatment_intensity a = treatment_intensity b.
Proof. unfold treatment_intensity. by intros -> ->. Qed.

(** [add_treatment_variables] step by step: it returns a frame exactly when
    every step does, and the frame is the panel with the four columns
    assigned in turn. *)
Lemma add_treatment_variables_steps (panel df' : DataFrame) :
  add_treatment_variables panel = Ok df' ↔
  ∃ year region keys intensity med threshold flags index mapped post did,
    treatment_intensity panel = Ok intensity ∧
    getitem panel "year" = Ok year ∧
    median (select (eq_scalar 2016 <$> year) intensity) = Ok med ∧
    astype_int med = Ok threshold ∧
    mapM (gt_float (of_int64 threshold))
      (select (eq_scalar 2016 <$> year) intensity) = Ok flags ∧
    getitem panel "region" = Ok region ∧
    mapM as_str (select (eq_scalar 2016 <$> year) region) = Ok index ∧
    mapM as_str region = Ok keys ∧
    series_map keys (zip index flags) = Ok mapped ∧
    mapM (ge_scalar 2016) year = Ok post ∧
    zip_cells mul_cell (fillna0_int <$> mapped) (Int ∘ int_of_bool <$> post)
    = Ok did ∧
    df' = setitem (setitem (setitem (setitem panel
            "treatment_intensity" intensity)
            "treated" (fillna0_int <$> mapped))
            "post" (Int ∘ int_of_bool <$> post))
            "did" did.
Proof.
  unfold add_treatment_variables. cbn zeta. split.
  - intros H. repeat inv_bind H. injection H as <-.
    repeat match goal with
    | H : getitem (setitem _ ?c _) ?c = _ |- _ =>
        rewrite getitem_setitem_eq in H; injection H as <-
    | H : getitem (setitem _ ?c _) ?c' = _ |- _ =>
        rewrite (getitem_setitem_ne _ c c') in H by done
    end.
    repeat match goal with
    | H1 : ?a = Ok ?x, H2 : ?a = Ok ?y |- _ =>
        rewrite H1 in H2; injection H2 as <-
    end.
    do 11 eexists. repeat (split; [eassumption|]). reflexivity.
  - intros (year & region & keys & intensity & med & threshold & flags
            & index & mapped & post & did
            & Hi & Hy & Hm & Ht & Hf & Hr & Hidx & Hk & Hmap & Hp & Hd & ->).
    rewrite Hi. cbn.
    rewrite (getitem_setitem_ne _ "treatment_intensity" "year") by done.
    rewrite Hy. cbn. rewrite getitem_setitem_eq. cbn.
    rewrite Hm. cbn. rewrite Ht. cbn. rewrite Hf. cbn.
    rewrite (getitem_setitem_ne _ "treatment_intensity" "region") by done.
    rewrite Hr. cbn. rewrite Hidx. cbn. rewrite Hk. cbn. rewrite Hmap. cbn.
    rewrite (getitem_setitem_ne _ "treated" "year") by done.
    rewrite (getitem_setitem_ne _ "treatment_intensity" "year") by done.
    rewrite Hy. cbn. rewrite Hp. cbn.
    rewrite (getitem_setitem_ne _ "post" "treated") by done.
    rewrite !getitem_setitem_eq. cbn. rewrite Hd. done.
Qed.

Lemma design_variables_kept (panel : DataFrame) (c : string)
    (intensity treated post did : Series) :
  c ∉ design_variables →
  getitem (setitem (setitem (setitem (setitem panel
             "treatment_intensity" intensity) "treated" treated)
             "post" post) "did" did) c
  = getitem panel c.
Proof.
  intros Hc. unfold design_variables in Hc.
  rewrite !elem_of_cons, elem_of_nil in Hc.
  rewrite !getitem_setitem_ne; [done|..]; intros <-; tauto.
Qed.

Lemma add_treatment_variables_kept (panel df' : DataFrame) (c : string) :
  add_treatment_variables panel = Ok df' →
  c ∉ design_variables → getitem df' c = getitem panel c.
Proof.
  intros (i & tr & po & di & _ & ->)%add_treatment_variables_inv Hc.
  by apply design_variables_kept.
Qed.

Lemma add_treatment_variables_columns (panel df' : DataFrame) :
  add_treatment_variables panel = Ok df' →
  columns df'
  = columns panel ++ filter (λ c, c ∉ columns panel) design_variables.
Proof.
  intros (i & tr & po & di & _ & ->)%add_treatment_variables_inv.
  unfold design_variables.
  apply (columns_setitem_app _ _ ["treatment_intensity"; "treated"; "post"]);
    [|rewrite !elem_of_cons, elem_of_nil; intros [?|[?|[?|?]]]; done].
  apply (columns_setitem_app _ _ ["treatment_intensity"; "treated"]);
    [|rewrite !elem_of_cons, elem_of_nil; intros [?|[?|?]]; done].
  apply (columns_setitem_app _ _ ["treatment_intensity"]);
    [|rewrite !elem_of_cons, elem_of_nil; intros [?|?]; done].
  apply (columns_setitem_app _ _ []); [|by intros ?%elem_of_nil].
  by rewrite filter_nil, app_nil_r.
Qed.

Lemma treatment_intensity_length (panel : DataFrame) (n : nat)
    (intensity : Series) :
  rectangular panel n → treatment_intensity panel = Ok intensity →
  length intensity = n.
Proof.
  intros Hn. unfold treatment_intensity.
  destruct (getitem panel "region") as [region|] eqn:Hr; [|done]. cbn.
  destruct (mapM as_str region) as [keys|] eqn:Hk; [|done]. cbn.
  destruct (getitem panel "foreigners_total") as [ft|] eqn:Hf; [|done]. cbn.
  destruct (mapM to_float ft) as [vals|] eqn:Hv; [|done]. cbn.
  intros [= <-]. apply mapM_Ok_length in Hk, Hv.
  pose proof (getitem_rectangular _ _ _ _ Hn Hr).
  pose proof (getitem_rectangular _ _ _ _ Hn Hf).
  unfold groupby_diff. rewrite diff_from_length; congruence.
Qed.

Lemma add_treatment_variables_rectangular (panel df' : DataFrame) (n : nat) :
  add_treatment_variables panel = Ok df' →
  rectangular panel n → rectangular df' n.
Proof.
  intros (year & region & keys & intensity & med & threshold & flags
          & index & mapped & post & did
          & Hi & Hy & Hm & Ht & Hf & Hr & Hidx & Hk & Hmap & Hp & Hd & ->)
    %add_treatment_variables_steps Hn.
  pose proof (getitem_rectangular _ _ _ _ Hn Hy) as Hly.
  pose proof (getitem_rectangular _ _ _ _ Hn Hr) as Hlr.
  apply mapM_Ok_length in Hk, Hp.
  assert (length mapped = n) as Hlm.
  { unfold series_map in Hmap. case_decide; [|done].
    injection Hmap as <-. rewrite length_fmap. congruence. }
  pose proof (treatment_intensity_length _ _ _ Hn Hi) as Hli.
  apply zip_cells_length in Hd. rewrite !length_fmap in Hd.
  repeat apply rectangular_setitem; try done.
  - by rewrite length_fmap.
  - rewrite length_fmap. congruence.
  - lia.
Qed.

Lemma getitem_missing (df : DataFrame) (c : string) :
  c ∉ columns df → getitem df c = Raise (KeyError c).
Proof.
  intros Hc. destruct (getitem df c) as [v|e] eqn:E.
  - destruct Hc. apply getitem_Ok_columns. eauto.
  - unfold getitem in *. by destruct (lookup_column df c).
Qed.

(** [add_crime_rate_if_missing] step by step on a panel without the
    column. *)
Lemma add_crime_rate_if_missing_steps (panel df : DataFrame) :
  "crime_rate_per_100k" ∉ columns panel →
  add_crime_rate_if_missing panel = Ok df ↔
  ∃ total_cases population_total rate,
    getitem panel "total_cases" = Ok total_cases ∧
    getitem panel "population_total" = Ok population_total ∧
    zip_cells rate_per_100k total_cases population_total = Ok rate ∧
    df = setitem panel "crime_rate_per_100k" rate.
Proof.
  intros Hc. unfold add_crime_rate_if_missing. cbn zeta.
  rewrite decide_False by done. split.
  - intros H. repeat inv_bind H. injection H as <-. eauto 10.
  - intros (tc & pt & rate & -> & -> & Hr & ->). cbn. by rewrite Hr.
Qed.

Lemma add_crime_rate_if_missing_columns (panel df : DataFrame) :
  add_crime_rate_if_missing panel = Ok df →
  columns df
  = columns panel
    ++ filter (λ c, c ∉ columns panel) ["crime_rate_per_100k"].
Proof.
  intros [[Hc ->]|[Hc [rate ->]]]%add_crime_rate_if_missing_inv.
  - rewrite filter_cons, filter_nil, decide_False by (intros H; by apply H).
    by rewrite app_nil_r.
  - apply (columns_setitem_app _ _ []); [|by intros ?%elem_of_nil].
    by rewrite filter_nil, app_nil_r.
Qed.

Lemma add_crime_rate_if_missing_kept (panel df : DataFrame) (c : string) :
  add_crime_rate_if_missing panel = Ok df →
  c ∈ columns panel → getitem df c = getitem panel c.
Proof.
  intros [[Hc ->]|[Hc [rate ->]]]%add_crime_rate_if_missing_inv Hin; [done|].
  apply getitem_setitem_ne. by intros <-.
Qed.

Lemma add_crime_rate_if_missing_rectangular (panel df : DataFrame) (n : nat) :
  add_crime_rate_if_missing panel = Ok df →
  rectangular panel n → rectangular df n.
Proof.
  intros H Hn.
  destruct (decide ("crime_rate_per_100k" ∈ columns panel)) as [Hc|Hc].
  - rewrite add_crime_rate_if_missing_present in H by done. by injection H as <-.
  - apply add_crime_rate_if_missing_steps in H
      as (tc & pt & rate & Htc & Hpt & Hr & ->); [|done].
    apply rectangular_setitem; [done|].
    apply zip_cells_length in Hr.
    rewrite (getitem_rectangular _ _ _ _ Hn Htc) in Hr.
    rewrite (getitem_rectangular _ _ _ _ Hn Hpt) in Hr. lia.
Qed.

Lemma filter_not_in_app (base extra news : list string) :
  (∀ x, x ∈ news → x ∉ extra) →
  filter (λ c, c ∉ base ++ extra) news = filter (λ c, c ∉ base) news.
Proof.
  intros H. induction news as [|x news IH]; [done|].
  rewrite !filter_cons, IH by (intros y Hy; apply H; by right).
  assert (x ∉ extra) as Hx by (apply H; by left).
  destruct (decide (x ∉ base)) as [Hb|Hb].
  - rewrite decide_True; [done|].
    intros [?|?]%elem_of_app; done.
  - rewrite decide_False; [done|].
    intros Hn. apply Hb. intros ?. apply Hn, elem_of_app. by left.
Qed.

Lemma mapM_Ok_Forall2 {A B : Type} (f : A → result B) (l : list A)
    (k : list B) :
  mapM f l = Ok k → Forall2 (λ x y, f x = Ok y) l k.
Proof.
  revert k. induction l as [|x l IH]; intros k; cbn.
  - intros [= <-]. constructor.
  - destruct (f x) as [y|] eqn:E; cbn; [|done].
    destruct (mapM f l) as [k'|]; cbn; [|done].
    intros [= <-]. constructor; [done | by apply IH].
Qed.

Lemma zip_cells_rate_is_numeric (a b rate : Series) :
  zip_cells rate_per_100k a b = Ok rate → Forall numeric rate.
Proof.
  unfold zip_cells. intros H%mapM_Ok_Forall2.
  induction H as [|[x y] c l k Hc _ IH]; constructor; [|done].
  unfold rate_per_100k in Hc. cbn in Hc.
  destruct (to_float x); cbn in Hc; [|done].
  destruct (to_float y); cbn in Hc; [|done].
  injection Hc as <-. apply of_float_numeric.
Qed.

(** * design.py: the crime rate, row by row *)

(** A float whose specification is the nan is a nan. *)
Lemma is_nan_spec (x : float) : Prim2SF x = S754_nan → PrimFloat.is_nan x = true.
Proof. intros H. unfold PrimFloat.is_nan. by rewrite FloatAxioms.eqb_spec, H. Qed.

(** A rate from a missing count or a missing population is missing. *)
Lemma rate_of_nan (x y : float) :
  Prim2SF x = S754_nan ∨ Prim2SF y = S754_nan →
  of_float (PrimFloat.mul (PrimFloat.div x y) (of_int64 100000)) = NaN.
Proof.
  intros H. unfold of_float. rewrite is_nan_spec; [done|].
  rewrite mul_spec, div_spec.
  assert (SF64div (Prim2SF x) (Prim2SF y) = S754_nan) as ->.
  { destruct H as [-> | ->]; [done|]. by destruct (Prim2SF x). }
  done.
Qed.

Lemma to_float_isna (c : cell) (x : float) :
  to_float c = Ok x → isna c = true → Prim2SF x = S754_nan.
Proof. destruct c; cbn; try done. by intros [= <-]. Qed.

(** X1. On a panel without [crime_rate_per_100k] and with numeric
    [total_cases] and [population_total], [add_crime_rate_if_missing] adds
    the column row by row: the rate of a row is its [total_cases] divided by
    its [population_total], times 100000, in float64.  It is missing when
    either entry is missing, and when both are the integer 0. *)
Theorem crime_rate_rows
    (panel : DataFrame) (total_cases population_total : Series) :
  "crime_rate_per_100k" ∉ columns panel →
  getitem panel "total_cases" = Ok total_cases →
  getitem panel "population_total" = Ok population_total →
  Forall numeric total_cases → Forall numeric population_total →
  length total_cases = length population_total →
  ∃ df rate,
    add_crime_rate_if_missing panel = Ok df ∧
    getitem df "crime_rate_per_100k" = Ok rate ∧
    length rate = length total_cases ∧
    ∀ i a b, total_cases !! i = Some a → population_total !! i = Some b →
      (∃ x y, to_float a = Ok x ∧ to_float b = Ok y ∧
         rate !! i
         = Some (of_float (PrimFloat.mul (PrimFloat.div x y)
                             (of_int64 100000)))) ∧
      (isna a = true ∨ isna b = true → rate !! i = Some NaN) ∧
      (a = Int 0 → b = Int 0 → rate !! i = Some NaN).
Proof.
  intros Hc Htc Hpt Hn1 Hn2 Hlen.
  destruct (add_crime_rate_if_missing_Ok _ _ _ Htc Hpt Hn1 Hn2) as [df Hdf].
  pose proof Hdf as Hdf0.
  apply add_crime_rate_if_missing_steps in Hdf
    as (tc & pt & rate & Htc' & Hpt' & Hrate & ->); [|done].
  rewrite Htc in Htc'. injection Htc' as <-.
  rewrite Hpt in Hpt'. injection Hpt' as <-.
  exists (setitem panel "crime_rate_per_100k" rate), rate.
  split; [done|]. split; [apply getitem_setitem_eq|].
  split; [apply zip_cells_length in Hrate; lia|].
  intros i a b Ha Hb.
  unfold zip_cells in Hrate. apply mapM_Ok_Forall2 in Hrate.
  assert (zip total_cases population_total !! i = Some (a, b)) as Hz
    by (by rewrite lookup_zip_with, Ha, Hb).
  destruct (Forall2_lookup_l _ _ _ _ _ Hrate Hz) as (r & Hr & Hab).
  unfold rate_per_100k in Hab. cbn in Hab.
  destruct (to_float a) as [x|] eqn:Hx; cbn in Hab; [|done].
  destruct (to_float b) as [y|] eqn:Hy; cbn in Hab; [|done].
  injection Hab as <-.
  split; [by exists x, y|]. split.
  - intros H. rewrite Hr. f_equal. apply rate_of_nan.
    destruct H as [H|H]; [left | right]; by eapply to_float_isna.
  - intros -> ->. cbn in Hx, Hy. injection Hx as <-. injection Hy as <-.
    by rewrite Hr.
Qed.

(** * design.py: what the frame keeps *)

(** X2. [add_treatment_variables] and [prepare_analysis_panel] only add
    columns.  The frame returned has the columns of the panel in their
    places, followed by those of [treatment_intensity], [treated], [post]
    and [did] (for [prepare_analysis_panel], [crime_rate_per_100k] before
    them) that the panel did not have; every other column is returned as it
    was; and on a panel of [n] rows every column of the result has [n]
    rows. *)
Theorem design_frame_kept (panel : DataFrame) :
  (∀ df', add_treatment_variables panel = Ok df' →
     columns df'
     = columns panel ++ filter (λ c, c ∉ columns panel) design_variables ∧
     (∀ c, c ∉ design_variables → getitem df' c = getitem panel c) ∧
     (∀ n, rectangular panel n → rectangular df' n)) ∧
  (∀ df', prepare_analysis_panel panel = Ok df' →
     columns df'
     = columns panel
       ++ filter (λ c, c ∉ columns panel)
            ("crime_rate_per_100k" :: design_variables) ∧
     (∀ c, c ∈ columns panel → c ∉ design_variables →
           getitem df' c = getitem panel c) ∧
     (∀ n, rectangular panel n → rectangular df' n)).
Proof.
  split.
  - intros df' H. split; [|split].
    + by apply add_treatment_variables_columns.
    + intros c Hc. by apply add_treatment_variables_kept.
    + intros n. by apply add_treatment_variables_rectangular.
  - intros df' H. unfold prepare_analysis_panel in H. cbn zeta in H.
    apply bind_Ok in H as (df & Hdf & H).
    apply bind_Ok in H as (df'' & Hdf' & [= ->]).
    split; [|split].
    + rewrite (add_treatment_variables_columns _ _ Hdf').
      rewrite (add_crime_rate_if_missing_columns _ _ Hdf).
      rewrite <- (assoc_L (++)). f_equal.
      rewrite filter_not_in_app; last first.
      { intros x Hx [_ Hy]%list_elem_of_filter.
        apply list_elem_of_singleton in Hy as ->.
        unfold design_variables in Hx.
        rewrite !elem_of_cons, elem_of_nil in Hx.
        destruct Hx as [?|[?|[?|[?|?]]]]; done. }
      rewrite !(filter_cons _ "crime_rate_per_100k"), filter_nil.
      by destruct (decide ("crime_rate_per_100k" ∉ columns panel)).
    + intros c Hin Hc.
      rewrite (add_treatment_variables_kept _ _ _ Hdf' Hc).
      by apply add_crime_rate_if_missing_kept.
    + intros n Hn.
      apply (add_treatment_variables_rectangular _ _ _ Hdf').
      by apply (add_crime_rate_if_missing_rectangular _ _ _ Hdf).
Qed.

(** * design.py: applying the design twice *)

Lemma add_treatment_variables_again (panel df' : DataFrame) :
  add_treatment_variables panel = Ok df' →
  add_treatment_variables df' = Ok df'.
Proof.
  intros H. pose proof H as Hsteps.
  apply add_treatment_variables_steps in Hsteps
    as (year & region & keys & intensity & med & threshold & flags
        & index & mapped & post & did
        & Hi & Hy & Hm & Ht & Hf & Hr & Hidx & Hk & Hmap & Hp & Hd & Hdf).
  assert (∀ c, c ∉ design_variables → getitem df' c = getitem panel c)
    as Hkept by (intros c; by apply add_treatment_variables_kept).
  assert (∀ c : string, c ∈ ["year"; "region"; "foreigners_total"] →
                        c ∉ design_variables) as Hin.
  { intros c. unfold design_variables.
    rewrite !elem_of_cons, !elem_of_nil.
    intros [->|[->|[->|[]]]] [?|[?|[?|[?|[]]]]]; done. }
  destruct (design_columns panel intensity (fillna0_int <$> mapped)
              (Int ∘ int_of_bool <$> post) did) as (Hci & Hct & Hcp & Hcd).
  cbn zeta in Hci, Hct, Hcp, Hcd. rewrite <- Hdf in Hci, Hct, Hcp, Hcd.
  apply add_treatment_variables_steps.
  exists year, region, keys, intensity, med, threshold, flags, index,
    mapped, post, did.
  repeat split; try done.
  - rewrite <- Hi. apply treatment_intensity_ext; apply Hkept, Hin;
      rewrite !elem_of_cons; auto.
  - rewrite <- Hy. apply Hkept, Hin. rewrite !elem_of_cons; auto.
  - rewrite <- Hr. apply Hkept, Hin. rewrite !elem_of_cons; auto.
  - rewrite (setitem_same _ _ _ Hci), (setitem_same _ _ _ Hct).
    by rewrite (setitem_same _ _ _ Hcp), (setitem_same _ _ _ Hcd).
Qed.

(** X3. Applying the design twice changes nothing:
    [add_treatment_variables] applied to a frame it returned returns that
    frame, and so does [prepare_analysis_panel]; an exception of the first
    application is the outcome of both. *)
Theorem design_idempotent (panel : DataFrame) :
  add_treatment_variables panel ≫= add_treatment_variables
  = add_treatment_variables panel ∧
  prepare_analysis_panel panel ≫= prepare_analysis_panel
  = prepare_analysis_panel panel.
Proof.
  split.
  - destruct (add_treatment_variables panel) as [df'|e] eqn:E; [|done].
    exact (add_treatment_variables_again _ _ E).
  - destruct (prepare_analysis_panel panel) as [df'|e] eqn:E; [|done].
    cbn. unfold prepare_analysis_panel in *. cbn zeta in *.
    apply bind_Ok in E as (df & Hdf & E).
    apply bind_Ok in E as (df'' & Hdf' & [= ->]).
    rewrite add_crime_rate_if_missing_present; last first.
    { rewrite (add_treatment_variables_columns _ _ Hdf').
      apply elem_of_app. left.
      apply add_crime_rate_if_missing_again in Hdf.
      destruct (decide ("crime_rate_per_100k" ∈ columns df)) as [|Hno];
        [done|].
      apply add_crime_rate_if_missing_steps in Hdf
        as (? & ? & rate & _ & _ & _ & Heq); [|done].
      destruct Hno. rewrite Heq. apply elem_of_columns_setitem. by left. }
    cbn. by rewrite (add_treatment_variables_again _ _ Hdf').
Qed.

(** * design.py: the columns and rows the design needs *)

Lemma treatment_intensity_columns (panel : DataFrame) (intensity : Series) :
  treatment_intensity panel = Ok intensity →
  "region" ∈ columns panel ∧ "foreigners_total" ∈ columns panel.
Proof.
  unfold treatment_intensity. intros H. repeat inv_bind H.
  split; apply getitem_Ok_columns; eauto.
Qed.

(** X4. The columns the design needs.  [add_treatment_variables] returns a
    frame only on a panel with [year], [region] and [foreigners_total], and
    it raises KeyError for the first of [region], [foreigners_total] (the
    regions being text) and [year] (the counts being numbers) that is
    absent.  On a panel without [crime_rate_per_100k],
    [add_crime_rate_if_missing] and [prepare_analysis_panel] raise KeyError
    for [total_cases] when it is absent, and else for [population_total]
    when that is absent. *)
Theorem design_required_columns (panel : DataFrame) :
  (∀ df', add_treatment_variables panel = Ok df' →
     "year" ∈ columns panel ∧ "region" ∈ columns panel
     ∧ "foreigners_total" ∈ columns panel) ∧
  ("region" ∉ columns panel →
   add_treatment_variables panel = Raise (KeyError "region")) ∧
  (∀ keys, getitem panel "region" = Ok (Str <$> keys) →
     "foreigners_total" ∉ columns panel →
     add_treatment_variables panel = Raise (KeyError "foreigners_total")) ∧
  (∀ keys ft, getitem panel "region" = Ok (Str <$> keys) →
     getitem panel "foreigners_total" = Ok ft → Forall numeric ft →
     "year" ∉ columns panel →
     add_treatment_variables panel = Raise (KeyError "year")) ∧
  ("crime_rate_per_100k" ∉ columns panel → "total_cases" ∉ columns panel →
   add_crime_rate_if_missing panel = Raise (KeyError "total_cases") ∧
   prepare_analysis_panel panel = Raise (KeyError "total_cases")) ∧
  ("crime_rate_per_100k" ∉ columns panel → "total_cases" ∈ columns panel →
   "population_total" ∉ columns panel →
   add_crime_rate_if_missing panel = Raise (KeyError "population_total") ∧
   prepare_analysis_panel panel = Raise (KeyError "population_total")).
Proof.
  split; [|split; [|split; [|split; [|split]]]].
  - intros df' (year & region & keys & intensity & med & threshold & flags
                & index & mapped & post & did
                & Hi & Hy & _)%add_treatment_variables_steps.
    split; [apply getitem_Ok_columns; eauto|].
    by eapply treatment_intensity_columns.
  - intros Hr. unfold add_treatment_variables, treatment_intensity. cbn zeta.
    by rewrite (getitem_missing _ _ Hr).
  - intros keys Hr Hf.
    unfold add_treatment_variables, treatment_intensity. cbn zeta.
    rewrite Hr. cbn. rewrite mapM_as_str. cbn.
    by rewrite (getitem_missing _ _ Hf).
  - intros keys ft Hr Hf [vals Hv]%mapM_to_float_numeric Hy.
    unfold add_treatment_variables. cbn zeta.
    rewrite (treatment_intensity_Ok _ _ _ _ Hr Hf Hv). cbn.
    rewrite (getitem_setitem_ne _ "treatment_intensity" "year") by done.
    by rewrite (getitem_missing _ _ Hy).
  - intros Hc Htc.
    assert (add_crime_rate_if_missing panel = Raise (KeyError "total_cases"))
      as H.
    { unfold add_crime_rate_if_missing. cbn zeta.
      rewrite decide_False by done. by rewrite (getitem_missing _ _ Htc). }
    split; [done|]. unfold prepare_analysis_panel. cbn zeta. by rewrite H.
  - intros Hc [tc Htc]%getitem_Ok_columns Hpt.
    assert (add_crime_rate_if_missing panel
            = Raise (KeyError "population_total")) as H.
    { unfold add_crime_rate_if_missing. cbn zeta.
      rewrite decide_False by done. rewrite Htc. cbn.
      by rewrite (getitem_missing _ _ Hpt). }
    split; [done|]. unfold prepare_analysis_panel. cbn zeta. by rewrite H.
Qed.

Lemma select_none {A : Type} (mask : list bool) (l : list A) :
  Forall (λ b, b = false) mask → select mask l = [].
Proof.
  intros H. revert l. induction H as [|b mask -> _ IH]; intros [|x l]; cbn;
    try done.
Qed.

(** X5. A panel without a row of the year 2016 (a panel without rows
    included) cannot be designed: the median of no row is the plain float,
    which has no [astype], so [add_treatment_variables] raises
    AttributeError, and so does [prepare_analysis_panel] on a panel that has
    its crime rate. *)
Theorem no_row_of_2016 (panel : DataFrame) (years : list Z)
    (keys : list string) (ft : Series) :
  getitem panel "year" = Ok (Int <$> years) →
  getitem panel "region" = Ok (Str <$> keys) →
  getitem panel "foreigners_total" = Ok ft →
  Forall numeric ft →
  2016 ∉ years →
  add_treatment_variables panel = Raise AttributeError ∧
  ("crime_rate_per_100k" ∈ columns panel →
   prepare_analysis_panel panel = Raise AttributeError).
Proof.
  intros Hy Hr Hf [vals Hv]%mapM_to_float_numeric H16.
  assert (add_treatment_variables panel = Raise AttributeError) as H.
  { unfold add_treatment_variables. cbn zeta.
    rewrite (treatment_intensity_Ok _ _ _ _ Hr Hf Hv). cbn.
    rewrite (getitem_setitem_ne _ "treatment_intensity" "year") by done.
    rewrite Hy. cbn. rewrite getitem_setitem_eq. cbn.
    rewrite eq_scalar_Int. rewrite select_none; [done|].
    apply Forall_fmap, Forall_forall. intros y Hin. cbn.
    apply bool_decide_eq_false_2. by intros ->. }
  split; [done|]. intros Hc. unfold prepare_analysis_panel. cbn zeta.
  rewrite add_crime_rate_if_missing_present by done. cbn. by rewrite H.
Qed.

(** X6. Two rows of one region in 2016: [treated_regions] then has a
    repeated index, [map] refuses it, and [add_treatment_variables] raises
    InvalidIndexError. *)
Theorem two_rows_of_a_region_in_2016 (panel : DataFrame) (years : list Z)
    (keys : list string) (ft : Series) (vals : list float) :
  getitem panel "year" = Ok (Int <$> years) →
  getitem panel "region" = Ok (Str <$> keys) →
  getitem panel "foreigners_total" = Ok ft →
  mapM to_float ft = Ok vals →
  length years = length keys → length vals = length keys →
  ¬ NoDup (select (in_2016 years) keys) →
  add_treatment_variables panel = Raise InvalidIndexError.
Proof.
  intros Hy Hr Hf Hv Hly Hlv Hdup.
  set (intensity := groupby_diff keys vals).
  assert (length intensity = length keys) as Hli.
  { by apply diff_from_length. }
  assert (Forall numeric (select (in_2016 years) intensity)) as Hnum.
  { apply Forall_select, diff_from_numeric. }
  destruct (median_Ok (select (in_2016 years) intensity)) as [m Hm];
    [done| |].
  { intros E. apply Hdup.
    assert (length (select (in_2016 years) keys) = 0%nat) as H0.
    { by rewrite (select_length _ keys intensity), E. }
    destruct (select (in_2016 years) keys); [constructor|done]. }
  unfold add_treatment_variables. cbn zeta.
  rewrite (treatment_intensity_Ok _ _ _ _ Hr Hf Hv). cbn.
  fold intensity.
  rewrite (getitem_setitem_ne _ "treatment_intensity" "year") by done.
  rewrite Hy. cbn.
  rewrite getitem_setitem_eq. cbn.
  rewrite eq_scalar_Int. fold (in_2016 years).
  rewrite Hm. cbn.
  rewrite (mapM_gt_float _ _ Hnum). cbn.
  rewrite (getitem_setitem_ne _ "treatment_intensity" "region") by done.
  rewrite Hr. cbn.
  rewrite select_fmap, !mapM_as_str. cbn.
  unfold series_map. rewrite decide_False; [done|].
  rewrite fst_zip; [done|].
  rewrite length_fmap. by rewrite (select_length _ keys intensity).
Qed.

(** * models.py: the treated group of a threshold *)

(** X7. On a prepared panel [run_did_with_threshold] fits the panel with two
    more columns and the others as they were: [treated_alt] is 1 on the rows
    of a region exactly when the intensity of the region's row of 2016 is
    strictly above the threshold (the threshold as it is given, not cut to
    an integer) and 0 otherwise, and [did_alt] is [treated_alt * post]. *)
Theorem treated_alt_iff_above_threshold
    (panel : DataFrame) (years : list Z) (keys : list string)
    (intensity : Series) (posts : list Z) (threshold : float) :
  threshold_panel panel years keys intensity posts →
  Forall int64 posts →
  ∃ df' treated_alt did_alt,
    threshold_design panel threshold = Ok df' ∧
    (∀ ols, run_did_with_threshold ols panel threshold
            = ols "crime_rate_per_100k ~ did_alt + C(region) + C(year)" df') ∧
    getitem df' "treated_alt" = Ok (Int <$> treated_alt) ∧
    getitem df' "did_alt" = Ok (Int <$> did_alt) ∧
    (∀ c, c ≠ "treated_alt" → c ≠ "did_alt" →
          getitem df' c = getitem panel c) ∧
    ∀ i k, keys !! i = Some k →
      ∃ t, treated_alt !! i = Some t ∧ (t = 0 ∨ t = 1) ∧
        (t = 1 ↔
         ∃ j c, years !! j = Some 2016 ∧ keys !! j = Some k
                ∧ intensity !! j = Some c ∧ above threshold c = true) ∧
        ∀ p, posts !! i = Some p → did_alt !! i = Some (t * p).
Proof.
  intros Hp Hposts.
  pose proof (threshold_design_panel _ _ _ _ _ threshold Hp) as Hdf.
  cbn zeta in Hdf.
  destruct Hp as [Hy Hr Hi Hnum Hpo Hly Hli Hlp Hnd].
  set (M := treated_map years keys intensity threshold) in *.
  eexists _, (treated_of M <$> keys),
    (zip_with (λ k p, wrap64 (treated_of M k * p)) keys posts).
  split; [exact Hdf|]. split; [|split; [|split; [|split]]].
  - intros ols. unfold run_did_with_threshold. by rewrite Hdf.
  - rewrite getitem_setitem_ne by done. rewrite getitem_setitem_eq.
    by rewrite <- list_fmap_compose.
  - rewrite getitem_setitem_eq. f_equal.
    by rewrite <- fmap_zip_with.
  - intros c H1 H2. by rewrite !getitem_setitem_ne.
  - intros i k Hk. exists (treated_of M k).
    split; [by rewrite list_lookup_fmap, Hk|].
    split; [apply treated_of_01|]. split.
    + rewrite treated_of_1. unfold M. rewrite treated_map_Some by done.
      split.
      * intros (j & c & ? & ? & ? & ?). by exists j, c.
      * intros (j & c & ? & ? & ? & ?). by exists j, c.
    + intros p Hpi. rewrite lookup_zip_with, Hk. cbn. rewrite Hpi. cbn.
      f_equal. apply wrap64_small.
      eapply Forall_lookup_1 in Hposts; [|done].
      unfold int64, int64_min, int64_max in Hposts.
      destruct (treated_of_01 M k) as [->| ->]; lia.
Qed.

(** * models.py: thresholds in order *)

Lemma SFleb_SFltb_trans (a b c : spec_float) :
  SFleb a b = true → SFltb b c = true → SFltb a c = true.
Proof.
  unfold SFleb, SFltb.
  destruct a as [sa|sa| |sa ma ea], b as [sb|sb| |sb mb eb],
    c as [sc|sc| |sc mc ec]; cbn;
    repeat match goal with s : bool |- _ => destruct s end; cbn; try done.
  - change (Pos.compare_cont Eq ?x ?y) with (Pos.compare x y).
    destruct (Z.compare_spec ea eb), (Z.compare_spec eb ec),
      (Z.compare_spec ea ec); try done; try lia; subst;
      destruct (Pos.compare_spec ma mb), (Pos.compare_spec mb mc),
        (Pos.compare_spec ma mc); cbn; try done; try lia.
  - change (Pos.compare_cont Eq ?x ?y) with (Pos.compare x y).
    destruct (Z.compare_spec ea eb), (Z.compare_spec eb ec),
      (Z.compare_spec ea ec); try done; try lia; subst;
      destruct (Pos.compare_spec ma mb), (Pos.compare_spec mb mc),
        (Pos.compare_spec ma mc); cbn; try done; try lia.
Qed.

(** [t1 <= t2 < x] gives [t1 < x], also on infinities; a nan is never
    part of such a chain. *)
Lemma float_le_lt_trans (t1 t2 x : float) :
  PrimFloat.leb t1 t2 = true → PrimFloat.ltb t2 x = true →
  PrimFloat.ltb t1 x = true.
Proof. rewrite FloatAxioms.leb_spec, !FloatAxioms.ltb_spec. apply SFleb_SFltb_trans. Qed.

Lemma above_mono (t1 t2 : float) (c : cell) :
  PrimFloat.leb t1 t2 = true → above t2 c = true → above t1 c = true.
Proof.
  intros Hle. destruct c; cbn; try done; by apply float_le_lt_trans.
Qed.

(** X8. A higher threshold never adds a treated region: with
    [low <= high], every row with [treated_alt = 1] under [high] has
    [treated_alt = 1] under [low]. *)
Theorem higher_threshold_fewer_treated
    (panel : DataFrame) (years : list Z) (keys : list string)
    (intensity : Series) (posts : list Z) (low high : float) :
  threshold_panel panel years keys intensity posts →
  PrimFloat.leb low high = true →
  ∃ df_low df_high treated_low treated_high,
    threshold_design panel low = Ok df_low ∧
    threshold_design panel high = Ok df_high ∧
    getitem df_low "treated_alt" = Ok (Int <$> treated_low) ∧
    getitem df_high "treated_alt" = Ok (Int <$> treated_high) ∧
    length treated_low = length keys ∧
    length treated_high = length keys ∧
    ∀ i, treated_high !! i = Some 1 → treated_low !! i = Some 1.
Proof.
  intros Hp Hle.
  pose proof (threshold_design_panel _ _ _ _ _ low Hp) as Hlow.
  pose proof (threshold_design_panel _ _ _ _ _ high Hp) as Hhigh.
  cbn zeta in Hlow, Hhigh.
  destruct Hp as [Hy Hr Hi Hnum Hpo Hly Hli Hlp Hnd].
  set (Ml := treated_map years keys intensity low) in *.
  set (Mh := treated_map years keys intensity high) in *.
  eexists _, _, (treated_of Ml <$> keys), (treated_of Mh <$> keys).
  split; [exact Hlow|]. split; [exact Hhigh|].
  split; [|split; [|split; [|split]]].
  - rewrite getitem_setitem_ne by done. rewrite getitem_setitem_eq.
    by rewrite <- list_fmap_compose.
  - rewrite getitem_setitem_ne by done. rewrite getitem_setitem_eq.
    by rewrite <- list_fmap_compose.
  - by rewrite length_fmap.
  - by rewrite length_fmap.
  - intros i. rewrite !list_lookup_fmap.
    destruct (keys !! i) as [k|]; cbn; [|done].
    intros [= H%treated_of_1]. f_equal. apply treated_of_1.
    unfold Mh in H. unfold Ml.
    rewrite treated_map_Some in H |- * by done.
    destruct H as (j & c & ? & ? & ? & Hab).
    exists j, c. split; [done|]. split; [done|]. split; [done|].
    symmetry. eapply above_mono; [exact Hle | by symmetry].
Qed.

(** * models.py: the threshold of the design *)

Lemma fst_zip_fmap {A B C : Type} (f : B → C) (a : list A) (b : list B) :
  (zip a (f <$> b)).*1 = (zip a b).*1.
Proof.
  revert b. induction a as [|x a IH]; intros [|y b]; cbn; try done.
  by rewrite IH.
Qed.

Lemma lookup_zip_int_of_bool (index : list string) (flags : list bool)
    (k : string) :
  from_option id 0
    ((list_to_map (zip index (int_of_bool <$> flags)) : gmap string Z) !! k)
  = from_option int_of_bool 0
      ((list_to_map (zip index flags) : gmap string bool) !! k).
Proof.
  replace (zip index (int_of_bool <$> flags))
    with (prod_map id int_of_bool <$> zip index flags).
  - rewrite list_to_map_fmap, lookup_fmap.
    by destruct (list_to_map (zip index flags) !! k).
  - revert flags. induction index as [|a index IH]; intros [|b flags]; cbn;
      try done.
    by rewrite IH.
Qed.

(** X9. The threshold of the design gives the design back: on a frame
    [add_treatment_variables] returned, with the threshold that function
    used (the median of the intensities of 2016 cut to an integer),
    [run_did_with_threshold] fits a frame whose [treated_alt] is the column
    [treated] and whose [did_alt] is the column [did]. *)
Theorem threshold_at_design_cut
    (panel df' : DataFrame) (year intensity : Series)
    (med : option float) (thr : Z) :
  add_treatment_variables panel = Ok df' →
  getitem df' "year" = Ok year →
  getitem df' "treatment_intensity" = Ok intensity →
  median (select (eq_scalar 2016 <$> year) intensity) = Ok med →
  astype_int med = Ok thr →
  ∃ df_alt,
    threshold_design df' (of_int64 thr) = Ok df_alt ∧
    (∀ ols, run_did_with_threshold ols df' (of_int64 thr)
            = ols "crime_rate_per_100k ~ did_alt + C(region) + C(year)"
                df_alt) ∧
    getitem df_alt "treated_alt" = getitem df' "treated" ∧
    getitem df_alt "did_alt" = getitem df' "did".
Proof.
  intros H Hy' Hi' Hm' Ht'.
  apply add_treatment_variables_steps in H
    as (year0 & region & keys & intensity0 & med0 & thr0 & flags
        & index & mapped & post & did
        & Hi & Hy & Hm & Ht & Hf & Hr & Hidx & Hk & Hmap & Hp & Hd & ->).
  destruct (design_columns panel intensity0 (fillna0_int <$> mapped)
              (Int ∘ int_of_bool <$> post) did) as (Hci & Hct & Hcp & Hcd).
  cbn zeta in Hci, Hct, Hcp, Hcd.
  rewrite Hci in Hi'. injection Hi' as <-.
  rewrite !getitem_setitem_ne in Hy' by done.
  rewrite Hy in Hy'. injection Hy' as <-.
  rewrite Hm in Hm'. injection Hm' as <-.
  rewrite Ht in Ht'. injection Ht' as <-.
  set (df' := setitem (setitem (setitem (setitem panel
                "treatment_intensity" intensity0)
                "treated" (fillna0_int <$> mapped))
                "post" (Int ∘ int_of_bool <$> post)) "did" did) in *.
  assert (getitem df' "year" = Ok year0) as Hdy.
  { unfold df'. by rewrite !getitem_setitem_ne. }
  assert (getitem df' "region" = Ok region) as Hdr.
  { unfold df'. by rewrite !getitem_setitem_ne. }
  assert (Int ∘ from_option id 0 <$>
            ((λ k, (list_to_map (zip index (int_of_bool <$> flags))
                     : gmap string Z) !! k) <$> keys)
          = fillna0_int <$> mapped) as Hcol.
  { unfold series_map in Hmap. case_decide; [|done]. injection Hmap as <-.
    rewrite <- !list_fmap_compose. apply list_fmap_ext. intros _ k _. cbn.
    unfold fillna0_int. f_equal. apply lookup_zip_int_of_bool. }
  assert (threshold_design df' (of_int64 thr0)
          = Ok (setitem (setitem df' "treated_alt" (fillna0_int <$> mapped))
                  "did_alt" did)) as Hdf.
  { unfold threshold_design. cbn zeta.
    rewrite Hdy. cbn. rewrite Hdr. cbn. rewrite Hidx. cbn.
    rewrite Hci. cbn. rewrite Hf. cbn. rewrite Hk. cbn.
    unfold series_map at 1. rewrite decide_True; last first.
    { rewrite fst_zip_fmap. unfold series_map in Hmap.
      by case_decide. }
    cbn. rewrite getitem_setitem_eq. cbn.
    rewrite (getitem_setitem_ne _ "treated_alt" "post") by done.
    rewrite Hcp. cbn. rewrite Hcol, Hd. done. }
  eexists. split; [exact Hdf|]. split; [|split].
  - intros ols. unfold run_did_with_threshold. by rewrite Hdf.
  - rewrite getitem_setitem_ne by done. by rewrite getitem_setitem_eq, Hct.
  - by rewrite getitem_setitem_eq, Hcd.
Qed.

(** * models.py: the grid, piece by piece *)

Section GridFacts.
Variable ols : string → DataFrame → result RegressionResults.t.

(** The rows the loop appends do not depend on the rows it starts from. *)
Lemma threshold_grid_loop_rows panel rows items :
  threshold_grid_loop ols panel rows items
  = out ← threshold_grid_loop ols panel [] items; Ok (rows ++ out).
Proof.
  revert rows. induction items as [|[name thr] items IH]; intros rows; cbn.
  - by rewrite app_nil_r.
  - destruct (run_did_with_threshold ols panel thr) as [model|e]; cbn; [|done].
    rewrite IH. rewrite (IH [_]).
    destruct (threshold_grid_loop ols panel [] items) as [out|e]; cbn; [|done].
    by rewrite <- (assoc_L (++)).
Qed.

Lemma run_threshold_grid_cons panel name thr items :
  run_threshold_grid ols panel ((name, thr) :: items)
  = model ← run_did_with_threshold ols panel thr;
    out ← run_threshold_grid ols panel items;
    Ok (grid_row name thr model :: out).
Proof.
  unfold run_threshold_grid. cbn.
  destruct (run_did_with_threshold ols panel thr) as [model|e]; cbn; [|done].
  by rewrite threshold_grid_loop_rows.
Qed.

Lemma run_threshold_grid_app panel a b :
  run_threshold_grid ols panel (a ++ b)
  = ra ← run_threshold_grid ols panel a;
    rb ← run_threshold_grid ols panel b;
    Ok (ra ++ rb).
Proof.
  induction a as [|[name thr] a IH].
  - rewrite app_nil_l. unfold run_threshold_grid. cbn.
    by destruct (threshold_grid_loop ols panel [] b).
  - rewrite <- app_comm_cons, !run_threshold_grid_cons.
    destruct (run_did_with_threshold ols panel thr) as [model|e]; cbn; [|done].
    rewrite IH.
    destruct (run_threshold_grid ols panel a) as [ra|e]; cbn; [|done].
    by destruct (run_threshold_grid ols panel b).
Qed.
End GridFacts.

(** X10. [run_threshold_grid] works entry by entry: no threshold gives the
    empty table; two mappings one after the other give the table of the
    first followed by the table of the second; and the first threshold
    whose fit raises ends the run with that exception. *)
Theorem threshold_grid_in_pieces
    (ols : string → DataFrame → result RegressionResults.t)
    (panel : DataFrame) (a b : list (string * float)) :
  run_threshold_grid ols panel [] = Ok [] ∧
  run_threshold_grid ols panel (a ++ b)
  = (ra ← run_threshold_grid ols panel a;
     rb ← run_threshold_grid ols panel b;
     Ok (ra ++ rb)) ∧
  (∀ ra name thr e,
     run_threshold_grid ols panel a = Ok ra →
     run_did_with_threshold ols panel thr = Raise e →
     run_threshold_grid ols panel (a ++ (name, thr) :: b) = Raise e).
Proof.
  split; [done|]. split; [apply run_threshold_grid_app|].
  intros ra name thr e Ha He.
  by rewrite run_threshold_grid_app, run_threshold_grid_cons, Ha, He.
Qed.

(** * models.py: the placebo *)

Lemma zip_cells_mul_Int_bool (a : list Z) (b : list bool) :
  Forall int64 a →
  zip_cells mul_cell (Int <$> a) (Int ∘ int_of_bool <$> b)
  = Ok (Int <$> zip_with (λ t (p : bool), if p then t else 0) a b).
Proof.
  intros Ha.
  replace (Int ∘ int_of_bool <$> b) with (Int <$> (int_of_bool <$> b))
    by (by rewrite <- list_fmap_compose).
  rewrite zip_cells_mul_Int. f_equal.
  rewrite zip_with_fmap_r, <- fmap_zip_with.
  revert b. induction Ha as [|t a Ht Ha IH]; intros [|p b]; cbn; try done.
  rewrite IH. do 2 f_equal.
  unfold int64, int64_min, int64_max in Ht.
  destruct p; cbn [int_of_bool];
    [rewrite Z.mul_1_r | rewrite Z.mul_0_r]; apply wrap64_small; lia.
Qed.

(** X11. On a panel with integer [year] and [treated], [fit_placebo_did]
    fits the panel with two more columns and the others as they were:
    [fake_post] is 1 on the rows with [year >= fake_treatment_year] and 0 on
    the others, and [fake_did] is [treated] on the former and 0 on the
    latter. *)
Theorem placebo_design_columns
    (panel : DataFrame) (years treated : list Z) (fake_treatment_year : Z) :
  getitem panel "year" = Ok (Int <$> years) →
  getitem panel "treated" = Ok (Int <$> treated) →
  Forall int64 treated →
  ∃ df fake_post fake_did,
    placebo_design panel fake_treatment_year = Ok df ∧
    (∀ ols, fit_placebo_did ols panel fake_treatment_year
            = ols "crime_rate_per_100k ~ fake_did + C(region) + C(year)" df) ∧
    getitem df "fake_post" = Ok (Int <$> fake_post) ∧
    getitem df "fake_did" = Ok (Int <$> fake_did) ∧
    (∀ c, c ≠ "fake_post" → c ≠ "fake_did" →
          getitem df c = getitem panel c) ∧
    (∀ i y, years !! i = Some y →
       fake_post !! i
       = Some (if decide (fake_treatment_year ≤ y) then 1 else 0)) ∧
    (∀ i y t, years !! i = Some y → treated !! i = Some t →
       fake_did !! i
       = Some (if decide (fake_treatment_year ≤ y) then t else 0)).
Proof.
  intros Hy Ht Hint.
  set (after := (λ y, bool_decide (fake_treatment_year ≤ y)) <$> years).
  assert (placebo_design panel fake_treatment_year
          = Ok (setitem (setitem panel
                  "fake_post" (Int <$> (int_of_bool <$> after)))
                  "fake_did"
                  (Int <$> zip_with (λ t (p : bool), if p then t else 0)
                             treated after))) as Hdf.
  { unfold placebo_design. cbn zeta.
    rewrite Hy. cbn. rewrite mapM_ge_scalar_Int. cbn. fold after.
    rewrite (getitem_setitem_ne _ "fake_post" "treated") by done.
    rewrite Ht. cbn. rewrite getitem_setitem_eq. cbn.
    rewrite (zip_cells_mul_Int_bool _ _ Hint). cbn.
    by rewrite <- list_fmap_compose. }
  eexists _, _, _. split; [exact Hdf|].
  split; [|split; [|split; [|split; [|split]]]].
  - intros ols. unfold fit_placebo_did. by rewrite Hdf.
  - rewrite getitem_setitem_ne by done. by rewrite getitem_setitem_eq.
  - by rewrite getitem_setitem_eq.
  - intros c H1 H2. by rewrite !getitem_setitem_ne.
  - intros i y Hi. unfold after.
    rewrite !list_lookup_fmap, Hi. cbn.
    by case_bool_decide; case_decide.
  - intros i y t Hi Hti. unfold after.
    rewrite lookup_zip_with, Hti. cbn. rewrite list_lookup_fmap, Hi. cbn.
    by case_bool_decide; case_decide.
Qed.

(** X12. The placebo at the year of the design is the design: on a frame
    [add_treatment_variables] returned, [fit_placebo_did] with
    [fake_treatment_year = 2016] fits a frame whose [fake_post] is the
    column [post] and whose [fake_did] is the column [did]. *)
Theorem placebo_at_2016_is_the_design (panel df' : DataFrame) :
  add_treatment_variables panel = Ok df' →
  ∃ df,
    placebo_design df' 2016 = Ok df ∧
    (∀ ols, fit_placebo_did ols df' 2016
            = ols "crime_rate_per_100k ~ fake_did + C(region) + C(year)" df) ∧
    getitem df "fake_post" = getitem df' "post" ∧
    getitem df "fake_did" = getitem df' "did".
Proof.
  intros H.
  apply add_treatment_variables_steps in H
    as (year & region & keys & intensity & med & thr & flags
        & index & mapped & post & did
        & Hi & Hy & Hm & Ht & Hf & Hr & Hidx & Hk & Hmap & Hp & Hd & ->).
  destruct (design_columns panel intensity (fillna0_int <$> mapped)
              (Int ∘ int_of_bool <$> post) did) as (Hci & Hct & Hcp & Hcd).
  cbn zeta in Hci, Hct, Hcp, Hcd.
  set (df' := setitem (setitem (setitem (setitem panel
                "treatment_intensity" intensity)
                "treated" (fillna0_int <$> mapped))
                "post" (Int ∘ int_of_bool <$> post)) "did" did) in *.
  assert (getitem df' "year" = Ok year) as Hdy.
  { unfold df'. by rewrite !getitem_setitem_ne. }
  assert (placebo_design df' 2016
          = Ok (setitem (setitem df' "fake_post" (Int ∘ int_of_bool <$> post))
                  "fake_did" did)) as Hdf.
  { unfold placebo_design. cbn zeta.
    rewrite Hdy. cbn. rewrite Hp. cbn.
    rewrite (getitem_setitem_ne _ "fake_post" "treated") by done.
    rewrite Hct. cbn. rewrite getitem_setitem_eq. cbn. by rewrite Hd. }
  eexists. split; [exact Hdf|]. split; [|split].
  - intros ols. unfold fit_placebo_did. by rewrite Hdf.
  - rewrite getitem_setitem_ne by done. by rewrite getitem_setitem_eq, Hcp.
  - by rewrite getitem_setitem_eq, Hcd.
Qed.

(** * models.py: the columns the wrappers need *)

Lemma threshold_design_columns (panel df : DataFrame) (threshold : float) :
  threshold_design panel threshold = Ok df →
  "year" ∈ columns panel ∧ "region" ∈ columns panel
  ∧ "treatment_intensity" ∈ columns panel ∧ "post" ∈ columns panel.
Proof.
  unfold threshold_design. cbn zeta. intros H. repeat inv_bind H.
  repeat match goal with
  | H : getitem (setitem _ ?c _) ?c' = _ |- _ =>
      rewrite (getitem_setitem_ne _ c c') in H by done
  end.
  repeat split; apply getitem_Ok_columns; eauto.
Qed.

Lemma placebo_design_needs (panel df : DataFrame) (fake : Z) :
  placebo_design panel fake = Ok df →
  "year" ∈ columns panel ∧ "treated" ∈ columns panel.
Proof.
  unfold placebo_design. cbn zeta. intros H. repeat inv_bind H.
  repeat match goal with
  | H : getitem (setitem _ ?c _) ?c' = _ |- _ =>
      rewrite (getitem_setitem_ne _ c c') in H by done
  end.
  repeat split; apply getitem_Ok_columns; eauto.
Qed.

(** X13. The columns the model wrappers need before they fit:
    [run_did_with_threshold] returns a model only on a panel with [year],
    [region], [treatment_intensity] and [post], [fit_placebo_did] only with
    [year] and [treated], [fit_pretrend_interaction] only with [year].
    Without [year] each of them raises KeyError whatever the fit would do,
    and so does [run_threshold_grid] on a mapping with an entry. *)
Theorem models_required_columns
    (ols : string → DataFrame → result RegressionResults.t)
    (panel : DataFrame) :
  (∀ threshold model,
     run_did_with_threshold ols panel threshold = Ok model →
     "year" ∈ columns panel ∧ "region" ∈ columns panel
     ∧ "treatment_intensity" ∈ columns panel ∧ "post" ∈ columns panel) ∧
  (∀ fake_treatment_year model,
     fit_placebo_did ols panel fake_treatment_year = Ok model →
     "year" ∈ columns panel ∧ "treated" ∈ columns panel) ∧
  (∀ pre_cutoff_year model,
     fit_pretrend_interaction ols panel pre_cutoff_year = Ok model →
     "year" ∈ columns panel) ∧
  ("year" ∉ columns panel →
   (∀ threshold,
      run_did_with_threshold ols panel threshold = Raise (KeyError "year")) ∧
   (∀ fake_treatment_year,
      fit_placebo_did ols panel fake_treatment_year
      = Raise (KeyError "year")) ∧
   (∀ pre_cutoff_year,
      fit_pretrend_interaction ols panel pre_cutoff_year
      = Raise (KeyError "year")) ∧
   (∀ thresholds, thresholds ≠ [] →
      run_threshold_grid ols panel thresholds = Raise (KeyError "year"))).
Proof.
  split; [|split; [|split]].
  - intros threshold model H. unfold run_did_with_threshold in H.
    apply bind_Ok in H as (df & Hdf & _).
    by eapply threshold_design_columns.
  - intros fake model H. unfold fit_placebo_did in H.
    apply bind_Ok in H as (df & Hdf & _).
    by eapply placebo_design_needs.
  - intros cutoff model H. unfold fit_pretrend_interaction in H.
    apply bind_Ok in H as (df & Hdf & _).
    unfold pretrend_design in Hdf. inv_bind Hdf.
    apply getitem_Ok_columns. eauto.
  - intros Hy. apply getitem_missing in Hy.
    assert (∀ threshold,
              run_did_with_threshold ols panel threshold
              = Raise (KeyError "year")) as Hrun.
    { intros threshold. unfold run_did_with_threshold, threshold_design.
      cbn zeta. by rewrite Hy. }
    split; [done|]. split; [|split].
    + intros fake. unfold fit_placebo_did, placebo_design. cbn zeta.
      by rewrite Hy.
    + intros cutoff. unfold fit_pretrend_interaction, pretrend_design.
      by rewrite Hy.
    + intros [|[name thr] thresholds] Hne; [done|].
      by rewrite run_threshold_grid_cons, Hrun.
Qed.

(** * The decimal numerals of the formula and of the pattern *)

Lemma string_app_assoc (a b c : string) : (a +:+ b) +:+ c = a +:+ (b +:+ c).
Proof. induction a as [|x a IH]; cbn; [done|]. by rewrite IH. Qed.

Lemma int_of_digits_from_app (acc : Z) (a b : string) :
  int_of_digits_from acc (a +:+ b)
  = int_of_digits_from (int_of_digits_from acc a) b.
Proof. revert acc. induction a as [|x a IH]; intros acc; cbn; [done|]. apply IH. Qed.

Lemma all_digits_app (a b : string) :
  all_digits (a +:+ b) = all_digits a && all_digits b.
Proof.
  induction a as [|x a IH]; cbn; [done|]. rewrite IH. by rewrite andb_assoc.
Qed.

Lemma pretty_N_char_digit (d : N) : is_digit (pretty_N_char d) = true.
Proof. unfold pretty_N_char. by repeat case_match. Qed.

Lemma pretty_N_char_value (d : N) :
  (d < 10)%N → Z.of_nat (nat_of_ascii (pretty_N_char d)) - 48 = Z.of_N d.
Proof.
  intros H.
  assert (d = 0 ∨ d = 1 ∨ d = 2 ∨ d = 3 ∨ d = 4 ∨ d = 5 ∨ d = 6 ∨ d = 7
          ∨ d = 8 ∨ d = 9)%N as Hd by lia.
  repeat destruct Hd as [->|Hd]; try done. by subst.
Qed.

Lemma pretty_N_go_app (x : N) (s : string) :
  pretty_N_go x s = pretty_N_go x "" +:+ s.
Proof.
  revert s. induction (N.lt_wf_0 x) as [x _ IH]. intros s.
  destruct (decide (x = 0)%N) as [->|Hx]; [by rewrite !pretty_N_go_0|].
  rewrite !(pretty_N_go_step x) by lia.
  assert (x `div` 10 < x)%N as Hlt by (apply N.div_lt; lia).
  rewrite (IH _ Hlt (String _ s)), (IH _ Hlt (String _ "")).
  by rewrite string_app_assoc.
Qed.

Lemma pretty_N_go_digits (x : N) :
  all_digits (pretty_N_go x "") = true
  ∧ int_of_digits (pretty_N_go x "") = Z.of_N x
  ∧ ((0 < x)%N → pretty_N_go x "" ≠ "").
Proof.
  induction (N.lt_wf_0 x) as [x _ IH].
  destruct (decide (x = 0)%N) as [->|Hx].
  { rewrite pretty_N_go_0. split; [done|]. split; [done|lia]. }
  destruct (IH (x `div` 10)%N) as (Hd & Hv & _); [apply N.div_lt; lia|].
  rewrite pretty_N_go_step, pretty_N_go_app by lia.
  split; [|split].
  - rewrite all_digits_app, Hd. cbn. by rewrite pretty_N_char_digit.
  - unfold int_of_digits in *. rewrite int_of_digits_from_app, Hv. cbn.
    rewrite pretty_N_char_value by (apply N.mod_lt; lia).
    rewrite (N.div_mod x 10) at 3 by lia. lia.
  - intros _. destruct (pretty_N_go (x `div` 10) ""); done.
Qed.

(** [str(n)] of a natural number is its decimal numeral, and [int] reads it
    back. *)
Lemma pretty_Z_digits (n : Z) :
  0 ≤ n →
  all_digits (pretty n) = true ∧ pretty n ≠ "" ∧ int_of_digits (pretty n) = n.
Proof.
  intros Hn. destruct n as [|p|p]; [done| |lia].
  unfold pretty, pretty_Z, pretty, pretty_positive, pretty, pretty_N.
  rewrite decide_False by done.
  destruct (pretty_N_go_digits (N.pos p)) as (Hd & Hv & Hne).
  split; [done|]. split; [apply Hne; lia|]. by rewrite Hv.
Qed.

Lemma pretty_Z_negative (n : Z) :
  n < 0 → ∃ s, pretty n = String "-" s.
Proof.
  intros Hn. destruct n as [|p|p]; [lia|lia|]. by eexists.
Qed.

(** * models.py and plots.py: the terms of the event study *)

(** X14. What [fit_event_study] writes, [build_event_study_table] reads.
    The formula holds the factor [C(year, Treatment(reference=R))], [R]
    being the reference year in decimal.  For a reference year and a year
    that are not negative, a name made of that factor, of [[Y]:treated] and
    of anything after it matches the pattern, the year read from it is [Y],
    and its row has [year = Y] and [rel_year = Y - ref_year].  With a
    negative reference year no name that starts with the factor matches. *)
Theorem event_term_round_trip (ref_year year : Z) (rest : string) :
  (∀ ols panel,
     fit_event_study ols panel ref_year
     = ols ("crime_rate_per_100k ~ C(region) + " +:+ event_factor ref_year
            +:+ " + " +:+ event_factor ref_year +:+ ":treated") panel) ∧
  (0 ≤ ref_year → 0 ≤ year →
   event_pattern_match (event_term ref_year year +:+ rest)
   = Some (pretty year) ∧
   int_of_digits (pretty year) = year ∧
   ∀ m ref coef,
     let row := event_row m ref (event_term ref_year year +:+ rest) coef
                  (pretty year) in
     extract m ref (event_term ref_year year +:+ rest, coef) = Some row ∧
     EventRow.year row = year ∧ EventRow.rel_year row = year - ref) ∧
  (ref_year < 0 →
   event_pattern_match (event_factor ref_year +:+ rest) = None).
Proof.
  split; [|split].
  - intros ols panel. unfold fit_event_study, event_study_formula, event_factor.
    f_equal. by rewrite !string_app_assoc.
  - intros Href Hyear.
    destruct (pretty_Z_digits _ Href) as (Hrd & Hrne & _).
    destruct (pretty_Z_digits _ Hyear) as (Hyd & Hyne & Hyv).
    assert (event_pattern_match (event_term ref_year year +:+ rest)
            = Some (pretty year)) as Hmatch.
    { apply event_pattern_match_spec. exists (pretty ref_year), rest.
      split; [|done]. unfold event_term, event_factor.
      by rewrite !string_app_assoc. }
    split; [done|]. split; [done|]. intros m ref coef row.
    split; [|split].
    + unfold extract. cbn [fst snd]. by rewrite Hmatch.
    + unfold row. by rewrite event_row_year.
    + unfold row, event_row. rewrite Hyv.
      by destruct (series_lookup _ _) as [[??]|].
  - intros Href. destruct (pretty_Z_negative _ Href) as [s Hs].
    destruct (event_pattern_match _) as [d|] eqn:E; [|done].
    apply event_pattern_match_spec in E
      as (ref & rest' & E & Hd & Hne & _).
    unfold event_factor in E. rewrite Hs in E.
    rewrite !string_app_assoc in E.
    apply (f_equal (strip_prefix "C(year, Treatment(reference=")) in E.
    rewrite !(proj2 (strip_prefix_Some _ _ _) eq_refl) in E.
    injection E as E. destruct ref as [|a ref]; [done|].
    cbn in E. injection E as <- _. done.
Qed.

(** * plots.py: the years and the p-values of the table *)

Lemma StronglySorted_on {A : Type} (P : A → Prop) (R R' : relation A)
    (l : list A) :
  (∀ x y, P x → P y → R x y → R' x y) →
  Forall P l → StronglySorted R l → StronglySorted R' l.
Proof.
  intros HR HP Hs. induction Hs as [|x l Hs IH Hx]; [constructor|].
  apply Forall_cons in HP as [Px HP]. constructor; [by apply IH|].
  rewrite Forall_forall in Hx, HP |- *. intros y Hy. apply HR; auto.
Qed.

Lemma event_row_fields m ref name coef digits :
  let row := event_row m ref name coef digits in
  EventRow.year row = int_of_digits digits ∧
  EventRow.rel_year row = int_of_digits digits - ref ∧
  EventRow.coef row = coef ∧
  EventRow.pvalue row
  = series_get (RegressionResults.pvalues m) name PrimFloat.nan.
Proof. cbn zeta. unfold event_row. by destruct (series_lookup _ name) as [[??]|]. Qed.

(** The rows of a table: the rows of the matching parameters and, when
    none of them has the reference year, the added row, sorted, the
    p-values rounded. *)
Lemma build_event_study_table_inv (round3 : float → float)
    (m : RegressionResults.t) (ref_year : Z) (table : list EventRow.t) :
  build_event_study_table round3 m ref_year = Ok table →
  ∃ full,
    table = round_pvalue round3 <$> merge_sort rel_year_le full ∧
    ((ref_year ∉ extracted_years m) → reference_row ref_year ∈ full) ∧
    ∀ r, r ∈ full →
      EventRow.rel_year r = EventRow.year r - ref_year ∧
      ((∃ name coef digits,
          (name, coef) ∈ RegressionResults.params m ∧
          event_pattern_match name = Some digits ∧
          EventRow.year r = int_of_digits digits ∧
          EventRow.coef r = coef ∧
          EventRow.pvalue r
          = series_get (RegressionResults.pvalues m) name PrimFloat.nan)
       ∨ ((ref_year ∉ extracted_years m) ∧ r = reference_row ref_year)).
Proof.
  rewrite build_event_study_table_eq.
  pose proof (extract_years m ref_year (RegressionResults.params m)) as Hy.
  fold (extracted_years m) in Hy.
  set (rows := omap (extract m ref_year) (RegressionResults.params m)) in *.
  assert (∀ r, r ∈ rows →
            EventRow.rel_year r = EventRow.year r - ref_year ∧
            ∃ name coef digits,
              (name, coef) ∈ RegressionResults.params m ∧
              event_pattern_match name = Some digits ∧
              EventRow.year r = int_of_digits digits ∧
              EventRow.coef r = coef ∧
              EventRow.pvalue r
              = series_get (RegressionResults.pvalues m) name PrimFloat.nan)
    as Hrows.
  { intros r ([name coef] & Hin & Hr)%list_elem_of_omap.
    unfold extract in Hr. cbn in Hr.
    destruct (event_pattern_match name) as [digits|] eqn:E; [|done].
    injection Hr as <-.
    destruct (event_row_fields m ref_year name coef digits)
      as (H1 & H2 & H3 & H4).
    split; [by rewrite H1, H2|]. by exists name, coef, digits. }
  set (full := if existsb (λ r, bool_decide (EventRow.year r = ref_year)) rows
               then rows else rows ++ [reference_row ref_year]).
  clearbody rows. intros Htable. exists full.
  split; [|split].
  - unfold full. destruct rows; [done|]. cbn zeta in Htable.
    by injection Htable as <-.
  - intros Hno. unfold full.
    destruct (existsb _ rows) eqn:Hex.
    + destruct Hno. rewrite <- Hy. by apply existsb_year.
    + apply elem_of_app. right. by left.
  - intros r Hr. unfold full in Hr.
    destruct (existsb _ rows) eqn:Hex.
    + destruct (Hrows r Hr) as [H1 H2]. split; [done | by left].
    + apply elem_of_app in Hr as [Hr|Hr].
      * destruct (Hrows r Hr) as [H1 H2]. split; [done | by left].
      * apply list_elem_of_singleton in Hr as ->.
        split; [cbn; lia|]. right. split; [|done].
        rewrite <- Hy, <- existsb_year. by rewrite Hex.
Qed.

(** X15. In the table of [build_event_study_table] every row, the added
    one included, has [rel_year = year - ref_year], so the table is sorted
    by [year] as well.  The p-value of the row of a parameter is the model's
    p-value of that parameter (the missing value if the model has none)
    after [round(3)]; the row added for the reference year has the rounded
    missing value. *)
Theorem event_table_years_and_p_values (round3 : float → float)
    (m : RegressionResults.t) (ref_year : Z) (table : list EventRow.t) :
  build_event_study_table round3 m ref_year = Ok table →
  (∀ row, row ∈ table →
     EventRow.rel_year row = EventRow.year row - ref_year ∧
     ((∃ name coef digits,
         (name, coef) ∈ RegressionResults.params m ∧
         event_pattern_match name = Some digits ∧
         EventRow.year row = int_of_digits digits ∧
         EventRow.coef row = coef ∧
         EventRow.pvalue row
         = round3 (series_get (RegressionResults.pvalues m) name
                     PrimFloat.nan)) ∨
      ((ref_year ∉ extracted_years m) ∧
       EventRow.year row = ref_year ∧
       EventRow.coef row = PrimFloat.zero ∧
       EventRow.pvalue row = round3 PrimFloat.nan))) ∧
  StronglySorted (λ a b, EventRow.year a ≤ EventRow.year b) table.
Proof.
  intros (full & -> & _ & Hfull)%build_event_study_table_inv.
  split.
  - intros row (r & -> & Hr)%list_elem_of_fmap.
    rewrite merge_sort_Permutation in Hr.
    destruct (Hfull r Hr)
      as [H1 [(name & coef & digits & ? & ? & ? & ? & Hp)|[Hno ->]]].
    + split; [done|]. left. exists name, coef, digits.
      cbn. by rewrite Hp.
    + split; [done|]. by right.
  - eapply (StronglySorted_fmap _ (λ a b, EventRow.year a ≤ EventRow.year b));
      [intros x y H; exact H|].
    eapply (StronglySorted_on
              (λ r, EventRow.rel_year r = EventRow.year r - ref_year)
              rel_year_le).
    + intros x y Hx Hy' Hle. unfold rel_year_le in Hle. lia.
    + apply Forall_forall. intros r Hr.
      rewrite merge_sort_Permutation in Hr. by apply Hfull.
    + apply StronglySorted_merge_sort; apply _.
Qed.

(** * plots.py: the distribution of the intensity *)

Lemma select_nil_r {A : Type} (mask : list bool) : select mask (@nil A) = [].
Proof. by destruct mask. Qed.

(** A mask applied to the rows another mask has kept. *)
Lemma select_select {A B : Type} (f : B → bool) (m : list bool)
    (b : list B) (v : list A) :
  select (f <$> select m b) (select m v)
  = select (zip_with (λ x y, x && f y) m b) v.
Proof.
  revert b v. induction m as [|x m IH]; intros [|y b] [|z v]; cbn;
    rewrite ?select_nil_r; try done.
  destruct x; cbn; [|apply IH]. destruct (f y); by rewrite IH.
Qed.

Lemma kept_select {A : Type} (year : Z) (years intensity : Series)
    (v : list A) :
  select ((λ c, negb (isna c)) <$> select (eq_scalar year <$> years) intensity)
    (select (eq_scalar year <$> years) v)
  = select (kept year years intensity) v.
Proof. rewrite select_select. unfold kept. by rewrite zip_with_fmap_l. Qed.




Lemma select_columns_loc (mask : list bool) (panel : DataFrame)
    (cols : list string) :
  Forall (λ c, c ∈ columns panel) cols →
  ∃ vs, Forall2 (λ c v, getitem panel c = Ok v) cols vs ∧
    select_columns (loc mask panel) cols = Ok (zip cols (select mask <$> vs)).
Proof.
  unfold select_columns. induction 1 as [|c cols Hc _ (vs & Hvs & IH)].
  - by exists [].
  - apply getitem_Ok_columns in Hc as [v Hv]. exists (v :: vs).
    split; [by constructor|]. cbn. rewrite getitem_loc, Hv. cbn.
    by rewrite IH.
Qed.

Lemma loc_zip (mask : list bool) (cols : list string) (vs : list Series) :
  loc mask (zip cols vs) = zip cols (select mask <$> vs).
Proof.
  unfold loc. revert vs. induction cols as [|c cols IH]; intros [|v vs]; cbn;
    try done.
  by rewrite IH.
Qed.

Lemma getitem_zip (cols : list string) (vs : list Series) (panel : DataFrame)
    (f : Series → Series) (c : string) :
  Forall2 (λ c v, getitem panel c = Ok v) cols vs →
  c ∈ cols →
  getitem (zip cols (f <$> vs)) c = f <$> getitem panel c.
Proof.
  intros H Hc. unfold getitem at 1.
  induction H as [|c' v cols vs Hv H IH]; [by apply elem_of_nil in Hc|].
  cbn. destruct (decide (c' = c)) as [->|Hne].
  - by rewrite Hv.
  - apply IH. apply elem_of_cons in Hc as [?|?]; [congruence|done].
Qed.

(** The columns [compute_treatment_intensity_distribution] selects. *)
Lemma distribution_columns (panel : DataFrame) (intensity_col : string) :
  "year" ∈ columns panel → intensity_col ∈ columns panel →
  let cols := ["year"; intensity_col]
    ++ (if decide ("region" ∈ columns panel) then ["region"] else [])
    ++ (if decide ("treated" ∈ columns panel) then ["treated"] else []) in
  Forall (λ c, c ∈ columns panel) cols ∧
  cols = ["year"; intensity_col]
         ++ filter (λ c, c ∈ columns panel) ["region"; "treated"].
Proof.
  intros Hy Hi. cbn zeta. split.
  - repeat case_decide; repeat constructor; done.
  - rewrite !filter_cons, filter_nil. by repeat case_decide.
Qed.

(** What [compute_treatment_intensity_distribution] returns, whatever the
    entries of the intensity column are: the rows kept, and their median. *)
Lemma distribution_Ok (panel : DataFrame) (year : Z) (intensity_col : string)
    (years intensity : Series) :
  intensity_col ≠ "year" →
  getitem panel "year" = Ok years →
  getitem panel intensity_col = Ok intensity →
  length years = length intensity →
  let keep := kept year years intensity in
  let cols := ["year"; intensity_col]
              ++ filter (λ c, c ∈ columns panel) ["region"; "treated"] in
  ∃ vs,
    Forall2 (λ c v, getitem panel c = Ok v) cols vs ∧
    compute_treatment_intensity_distribution panel year intensity_col
    = if decide (select keep intensity = []) then Raise ValueError
      else threshold ← median (select keep intensity);
           Ok (zip cols (select keep <$> vs), default PrimFloat.nan threshold).
Proof.
  intros Hne Hy Hi Hlen keep cols.
  assert ("year" ∈ columns panel) as Hyc by (apply getitem_Ok_columns; eauto).
  assert (intensity_col ∈ columns panel) as Hic
    by (apply getitem_Ok_columns; eauto).
  destruct (distribution_columns panel intensity_col Hyc Hic) as [Hall Hcols].
  cbn zeta in Hall, Hcols. fold cols in Hcols.
  assert (intensity_col ∈ cols) as Hin.
  { unfold cols. cbn [app]. rewrite !elem_of_cons. auto. }
  assert ("year" ∈ cols) as Hin'.
  { unfold cols. cbn [app]. rewrite !elem_of_cons. auto. }
  assert (∃ rest, cols = "year" :: rest) as [rest Hshape] by (by eexists).
  clearbody cols.
  destruct (select_columns_loc (eq_scalar year <$> years) panel _ Hall)
    as (vs & Hvs & Hsel).
  rewrite Hcols in Hvs, Hsel.
  exists vs. split; [done|].
  unfold compute_treatment_intensity_distribution. cbn zeta.
  rewrite Hcols. rewrite decide_False; last first.
  { rewrite required_missing2. intros [H|H]; by apply H. }
  rewrite Hy. cbn. rewrite Hsel. cbn.
  rewrite (getitem_zip _ _ _ _ _ Hvs Hin), Hi. cbn.
  rewrite loc_zip, <- list_fmap_compose.
  rewrite (list_fmap_ext _ (select keep) vs); last first.
  { intros _ v _. cbn. apply kept_select. }
  assert (nrows (zip cols (select keep <$> vs))
          = length (select keep intensity)) as Hn.
  { assert (getitem (zip cols (select keep <$> vs)) "year"
            = Ok (select keep years)) as H
      by (by rewrite (getitem_zip _ _ _ _ _ Hvs Hin'), Hy).
    rewrite Hshape in H, Hvs |- *.
    destruct vs as [|v vs]; [by inversion Hvs|].
    unfold getitem in H. cbn in H |- *.
    rewrite decide_True in H by done. injection H as ->.
    by apply select_length. }
  rewrite Hn.
  destruct (decide (select keep intensity = [])) as [E|E].
  - rewrite decide_True; [done|]. by rewrite E.
  - rewrite decide_False by (by destruct (select keep intensity)).
    by rewrite (getitem_zip _ _ _ _ _ Hvs Hin), Hi.
Qed.

(** With a row to keep and a numeric intensity: the frame and the median
    returned. *)
Lemma distribution_returns (panel : DataFrame) (year : Z)
    (intensity_col : string) (years intensity : Series) :
  intensity_col ≠ "year" →
  getitem panel "year" = Ok years →
  getitem panel intensity_col = Ok intensity →
  length years = length intensity →
  Forall numeric intensity →
  let keep := kept year years intensity in
  select keep intensity ≠ [] →
  ∃ df_year m,
    compute_treatment_intensity_distribution panel year intensity_col
    = Ok (df_year, m) ∧
    median (select keep intensity) = Ok (Some m) ∧
    columns df_year
    = ["year"; intensity_col]
      ++ filter (λ c, c ∈ columns panel) ["region"; "treated"] ∧
    ∀ c, c ∈ columns df_year →
         getitem df_year c = select keep <$> getitem panel c.
Proof.
  intros Hne1 Hy Hi Hlen Hnum keep E.
  destruct (distribution_Ok panel year intensity_col years intensity
              Hne1 Hy Hi Hlen) as (vs & Hvs & Hrun).
  cbn zeta in Hvs, Hrun. fold keep in Hrun.
  set (cols := ["year"; intensity_col]
               ++ filter (λ c, c ∈ columns panel) ["region"; "treated"]) in *.
  assert (columns (zip cols (select keep <$> vs)) = cols) as Hcols.
  { unfold columns. rewrite fst_zip; [done|].
    rewrite length_fmap. by rewrite (Forall2_length _ _ _ Hvs). }
  clearbody cols.
  rewrite Hrun, decide_False by done.
  destruct (median_Ok (select keep intensity)) as [m Hm];
    [by apply Forall_select | done |].
  rewrite Hm. cbn. eexists _, m. split; [done|]. split; [done|].
  split; [done|]. rewrite Hcols. intros c Hc.
  by apply getitem_zip.
Qed.

(** X16. [compute_treatment_intensity_distribution] keeps the rows of the
    given year whose intensity is not missing.  Without such a row it raises
    ValueError.  Otherwise it returns the columns [year] and the intensity,
    then [region] and [treated] if the panel has them, each cut to these
    rows, and the median of the intensities of these rows. *)
Theorem treatment_intensity_distribution_rows
    (panel : DataFrame) (year : Z) (intensity_col : string)
    (years intensity : Series) :
  intensity_col ≠ "year" → intensity_col ≠ "region" →
  intensity_col ≠ "treated" →
  getitem panel "year" = Ok years →
  getitem panel intensity_col = Ok intensity →
  length years = length intensity →
  Forall numeric intensity →
  let keep := kept year years intensity in
  (∀ i, keep !! i = Some true ↔
        ∃ y c, years !! i = Some y ∧ intensity !! i = Some c
               ∧ eq_scalar year y = true ∧ isna c = false) ∧
  (select keep intensity = [] →
   compute_treatment_intensity_distribution panel year intensity_col
   = Raise ValueError) ∧
  (select keep intensity ≠ [] →
   ∃ df_year m,
     compute_treatment_intensity_distribution panel year intensity_col
     = Ok (df_year, m) ∧
     median (select keep intensity) = Ok (Some m) ∧
     columns df_year
     = ["year"; intensity_col]
       ++ filter (λ c, c ∈ columns panel) ["region"; "treated"] ∧
     ∀ c, c ∈ columns df_year →
          getitem df_year c = select keep <$> getitem panel c).
Proof.
  intros Hne1 Hne2 Hne3 Hy Hi Hlen Hnum keep.
  split; [|split].
  - intros i. unfold keep, kept. rewrite lookup_zip_with.
    destruct (years !! i) as [y|]; cbn; [|split; [done | by intros (?&?&?&_)]].
    destruct (intensity !! i) as [c|]; cbn;
      [|split; [done | by intros (?&?&_&?&_)]].
    split.
    + intros [= [H1 H2%negb_true_iff]%andb_true_iff]. by exists y, c.
    + intros (? & ? & [= <-] & [= <-] & -> & ->). done.
  - intros E.
    destruct (distribution_Ok panel year intensity_col years intensity
                Hne1 Hy Hi Hlen) as (vs & _ & Hrun).
    cbn zeta in Hrun. fold keep in Hrun. by rewrite Hrun, decide_True.
  - by apply distribution_returns.
Qed.


(** * From the prepared panel to the data of the parallel-trends plot *)

(** The table of [compute_parallel_trends_data] on integer keys. *)
Lemma parallel_trends_Int (mean : list float → float) (panel : DataFrame)
    (outcome : string) (years flags : list Z) (values : Series)
    (xs : list float) :
  getitem panel "year" = Ok (Int <$> years) →
  getitem panel "treated" = Ok (Int <$> flags) →
  getitem panel outcome = Ok values →
  mapM to_float values = Ok xs →
  let groups := merge_sort key_le (remove_dups (zip years flags)) in
  compute_parallel_trends_data mean panel outcome
  = Ok [("year", (λ g, Int g.1) <$> groups);
        ("treated", (λ g, Int g.2) <$> groups);
        ("mean",
         (λ g, of_float (mean
            (filter (λ x, PrimFloat.is_nan x = false)
               (select ((λ p, bool_decide (p = g)) <$> zip years flags)
                  xs)))) <$> groups)].
Proof.
  intros Hy Ht Hv Hx groups.
  unfold compute_parallel_trends_data. cbn zeta.
  rewrite decide_False; last first.
  { rewrite required_missing. intros [H|[H|H]]; apply H;
      apply getitem_Ok_columns; eauto. }
  rewrite Hy. cbn. rewrite mapM_as_key_Int. cbn.
  rewrite Ht. cbn. rewrite mapM_as_key_Int. cbn.
  rewrite Hv. cbn. rewrite Hx. cbn.
  rewrite pair_key_Some, omap_id_Some. do 5 f_equal.
  apply list_fmap_ext. intros _ g _. do 4 f_equal.
  rewrite <- list_fmap_compose. apply list_fmap_ext. intros _ p _. cbn.
  apply bool_decide_ext. split; [by intros [= ->] | by intros ->].
Qed.

(** X18. The prepared panel is an input of [compute_parallel_trends_data]:
    on a region-year panel whose crime rate [prepare_analysis_panel]
    computes, the outcome [crime_rate_per_100k] gives a table with one row
    per pair (year, treated) of the prepared panel, in increasing order,
    with the mean of the rates of the rows of the pair; every year of the
    panel has a row, and [treated] is 0 or 1 in every row. *)
Theorem parallel_trends_of_prepared_panel (mean : list float → float)
    (panel : DataFrame) (years : list Z) (keys : list string)
    (vals : list float) (total_cases population_total : Series) :
  design_panel panel years keys vals →
  "crime_rate_per_100k" ∉ columns panel →
  getitem panel "total_cases" = Ok total_cases →
  getitem panel "population_total" = Ok population_total →
  Forall numeric total_cases → Forall numeric population_total →
  ∃ df' treated rate rates groups,
    prepare_analysis_panel panel = Ok df' ∧
    getitem df' "treated" = Ok (Int <$> treated) ∧
    getitem df' "crime_rate_per_100k" = Ok rate ∧
    mapM to_float rate = Ok rates ∧
    compute_parallel_trends_data mean df' "crime_rate_per_100k"
    = Ok [("year", (λ g, Int g.1) <$> groups);
          ("treated", (λ g, Int g.2) <$> groups);
          ("mean",
           (λ g, of_float (mean
              (filter (λ x, PrimFloat.is_nan x = false)
                 (select ((λ p, bool_decide (p = g)) <$> zip years treated)
                    rates)))) <$> groups)] ∧
    StronglySorted key_le groups ∧ NoDup groups ∧
    (∀ g, g ∈ groups ↔ g ∈ zip years treated) ∧
    (∀ y, y ∈ years ↔ ∃ t, (y, t) ∈ groups) ∧
    (∀ y t, (y, t) ∈ groups → t = 0 ∨ t = 1).
Proof.
  intros Hp Hc Htc Hpt Hn1 Hn2.
  destruct (add_crime_rate_if_missing_Ok _ _ _ Htc Hpt Hn1 Hn2) as [df Hdf].
  pose proof (design_panel_crime_rate _ _ _ _ _ Hdf Hp) as Hp'.
  pose proof Hdf as Hdf0.
  apply add_crime_rate_if_missing_steps in Hdf
    as (tc & pt & rate & _ & _ & Hrate & Hdfeq); [|done].
  apply zip_cells_rate_is_numeric, mapM_to_float_numeric in Hrate as [xs Hxs].
  destruct (add_treatment_variables_design _ _ _ _ Hp') as (m & Hm & Hdf').
  cbn zeta in Hdf'.
  set (M := treated_map years keys (groupby_diff keys vals)
              (of_int64 (float_to_int64 m))) in *.
  destruct Hp' as [Hy Hr _ Hly _ _ _].
  set (df' := setitem (setitem (setitem (setitem df _ _) _ _) _ _) _ _) in *.
  assert (getitem df' "year" = Ok (Int <$> years)) as Hdy.
  { unfold df'. by rewrite !getitem_setitem_ne. }
  assert (getitem df' "treated" = Ok (Int <$> (treated_of M <$> keys)))
    as Hdt.
  { unfold df'. rewrite !getitem_setitem_ne by done.
    rewrite getitem_setitem_eq. by rewrite <- list_fmap_compose. }
  assert (getitem df' "crime_rate_per_100k" = Ok rate) as Hdc.
  { unfold df'. rewrite !getitem_setitem_ne by done.
    rewrite Hdfeq. apply getitem_setitem_eq. }
  pose proof (parallel_trends_Int mean df' "crime_rate_per_100k" years
                (treated_of M <$> keys) rate xs Hdy Hdt Hdc Hxs) as Hrun.
  cbn zeta in Hrun.
  set (flags := treated_of M <$> keys) in *.
  set (groups := merge_sort key_le (remove_dups (zip years flags))) in *.
  assert (∀ g, g ∈ groups ↔ g ∈ zip years flags) as Hg.
  { intros g. unfold groups.
    by rewrite merge_sort_Permutation, elem_of_remove_dups. }
  assert (length flags = length years) as Hlf.
  { unfold flags. rewrite length_fmap. lia. }
  exists df', flags, rate, xs, groups.
  split.
  { unfold prepare_analysis_panel. cbn zeta. rewrite Hdf0. cbn.
    by rewrite Hdf'. }
  split; [done|]. split; [done|]. split; [done|]. split; [exact Hrun|].
  split; [apply StronglySorted_merge_sort; apply _|].
  split; [unfold groups; rewrite merge_sort_Permutation;
          apply NoDup_remove_dups|].
  split; [done|]. split.
  - intros y. split.
    + intros [i Hi]%list_elem_of_lookup.
      destruct (lookup_lt_is_Some_2 flags i) as [t Ht].
      { rewrite Hlf. by eapply lookup_lt_Some. }
      exists t. apply Hg. apply list_elem_of_lookup. exists i.
      by rewrite lookup_zip_with, Hi, Ht.
    + intros [t Ht%Hg]. apply list_elem_of_lookup in Ht as [i Hi].
      apply lookup_zip_with_Some in Hi as (? & ? & [= <- <-] & Hi & _).
      by eapply list_elem_of_lookup_2.
  - intros y t Ht%Hg. apply list_elem_of_lookup in Ht as [i Hi].
    apply lookup_zip_with_Some in Hi as (? & ? & [= <- <-] & _ & Hi).
    unfold flags in Hi. rewrite list_lookup_fmap in Hi.
    destruct (keys !! i) as [k|]; [|done]. injection Hi as <-.
    apply treated_of_01.
Qed.

(** * models.py: the pre-period of the designed panel *)

(** X19. The design is an input of the pre-trend fit: on a region-year
    panel, [fit_pretrend_interaction] with its cutoff 2016 on the frame
    [add_treatment_variables] returned fits the rows with [year < 2016], in
    their order, and on every one of these rows [post] and [did] are 0. *)
Theorem pretrend_of_designed_panel
    (ols : string → DataFrame → result RegressionResults.t)
    (panel : DataFrame) (years : list Z) (keys : list string)
    (vals : list float) :
  design_panel panel years keys vals →
  ∃ df' pre post did,
    add_treatment_variables panel = Ok df' ∧
    pretrend_design df' 2016 = Ok pre ∧
    fit_pretrend_interaction ols df' 2016
    = ols "crime_rate_per_100k ~ treated * year_num + C(region)" pre ∧
    getitem pre "year" = Ok (Int <$> filter (λ y, y < 2016) years) ∧
    getitem pre "post" = Ok post ∧
    getitem pre "did" = Ok did ∧
    length post = length (filter (λ y, y < 2016) years) ∧
    length did = length (filter (λ y, y < 2016) years) ∧
    Forall (λ c, c = Int 0) post ∧
    Forall (λ c, c = Int 0) did.
Proof.
  intros Hp.
  destruct (add_treatment_variables_design _ _ _ _ Hp) as (m & Hm & Hdf).
  cbn zeta in Hdf.
  set (M := treated_map years keys (groupby_diff keys vals)
              (of_int64 (float_to_int64 m))) in *.
  set (posts := (λ y, Int (post_of y)) <$> years) in *.
  set (dids := zip_with (λ k y, Int (treated_of M k * post_of y)) keys years)
    in *.
  destruct (design_columns panel (groupby_diff keys vals)
              ((λ k, Int (treated_of M k)) <$> keys) posts dids)
    as (_ & _ & Hcp & Hcd).
  cbn zeta in Hcp, Hcd.
  set (df' := setitem (setitem (setitem (setitem panel _ _) _ _) _ _) _ _)
    in *.
  destruct Hp as [Hy Hr _ Hly _ _ _].
  assert (getitem df' "year" = Ok (Int <$> years)) as Hdy.
  { unfold df'. by rewrite !getitem_setitem_ne. }
  pose proof (pretrend_design_Int df' 2016 years Hdy) as Hpre.
  cbn zeta in Hpre.
  set (keep := (λ y, bool_decide (y < 2016)) <$> years) in *.
  assert (length (select keep posts) = length (filter (λ y, y < 2016) years))
    as Hlp.
  { unfold posts, keep. by rewrite select_fmap, length_fmap, select_filter. }
  assert (length (select keep dids) = length (filter (λ y, y < 2016) years))
    as Hld.
  { rewrite <- Hlp. apply select_length. unfold dids, posts.
    rewrite length_zip_with, length_fmap. lia. }
  eexists df', _, (select keep posts), (select keep dids).
  split; [exact Hdf|]. split; [exact Hpre|].
  split; [unfold fit_pretrend_interaction; by rewrite Hpre|].
  split.
  { rewrite getitem_setitem_ne by done. rewrite getitem_loc, Hdy. cbn.
    unfold keep. by rewrite select_fmap, select_filter. }
  split.
  { rewrite getitem_setitem_ne by done. by rewrite getitem_loc, Hcp. }
  split.
  { rewrite getitem_setitem_ne by done. by rewrite getitem_loc, Hcd. }
  split; [done|]. split; [done|].
  assert (∀ j y, keep !! j = Some true → years !! j = Some y → post_of y = 0)
    as Hzero.
  { intros j y Hj Hyj. unfold keep in Hj.
    rewrite list_lookup_fmap, Hyj in Hj. cbn in Hj.
    injection Hj as Hj%bool_decide_eq_true.
    unfold post_of. by rewrite bool_decide_eq_false_2 by lia. }
  split.
  - apply Forall_forall. intros c (j & Hj & Hc)%elem_of_select.
    unfold posts in Hc. rewrite list_lookup_fmap in Hc.
    destruct (years !! j) as [y|] eqn:Hyj; [|done]. injection Hc as <-.
    by rewrite (Hzero j y Hj Hyj).
  - apply Forall_forall. intros c (j & Hj & Hc)%elem_of_select.
    unfold dids in Hc.
    apply lookup_zip_with_Some in Hc as (k & y & -> & _ & Hyj).
    rewrite (Hzero j y Hj Hyj). f_equal. lia.
Qed.

(** * plots.py: what the plots draw from *)

Lemma select_bool_decide {A : Type} (P : A → Prop) `{∀ x, Decision (P x)}
    (l : list A) :
  select ((λ x, bool_decide (P x)) <$> l) l = filter P l.
Proof.
  induction l as [|x l IH]; [done|].
  rewrite filter_cons. cbn. rewrite IH.
  case_bool_decide; by case_decide.
Qed.

Lemma StronglySorted_filter_1 {A : Type} (R : relation A) (P : A → Prop)
    `{∀ x, Decision (P x)} (l : list A) :
  StronglySorted R l → StronglySorted R (filter P l).
Proof.
  induction 1 as [|x l Hs IH Hx]; [constructor|].
  rewrite filter_cons. case_decide; [|done].
  constructor; [done|]. apply Forall_forall.
  intros y [_ Hy]%list_elem_of_filter. by eapply Forall_forall in Hx.
Qed.

(** The years of one group of a sorted table go up. *)
Lemma group_years_increase (groups : list (Z * Z)) (flag : Z) :
  StronglySorted key_le groups → NoDup groups →
  StronglySorted Z.lt (filter (λ g, g.2 = flag) groups).*1.
Proof.
  induction 1 as [|g groups Hs IH Hg]; [constructor|].
  intros [Hnot Hnd]%NoDup_cons. rewrite filter_cons.
  case_decide as Hflag; [|by apply IH].
  rewrite fmap_cons. constructor; [by apply IH|].
  apply Forall_fmap, Forall_forall.
  intros g' [Hflag' Hin]%list_elem_of_filter. cbn.
  eapply Forall_forall in Hg; [|done].
  destruct g as [y t], g' as [y' t']. unfold key_le in Hg. cbn in *.
  destruct Hg as [?|[-> _]]; [done|]. subst. done.
Qed.

(** One pass of the loop on the table of [compute_parallel_trends_data]. *)
Lemma trend_line_groups (groups : list (Z * Z)) (F : Z * Z → cell)
    (flag : Z) (label : string) :
  trend_line [("year", (λ g, Int g.1) <$> groups);
              ("treated", (λ g, Int g.2) <$> groups);
              ("mean", F <$> groups)] flag label
  = Ok (match filter (λ g, g.2 = flag) groups with
        | [] => []
        | gs => [(label, ((λ g, Int g.1) <$> gs, F <$> gs))]
        end).
Proof.
  set (table := [("year", (λ g : Z * Z, Int g.1) <$> groups);
                 ("treated", (λ g : Z * Z, Int g.2) <$> groups);
                 ("mean", F <$> groups)]).
  assert (getitem table "treated" = Ok ((λ g : Z * Z, Int g.2) <$> groups))
    as Ht by reflexivity.
  assert (getitem table "year" = Ok ((λ g : Z * Z, Int g.1) <$> groups))
    as Hy by reflexivity.
  assert (getitem table "mean" = Ok (F <$> groups)) as Hm by reflexivity.
  unfold trend_line. rewrite Ht. cbn [mbind result_bind].
  replace (eq_scalar flag <$> ((λ g : Z * Z, Int g.2) <$> groups))
    with ((λ g : Z * Z, bool_decide (g.2 = flag)) <$> groups)
    by (by rewrite <- list_fmap_compose).
  set (mask := (λ g : Z * Z, bool_decide (g.2 = flag)) <$> groups).
  change (nrows (loc mask table))
    with (length (select mask ((λ g : Z * Z, Int g.1) <$> groups))).
  rewrite !getitem_loc, Hy, Hm. cbn [fmap result_fmap mbind result_bind].
  unfold mask. rewrite !select_fmap, !select_bool_decide, length_fmap.
  destruct (filter _ groups) as [|g gs]; [done|].
  by rewrite decide_False.
Qed.

(** X20. [plot_parallel_trends] draws at most two lines, the control
    regions first.  The line of a flag (0 or 1) has the years of the panel
    that have a row with that flag, once each and increasing, and against
    each year the mean of the outcome over the rows of that year and flag,
    missing values skipped; a flag without rows has no line, and rows with
    another value of [treated] are in no line. *)
Theorem parallel_trends_lines (mean : list float → float) (Axes : Type)
    (draw : list (string * (Series * Series)) → string → option Axes
            → option string → result Axes)
    (panel : DataFrame) (outcome : string) (ax : option Axes)
    (save_path : option string)
    (years flags : list Z) (values : Series) (xs : list float) :
  outcome ≠ "year" → outcome ≠ "treated" →
  getitem panel "year" = Ok (Int <$> years) →
  getitem panel "treated" = Ok (Int <$> flags) →
  getitem panel outcome = Ok values →
  mapM to_float values = Ok xs →
  let mean_of (g : Z * Z) :=
    of_float (mean
      (filter (λ x, PrimFloat.is_nan x = false)
         (select ((λ p, bool_decide (p = g)) <$> zip years flags) xs))) in
  let line (flag : Z) (label : string)
      (l : list (string * (Series * Series))) :=
    ∃ ys, StronglySorted Z.lt ys ∧
      (∀ y, y ∈ ys ↔ (y, flag) ∈ zip years flags) ∧
      l = match ys with
          | [] => []
          | _ => [(label, (Int <$> ys, (λ y, mean_of (y, flag)) <$> ys))]
          end in
  ∃ control treated,
    plot_parallel_trends mean Axes draw panel outcome ax save_path
    = draw (control ++ treated) outcome ax save_path ∧
    line 0 "Control regions" control ∧
    line 1 "Treated regions" treated.
Proof.
  intros _ _ Hy Ht Hv Hx mean_of line.
  pose proof (parallel_trends_Int mean panel outcome years flags values xs
                Hy Ht Hv Hx) as Hrun.
  cbn zeta in Hrun. fold mean_of in Hrun.
  set (groups := merge_sort key_le (remove_dups (zip years flags))) in *.
  assert (StronglySorted key_le groups) as Hs
    by (apply StronglySorted_merge_sort; apply _).
  assert (NoDup groups) as Hnd
    by (unfold groups; rewrite merge_sort_Permutation;
        apply NoDup_remove_dups).
  assert (∀ g, g ∈ groups ↔ g ∈ zip years flags) as Hg.
  { intros g. unfold groups.
    by rewrite merge_sort_Permutation, elem_of_remove_dups. }
  assert (∀ flag label,
            line flag label
              (match filter (λ g, g.2 = flag) groups with
               | [] => []
               | gs => [(label, ((λ g, Int g.1) <$> gs, mean_of <$> gs))]
               end)) as Hline.
  { intros flag label. exists (filter (λ g, g.2 = flag) groups).*1.
    split; [by apply group_years_increase|]. split.
    - intros y. rewrite <- Hg, list_elem_of_fmap. split.
      + intros ([y' t] & -> & [Hf Hin]%list_elem_of_filter).
        cbn in Hf. by subst.
      + intros Hin. exists (y, flag). split; [done|].
        by apply list_elem_of_filter.
    - assert (Forall (λ g : Z * Z, g.2 = flag) (filter (λ g, g.2 = flag) groups))
        as Hall.
      { apply Forall_forall. by intros g [? _]%list_elem_of_filter. }
      destruct (filter _ groups) as [|g gs]; [done|].
      rewrite <- !list_fmap_compose. do 3 f_equal.
      apply Forall_fmap_ext_1. eapply Forall_impl; [exact Hall|].
      intros [y t] Hf. cbn in *. by subst. }
  eexists _, _. split; [|split; apply Hline].
  unfold plot_parallel_trends. rewrite Hrun. cbn.
  rewrite !trend_line_groups. done.
Qed.

Lemma build_event_study_table_none (round3 : float → float)
    (m : RegressionResults.t) (ref_year : Z) :
  (∀ item, item ∈ RegressionResults.params m →
           event_pattern_match item.1 = None) →
  build_event_study_table round3 m ref_year = Raise ValueError.
Proof.
  intros Hno. rewrite build_event_study_table_eq.
  rewrite (proj2 (omap_nil_iff _ _)); [done|].
  intros [name coef] Hin. specialize (Hno _ Hin). cbn in Hno.
  unfold extract. cbn. by rewrite Hno.
Qed.

(** X21. [plot_event_study] raises the ValueError of the table when no
    parameter name matches the pattern.  Otherwise it draws the points
    ([rel_year], [coef]) of all rows of the table, in increasing
    [rel_year], and the band over the rows that have both bounds of the
    interval, and over no other; when the row of the reference year was
    added, its point at 0 is drawn and has no band. *)
Theorem event_study_plot_data (round3 : float → float) (Axes : Type)
    (draw : list Z → list float → list Z → list float → list float → Z
            → option Axes → option string → result Axes)
    (m : RegressionResults.t) (ref_year : Z) (ax : option Axes)
    (save_path : option string) :
  ((∀ item, item ∈ RegressionResults.params m →
            event_pattern_match item.1 = None) →
   plot_event_study round3 Axes draw m ref_year ax save_path
   = Raise ValueError) ∧
  ∀ table, build_event_study_table round3 m ref_year = Ok table →
    ∃ x y x_ci ci_low ci_high,
      plot_event_study round3 Axes draw m ref_year ax save_path
      = draw x y x_ci ci_low ci_high ref_year ax save_path ∧
      x = EventRow.rel_year <$> table ∧
      y = EventRow.coef <$> table ∧
      StronglySorted Z.le x ∧
      StronglySorted Z.le x_ci ∧
      length ci_low = length x_ci ∧ length ci_high = length x_ci ∧
      (∀ i k lo hi,
         x_ci !! i = Some k → ci_low !! i = Some lo →
         ci_high !! i = Some hi →
         PrimFloat.is_nan lo = false ∧ PrimFloat.is_nan hi = false ∧
         ∃ row, row ∈ table ∧ EventRow.rel_year row = k
                ∧ EventRow.ci_low row = lo ∧ EventRow.ci_high row = hi) ∧
      (∀ row, row ∈ table →
         PrimFloat.is_nan (EventRow.ci_low row) = false →
         PrimFloat.is_nan (EventRow.ci_high row) = false →
         EventRow.rel_year row ∈ x_ci) ∧
      ((ref_year ∉ extracted_years m) → 0 ∈ x ∧ 0 ∉ x_ci).
Proof.
  split.
  { intros Hno. unfold plot_event_study.
    by rewrite (build_event_study_table_none _ _ _ Hno). }
  intros table Htable.
  pose proof Htable as (full & Heq & Href & Hfull)%build_event_study_table_inv.
  set (P := λ r, PrimFloat.is_nan (EventRow.ci_low r) = false
                 ∧ PrimFloat.is_nan (EventRow.ci_high r) = false).
  exists (EventRow.rel_year <$> table), (EventRow.coef <$> table),
    (EventRow.rel_year <$> filter P table),
    (EventRow.ci_low <$> filter P table),
    (EventRow.ci_high <$> filter P table).
  assert (StronglySorted (λ a b, EventRow.rel_year a ≤ EventRow.rel_year b)
            table) as Hsorted.
  { rewrite Heq.
    eapply StronglySorted_fmap; [|apply StronglySorted_merge_sort; apply _].
    by intros a b. }
  split; [unfold plot_event_study; by rewrite Htable|].
  split; [done|]. split; [done|].
  split; [by eapply StronglySorted_fmap; [|exact Hsorted]|].
  split.
  { eapply StronglySorted_fmap; [|by apply StronglySorted_filter_1].
    by intros a b. }
  split; [by rewrite !length_fmap|]. split; [by rewrite !length_fmap|].
  split; [|split].
  - intros i k lo hi. rewrite !list_lookup_fmap.
    destruct (filter P table !! i) as [row|] eqn:Hrow; [|done]. cbn.
    intros [= <-] [= <-] [= <-].
    apply list_elem_of_lookup_2, list_elem_of_filter in Hrow as [[H1 H2] Hin].
    split; [done|]. split; [done|]. by exists row.
  - intros row Hin H1 H2. apply list_elem_of_fmap. exists row.
    split; [done|]. by apply list_elem_of_filter.
  - intros Hno. split.
    + apply list_elem_of_fmap.
      exists (round_pvalue round3 (reference_row ref_year)).
      split; [done|]. rewrite Heq. apply list_elem_of_fmap_2.
      rewrite merge_sort_Permutation. by apply Href.
    + intros (row & H0 & [[H1 H2] Hin]%list_elem_of_filter)%list_elem_of_fmap.
      rewrite Heq in Hin.
      apply list_elem_of_fmap in Hin as (r & -> & Hr).
      rewrite merge_sort_Permutation in Hr.
      destruct (Hfull r Hr)
        as [Hrel [(name & coef & digits & Hin & Hd & Hyr & _)|[_ ->]]].
      * destruct Hno. apply list_elem_of_omap. exists (name, coef).
        split; [done|]. cbn. rewrite Hd. cbn. f_equal.
        cbn in H0. lia.
      * done.
Qed.

(** * plots.py: what the plot of the intensities needs *)

Lemma getitem_fmap (f : Series → Series) (df : DataFrame) (c : string) :
  getitem (prod_map id f <$> df) c = f <$> getitem df c.
Proof.
  unfold getitem. induction df as [|[k v] df IH]; cbn; [done|].
  destruct (decide (k = c)); [done|]. apply IH.
Qed.

Lemma columns_fmap (f : Series → Series) (df : DataFrame) :
  columns (prod_map id f <$> df) = columns df.
Proof.
  unfold columns. rewrite <- list_fmap_compose. by apply list_fmap_ext.
Qed.

(** [sort_values] on a numeric column keeps the columns and their names;
    without the column it raises KeyError. *)
Lemma sort_values_numeric (df : DataFrame) (by_col : string) (key : Series) :
  getitem df by_col = Ok key → Forall numeric key →
  ∃ f, sort_values df by_col = Ok (prod_map id f <$> df).
Proof.
  intros Hk [xs Hxs]%mapM_to_float_numeric.
  unfold sort_values. rewrite Hk. cbn. rewrite Hxs. cbn. by eexists.
Qed.

(** X22. [plot_treatment_intensity] sorts by the column
    [treatment_intensity] whatever [intensity_col] is, and colors by
    [treated].  Where the distribution of [intensity_col] is computed,
    another [intensity_col] than [treatment_intensity] ends in KeyError for
    [treatment_intensity]; with [treatment_intensity], a panel without
    [treated] ends in KeyError for [treated], and a panel with [treated] has
    the rows of the year sorted, under the same columns, and handed to the
    drawing with the colors of their [treated] entries and the median. *)
Theorem plot_treatment_intensity_needs (Axes : Type)
    (draw : DataFrame → Series → float → Z → option string → result Axes)
    (panel : DataFrame) (year : Z) (intensity_col : string)
    (save_path : option string) (years intensity : Series) :
  intensity_col ≠ "year" → intensity_col ≠ "region" →
  intensity_col ≠ "treated" →
  getitem panel "year" = Ok years →
  getitem panel intensity_col = Ok intensity →
  length years = length intensity →
  Forall numeric intensity →
  select (kept year years intensity) intensity ≠ [] →
  (intensity_col ≠ "treatment_intensity" →
   plot_treatment_intensity Axes draw panel year intensity_col save_path
   = Raise (KeyError "treatment_intensity")) ∧
  (intensity_col = "treatment_intensity" → "treated" ∉ columns panel →
   plot_treatment_intensity Axes draw panel year intensity_col save_path
   = Raise (KeyError "treated")) ∧
  (intensity_col = "treatment_intensity" → "treated" ∈ columns panel →
   ∃ df_year m sorted treated,
     compute_treatment_intensity_distribution panel year intensity_col
     = Ok (df_year, m) ∧
     sort_values df_year "treatment_intensity" = Ok sorted ∧
     columns sorted = columns df_year ∧
     getitem sorted "treated" = Ok treated ∧
     plot_treatment_intensity Axes draw panel year intensity_col save_path
     = draw sorted (color_of <$> treated) m year save_path).
Proof.
  intros Hne1 Hne2 Hne3 Hy Hi Hlen Hnum Hrows.
  destruct (distribution_returns panel year intensity_col years intensity
              Hne1 Hy Hi Hlen Hnum Hrows)
    as (df_year & m & Hrun & _ & Hcols & Hget).
  set (keep := kept year years intensity) in *.
  assert (intensity_col ∈ columns df_year) as Hin.
  { rewrite Hcols. cbn [app]. rewrite !elem_of_cons. auto. }
  assert (getitem df_year intensity_col = Ok (select keep intensity)) as Hdi.
  { by rewrite (Hget _ Hin), Hi. }
  assert ("treated" ∈ columns df_year ↔ "treated" ∈ columns panel) as Htr.
  { rewrite Hcols. cbn [app]. rewrite !elem_of_cons, list_elem_of_filter.
    rewrite !elem_of_cons, elem_of_nil. split.
    - intros [?|[?|[? _]]]; [done|congruence|done].
    - intros ?. right. right. split; [done|]. auto. }
  split; [|split].
  - intros Hti. unfold plot_treatment_intensity. rewrite Hrun. cbn.
    unfold sort_values. rewrite getitem_missing; [done|].
    rewrite Hcols. cbn [app]. rewrite !elem_of_cons, list_elem_of_filter.
    rewrite !elem_of_cons, elem_of_nil.
    intros [?|[?|[_ [?|[?|[]]]]]]; done.
  - intros -> Hno.
    destruct (sort_values_numeric df_year "treatment_intensity" _ Hdi)
      as [f Hsort]; [by apply Forall_select|].
    unfold plot_treatment_intensity. rewrite Hrun. cbn. rewrite Hsort. cbn.
    rewrite getitem_missing; [done|].
    rewrite columns_fmap, Htr. done.
  - intros -> Hyes.
    destruct (sort_values_numeric df_year "treatment_intensity" _ Hdi)
      as [f Hsort]; [by apply Forall_select|].
    apply Htr, getitem_Ok_columns in Hyes as [treated Htreated].
    exists df_year, m, (prod_map id f <$> df_year), (f treated).
    split; [done|]. split; [done|]. split; [apply columns_fmap|].
    assert (getitem (prod_map id f <$> df_year) "treated" = Ok (f treated))
      as Hst by (by rewrite getitem_fmap, Htreated).
    split; [done|].
    unfold plot_treatment_intensity. rewrite Hrun. cbn. rewrite Hsort. cbn.
    by rewrite Hst.
Qed.

(** * The statements on the small inputs *)

(** [demo_prepared] is a panel for [run_did_with_threshold]. *)
Lemma threshold_panel_demo :
  threshold_panel demo_prepared demo_years demo_regions
    [NaN; NaN; NaN; Num 2; Num 4; NaN] [0; 0; 0; 1; 1; 1].
Proof.
  split; try done.
  - repeat constructor.
  - by apply NoDup_by_decide.
Qed.

(** The prepared panel, computed. *)
Lemma prepare_analysis_panel_demo :
  prepare_analysis_panel demo_panel = Ok demo_prepared.
Proof. by vm_compute. Qed.

(** C4 on [demo_panel]: its regions are text, its counts numbers. *)
Lemma treatment_intensity_first_difference_demo :
  getitem demo_panel "region" = Ok (Str <$> demo_regions) ∧
  getitem demo_panel "foreigners_total" = Ok demo_foreigners ∧
  mapM to_float demo_foreigners = Ok demo_counts ∧
  length demo_foreigners = length demo_regions ∧
  ∃ intensity,
    treatment_intensity demo_panel = Ok intensity ∧
    length intensity = length demo_regions ∧
    (∀ df', add_treatment_variables demo_panel = Ok df' →
            getitem df' "treatment_intensity" = Ok intensity) ∧
    ∀ i k v, demo_regions !! i = Some k → demo_counts !! i = Some v →
      ((∀ j, (j < i)%nat → demo_regions !! j ≠ Some k) →
       intensity !! i = Some NaN) ∧
      (∀ j p, (j < i)%nat → demo_regions !! j = Some k →
              demo_counts !! j = Some p →
              (∀ l, (j < l < i)%nat → demo_regions !! l ≠ Some k) →
              intensity !! i = Some (of_float (PrimFloat.sub v p))).
Proof.
  split; [reflexivity|]. split; [reflexivity|].
  split; [reflexivity|]. split; [reflexivity|].
  apply (treatment_intensity_first_difference demo_panel demo_regions
           demo_foreigners demo_counts); reflexivity.
Defined.


(** C3 on [demo_panel]. *)
Lemma prepare_analysis_panel_design_demo :
  design_panel demo_panel demo_years demo_regions demo_counts ∧
  getitem demo_panel "total_cases"
  = Ok [Int 3; Int 4; Int 1; Int 5; Int 6; Int 0] ∧
  getitem demo_panel "population_total"
  = Ok [Int 1000; Int 1000; Int 500; Int 1000; Int 2000; Int 0] ∧
  Forall numeric [Int 3; Int 4; Int 1; Int 5; Int 6; Int 0] ∧
  Forall numeric [Int 1000; Int 1000; Int 500; Int 1000; Int 2000; Int 0] ∧
  ∃ df' treated post did,
    prepare_analysis_panel demo_panel = Ok df' ∧
    getitem df' "treated" = Ok (Int <$> treated) ∧
    getitem df' "post" = Ok (Int <$> post) ∧
    getitem df' "did" = Ok (Int <$> did) ∧
    length treated = length demo_years ∧
    length post = length demo_years ∧
    length did = length demo_years ∧
    (∀ i y, demo_years !! i = Some y →
            post !! i = Some (if decide (2016 ≤ y) then 1 else 0)) ∧
    (∀ i t, treated !! i = Some t → t = 0 ∨ t = 1) ∧
    (∀ i j k, demo_regions !! i = Some k → demo_regions !! j = Some k →
              treated !! i = treated !! j) ∧
    (∀ i t p, treated !! i = Some t → post !! i = Some p →
              did !! i = Some (t * p)).
Proof.
  split; [exact design_panel_demo|].
  split; [reflexivity|]. split; [reflexivity|].
  split; [repeat constructor|]. split; [repeat constructor|].
  apply (prepare_analysis_panel_design demo_panel demo_years demo_regions
           demo_counts _ _ design_panel_demo eq_refl eq_refl);
    repeat constructor.
Defined.

(** C9 on [demo_panel] and on [demo_prepared] with the threshold 3: region
    C has no row of 2016, region D has one with a missing intensity. *)
Lemma control_without_intensity_2016_demo :
  design_panel demo_panel demo_years demo_regions demo_counts ∧
  threshold_panel demo_prepared demo_years demo_regions
    [NaN; NaN; NaN; Num 2; Num 4; NaN] [0; 0; 0; 1; 1; 1] ∧
  (∃ df' intensity treated did,
     add_treatment_variables demo_panel = Ok df' ∧
     getitem df' "treatment_intensity" = Ok intensity ∧
     getitem df' "treated" = Ok (Int <$> treated) ∧
     getitem df' "did" = Ok (Int <$> did) ∧
     ∀ k, (∀ j, demo_years !! j = Some 2016 → demo_regions !! j = Some k →
                intensity !! j = Some NaN) →
          ∀ i, demo_regions !! i = Some k →
               treated !! i = Some 0 ∧ did !! i = Some 0) ∧
  (∃ df' treated_alt did_alt,
     threshold_design demo_prepared 3 = Ok df' ∧
     (∀ ols, run_did_with_threshold ols demo_prepared 3
             = ols "crime_rate_per_100k ~ did_alt + C(region) + C(year)" df') ∧
     getitem df' "treated_alt" = Ok (Int <$> treated_alt) ∧
     getitem df' "did_alt" = Ok (Int <$> did_alt) ∧
     ∀ k, (∀ j, demo_years !! j = Some 2016 → demo_regions !! j = Some k →
                [NaN; NaN; NaN; Num 2; Num 4; NaN] !! j = Some NaN) →
          ∀ i, demo_regions !! i = Some k →
               treated_alt !! i = Some 0 ∧ did_alt !! i = Some 0).
Proof.
  split; [exact design_panel_demo|]. split; [exact threshold_panel_demo|].
  apply (control_without_intensity_2016 demo_panel demo_years demo_regions
           demo_counts demo_prepared demo_years demo_regions
           [NaN; NaN; NaN; Num 2; Num 4; NaN] [0; 0; 0; 1; 1; 1] 3
           design_panel_demo threshold_panel_demo).
Defined.

(** C6 on [demo_prepared] with the cutoff 2016 and a fit that counts its
    rows. *)
Lemma pretrend_fits_pre_period_demo :
  getitem demo_prepared "year" = Ok (Int <$> demo_years) ∧
  let keep := (λ y, bool_decide (y < 2016)) <$> demo_years in
  let pre_years := filter (λ y, y < 2016) demo_years in
  ∃ pre year_num,
    pretrend_design demo_prepared 2016 = Ok pre ∧
    fit_pretrend_interaction count_rows_fit demo_prepared 2016
    = count_rows_fit
        "crime_rate_per_100k ~ treated * year_num + C(region)" pre ∧
    (∀ c, c ≠ "year_num" →
          getitem pre c = select keep <$> getitem demo_prepared c) ∧
    getitem pre "year" = Ok (Int <$> pre_years) ∧
    getitem pre "year_num" = Ok (Int <$> year_num) ∧
    (∃ first,
       (pre_years ≠ [] → first ∈ pre_years) ∧
       (∀ y, y ∈ pre_years → first ≤ y) ∧
       year_num = (λ y, wrap64 (y - first)) <$> pre_years ∧
       ((∀ y, y ∈ pre_years → y - first < 2 ^ 63) →
        year_num = (λ y, y - first) <$> pre_years)) ∧
    (pre_years ≠ [] → 0 ∈ year_num) ∧
    (∀ panel2 years2,
       getitem panel2 "year" = Ok (Int <$> years2) →
       loc ((λ y, bool_decide (y < 2016)) <$> years2) panel2
       = loc keep demo_prepared →
       fit_pretrend_interaction count_rows_fit panel2 2016
       = fit_pretrend_interaction count_rows_fit demo_prepared 2016).
Proof.
  split; [reflexivity|].
  apply (pretrend_fits_pre_period count_rows_fit demo_prepared 2016
           demo_years eq_refl).
Defined.


(** C8 on [demo_panel], which lacks the column, and on [demo_prepared],
    which has it. *)
Lemma add_crime_rate_if_missing_idempotent_demo :
  (∃ df, add_crime_rate_if_missing demo_panel = Ok df
         ∧ add_crime_rate_if_missing df = Ok df) ∧
  "crime_rate_per_100k" ∈ columns demo_prepared ∧
  add_crime_rate_if_missing demo_prepared = Ok demo_prepared.
Proof.
  destruct (add_crime_rate_if_missing_idempotent demo_panel)
    as (_ & _ & Hreturns).
  destruct (add_crime_rate_if_missing_idempotent demo_prepared)
    as (_ & Hpresent & _).
  assert ("crime_rate_per_100k" ∈ columns demo_prepared) as Hin
    by by apply (list_elem_of_lookup_2 _ 5%nat).
  split; [|split; [exact Hin | exact (Hpresent Hin)]].
  apply (Hreturns [Int 3; Int 4; Int 1; Int 5; Int 6; Int 0]
           [Int 1000; Int 1000; Int 500; Int 1000; Int 2000; Int 0]);
    [reflexivity | reflexivity | repeat constructor | repeat constructor].
Defined.


(** C10, amended, on [demo_model] with the reference year 2015, which is
    not among the years 2014 and 2016 of its names. *)
Lemma event_table_sorted_with_reference_demo :
  NoDup (extracted_years demo_model) ∧
  (2015 ∉ extracted_years demo_model) ∧
  ∃ table,
    build_event_study_table (λ x, x) demo_model 2015 = Ok table ∧
    StronglySorted (λ a b, EventRow.rel_year a ≤ EventRow.rel_year b) table ∧
    length (filter (λ row, EventRow.year row = 2015) table) = 1%nat ∧
    ∀ row, row ∈ table → EventRow.year row = 2015 →
      EventRow.rel_year row = 0 ∧ EventRow.coef row = PrimFloat.zero ∧
      EventRow.se row = PrimFloat.nan ∧ EventRow.ci_low row = PrimFloat.nan ∧
      EventRow.ci_high row = PrimFloat.nan.
Proof.
  assert (NoDup (extracted_years demo_model)) as Hnd
    by by apply NoDup_by_decide.
  assert (2015 ∉ extracted_years demo_model) as Hno
    by by apply (bool_decide_eq_false_1 (2015 ∈ extracted_years demo_model)).
  split; [exact Hnd|]. split; [exact Hno|].
  eexists. split; [by vm_compute|].
  destruct (event_table_sorted_with_reference (λ x, x) demo_model 2015)
    as [_ Htable].
  destruct (Htable _ ltac:(by vm_compute)) as (Hsorted & _ & _ & Hsynthetic).
  destruct (Hsynthetic Hno) as [Hone Hrow].
  split; [exact Hsorted|]. split; [exact Hone | exact Hrow].
Defined.

(** * The further statements on the small inputs *)

Lemma rectangular_demo : rectangular demo_panel 6.
Proof. repeat constructor. Qed.

Lemma add_treatment_variables_prepared :
  add_treatment_variables demo_prepared = Ok demo_prepared.
Proof. by vm_compute. Qed.

Lemma int64_flags : Forall int64 [0; 1; 0; 0; 1; 0].
Proof. repeat (constructor; [by vm_compute|]). constructor. Qed.

Lemma int64_posts : Forall int64 [0; 0; 0; 1; 1; 1].
Proof. repeat (constructor; [by vm_compute|]). constructor. Qed.

(** X1 on [demo_panel]: in 2016 region D has neither cases nor
    inhabitants, and its rate is missing. *)
Lemma crime_rate_rows_demo :
  ("crime_rate_per_100k" ∉ columns demo_panel) ∧
  getitem demo_panel "total_cases"
  = Ok [Int 3; Int 4; Int 1; Int 5; Int 6; Int 0] ∧
  getitem demo_panel "population_total"
  = Ok [Int 1000; Int 1000; Int 500; Int 1000; Int 2000; Int 0] ∧
  ∃ df rate,
    add_crime_rate_if_missing demo_panel = Ok df ∧
    getitem df "crime_rate_per_100k" = Ok rate ∧
    length rate = 6%nat ∧
    rate !! 5%nat = Some NaN.
Proof.
  assert ("crime_rate_per_100k" ∉ columns demo_panel) as Hno
    by by apply (bool_decide_eq_false_1
                   ("crime_rate_per_100k" ∈ columns demo_panel)).
  split; [exact Hno|]. split; [reflexivity|]. split; [reflexivity|].
  destruct (crime_rate_rows demo_panel
              [Int 3; Int 4; Int 1; Int 5; Int 6; Int 0]
              [Int 1000; Int 1000; Int 500; Int 1000; Int 2000; Int 0]
              Hno eq_refl eq_refl ltac:(repeat constructor)
              ltac:(repeat constructor) eq_refl)
    as (df & rate & Hdf & Hrate & Hlen & Hrows).
  exists df, rate. split; [exact Hdf|]. split; [exact Hrate|].
  split; [exact Hlen|].
  destruct (Hrows 5%nat (Int 0) (Int 0) eq_refl eq_refl) as (_ & _ & Hzero).
  exact (Hzero eq_refl eq_refl).
Defined.

(** X2 on [demo_panel], a panel of six rows, and what
    [prepare_analysis_panel] makes of it. *)
Lemma design_frame_kept_demo :
  prepare_analysis_panel demo_panel = Ok demo_prepared ∧
  columns demo_prepared
  = columns demo_panel
    ++ ["crime_rate_per_100k"; "treatment_intensity"; "treated"; "post";
        "did"] ∧
  getitem demo_prepared "foreigners_total"
  = getitem demo_panel "foreigners_total" ∧
  rectangular demo_panel 6 ∧ rectangular demo_prepared 6.
Proof.
  destruct (design_frame_kept demo_panel) as [_ H].
  destruct (H demo_prepared prepare_analysis_panel_demo)
    as (Hcols & Hkept & Hrect).
  split; [exact prepare_analysis_panel_demo|]. split; [exact Hcols|].
  split; [|split; [exact rectangular_demo | exact (Hrect _ rectangular_demo)]].
  apply Hkept.
  - by apply (list_elem_of_lookup_2 _ 2%nat).
  - by apply (bool_decide_eq_false_1 ("foreigners_total" ∈ design_variables)).
Defined.

(** X3 on [demo_panel]: the prepared panel, prepared again. *)
Lemma design_idempotent_demo :
  prepare_analysis_panel demo_panel = Ok demo_prepared ∧
  prepare_analysis_panel demo_prepared = Ok demo_prepared.
Proof.
  destruct (design_idempotent demo_panel) as [_ H].
  rewrite prepare_analysis_panel_demo in H.
  split; [exact prepare_analysis_panel_demo | exact H].
Defined.

(** X4 on [falling_panel], which has the three columns of the design and
    neither a crime rate nor [total_cases], and on [demo_prepared]. *)
Lemma design_required_columns_demo :
  ("crime_rate_per_100k" ∉ columns falling_panel) ∧
  ("total_cases" ∉ columns falling_panel) ∧
  prepare_analysis_panel falling_panel = Raise (KeyError "total_cases") ∧
  "year" ∈ columns demo_prepared ∧ "region" ∈ columns demo_prepared ∧
  "foreigners_total" ∈ columns demo_prepared.
Proof.
  assert ("crime_rate_per_100k" ∉ columns falling_panel) as H1
    by by apply (bool_decide_eq_false_1
                   ("crime_rate_per_100k" ∈ columns falling_panel)).
  assert ("total_cases" ∉ columns falling_panel) as H2
    by by apply (bool_decide_eq_false_1
                   ("total_cases" ∈ columns falling_panel)).
  destruct (design_required_columns falling_panel)
    as (_ & _ & _ & _ & Hcases & _).
  destruct (design_required_columns demo_prepared) as (Hneeds & _).
  split; [exact H1|]. split; [exact H2|].
  split; [exact (proj2 (Hcases H1 H2))|].
  exact (Hneeds demo_prepared add_treatment_variables_prepared).
Defined.

(** X5 on [early_panel], whose rows are of 2014 and 2015. *)
Lemma no_row_of_2016_demo :
  getitem early_panel "year" = Ok (Int <$> [2014; 2015; 2014; 2015]) ∧
  getitem early_panel "region" = Ok (Str <$> ["A"; "A"; "B"; "B"]) ∧
  getitem early_panel "foreigners_total"
  = Ok [Int 10; Int 12; Int 5; Int 5] ∧
  Forall numeric [Int 10; Int 12; Int 5; Int 5] ∧
  (2016 ∉ [2014; 2015; 2014; 2015]) ∧
  add_treatment_variables early_panel = Raise AttributeError.
Proof.
  assert (Forall numeric [Int 10; Int 12; Int 5; Int 5]) as Hnum
    by repeat constructor.
  assert (2016 ∉ [2014; 2015; 2014; 2015]) as Hno
    by by apply (bool_decide_eq_false_1 (2016 ∈ [2014; 2015; 2014; 2015])).
  split; [reflexivity|]. split; [reflexivity|]. split; [reflexivity|].
  split; [exact Hnum|]. split; [exact Hno|].
  exact (proj1 (no_row_of_2016 early_panel [2014; 2015; 2014; 2015]
                  ["A"; "A"; "B"; "B"] [Int 10; Int 12; Int 5; Int 5]
                  eq_refl eq_refl eq_refl Hnum Hno)).
Defined.

(** X6 on [doubled_panel], where region A has two rows of 2016. *)
Lemma two_rows_of_a_region_in_2016_demo :
  getitem doubled_panel "year" = Ok (Int <$> [2015; 2016; 2016]) ∧
  getitem doubled_panel "region" = Ok (Str <$> ["A"; "A"; "A"]) ∧
  getitem doubled_panel "foreigners_total" = Ok [Int 10; Int 12; Int 13] ∧
  mapM to_float [Int 10; Int 12; Int 13] = Ok (of_int64 <$> [10; 12; 13]) ∧
  ¬ NoDup (select (in_2016 [2015; 2016; 2016]) ["A"; "A"; "A"]) ∧
  add_treatment_variables doubled_panel = Raise InvalidIndexError.
Proof.
  assert (¬ NoDup (select (in_2016 [2015; 2016; 2016]) ["A"; "A"; "A"]))
    as Hdup
    by by apply (bool_decide_eq_false_1
                   (NoDup (select (in_2016 [2015; 2016; 2016])
                             ["A"; "A"; "A"]))).
  split; [reflexivity|]. split; [reflexivity|]. split; [reflexivity|].
  split; [reflexivity|]. split; [exact Hdup|].
  apply (two_rows_of_a_region_in_2016 doubled_panel [2015; 2016; 2016]
           ["A"; "A"; "A"] [Int 10; Int 12; Int 13]
           (of_int64 <$> [10; 12; 13]));
    [reflexivity.. | exact Hdup].
Defined.

(** X7 on [demo_prepared] with the threshold 3: only region B, whose
    intensity of 2016 is 4, is above it. *)
Lemma treated_alt_iff_above_threshold_demo :
  threshold_panel demo_prepared demo_years demo_regions
    [NaN; NaN; NaN; Num 2; Num 4; NaN] [0; 0; 0; 1; 1; 1] ∧
  Forall int64 [0; 0; 0; 1; 1; 1] ∧
  ∃ df' treated_alt did_alt,
    threshold_design demo_prepared 3 = Ok df' ∧
    (∀ ols, run_did_with_threshold ols demo_prepared 3
            = ols "crime_rate_per_100k ~ did_alt + C(region) + C(year)" df') ∧
    getitem df' "treated_alt" = Ok (Int <$> treated_alt) ∧
    getitem df' "did_alt" = Ok (Int <$> did_alt) ∧
    (∀ c, c ≠ "treated_alt" → c ≠ "did_alt" →
          getitem df' c = getitem demo_prepared c) ∧
    ∀ i k, demo_regions !! i = Some k →
      ∃ t, treated_alt !! i = Some t ∧ (t = 0 ∨ t = 1) ∧
        (t = 1 ↔
         ∃ j c, demo_years !! j = Some 2016 ∧ demo_regions !! j = Some k
                ∧ [NaN; NaN; NaN; Num 2; Num 4; NaN] !! j = Some c
                ∧ above 3 c = true) ∧
        ∀ p, [0; 0; 0; 1; 1; 1] !! i = Some p → did_alt !! i = Some (t * p).
Proof.
  split; [exact threshold_panel_demo|]. split; [exact int64_posts|].
  exact (treated_alt_iff_above_threshold demo_prepared demo_years
           demo_regions [NaN; NaN; NaN; Num 2; Num 4; NaN]
           [0; 0; 0; 1; 1; 1] 3 threshold_panel_demo int64_posts).
Defined.

(** X8 on [demo_prepared] with the thresholds 1 and 3. *)
Lemma higher_threshold_fewer_treated_demo :
  threshold_panel demo_prepared demo_years demo_regions
    [NaN; NaN; NaN; Num 2; Num 4; NaN] [0; 0; 0; 1; 1; 1] ∧
  PrimFloat.leb 1 3 = true ∧
  ∃ df_low df_high treated_low treated_high,
    threshold_design demo_prepared 1 = Ok df_low ∧
    threshold_design demo_prepared 3 = Ok df_high ∧
    getitem df_low "treated_alt" = Ok (Int <$> treated_low) ∧
    getitem df_high "treated_alt" = Ok (Int <$> treated_high) ∧
    length treated_low = length demo_regions ∧
    length treated_high = length demo_regions ∧
    ∀ i, treated_high !! i = Some 1 → treated_low !! i = Some 1.
Proof.
  split; [exact threshold_panel_demo|]. split; [reflexivity|].
  exact (higher_threshold_fewer_treated demo_prepared demo_years
           demo_regions [NaN; NaN; NaN; Num 2; Num 4; NaN]
           [0; 0; 0; 1; 1; 1] 1 3 threshold_panel_demo eq_refl).
Defined.

(** X9 on [demo_prepared]: the median of the intensities 2 and 4 is 3, and
    the threshold 3 gives [treated] and [did] back. *)
Lemma threshold_at_design_cut_demo :
  add_treatment_variables demo_prepared = Ok demo_prepared ∧
  getitem demo_prepared "year" = Ok (Int <$> demo_years) ∧
  getitem demo_prepared "treatment_intensity"
  = Ok [NaN; NaN; NaN; Num 2; Num 4; NaN] ∧
  median (select (eq_scalar 2016 <$> (Int <$> demo_years))
            [NaN; NaN; NaN; Num 2; Num 4; NaN]) = Ok (Some 3%float) ∧
  astype_int (Some 3%float) = Ok 3 ∧
  ∃ df_alt,
    threshold_design demo_prepared (of_int64 3) = Ok df_alt ∧
    (∀ ols, run_did_with_threshold ols demo_prepared (of_int64 3)
            = ols "crime_rate_per_100k ~ did_alt + C(region) + C(year)"
                df_alt) ∧
    getitem df_alt "treated_alt" = getitem demo_prepared "treated" ∧
    getitem df_alt "did_alt" = getitem demo_prepared "did".
Proof.
  assert (median (select (eq_scalar 2016 <$> (Int <$> demo_years))
                    [NaN; NaN; NaN; Num 2; Num 4; NaN]) = Ok (Some 3%float))
    as Hm by by vm_compute.
  assert (astype_int (Some 3%float) = Ok 3) as Ht by by vm_compute.
  split; [exact add_treatment_variables_prepared|].
  split; [reflexivity|]. split; [reflexivity|].
  split; [exact Hm|]. split; [exact Ht|].
  exact (threshold_at_design_cut demo_prepared demo_prepared
           (Int <$> demo_years) [NaN; NaN; NaN; Num 2; Num 4; NaN]
           (Some 3%float) 3 add_treatment_variables_prepared
           eq_refl eq_refl Hm Ht).
Defined.

(** X10 on [demo_prepared], two thresholds and a fit that counts its rows. *)
Lemma threshold_grid_in_pieces_demo :
  run_threshold_grid count_rows_fit demo_prepared
    ([("p40", 2%float)] ++ [("p60", 3%float)])
  = (ra ← run_threshold_grid count_rows_fit demo_prepared [("p40", 2%float)];
     rb ← run_threshold_grid count_rows_fit demo_prepared [("p60", 3%float)];
     Ok (ra ++ rb)).
Proof.
  exact (proj1 (proj2 (threshold_grid_in_pieces count_rows_fit demo_prepared
                         [("p40", 2%float)] [("p60", 3%float)]))).
Defined.

(** X11 on [demo_prepared] with the placebo year 2016. *)
Lemma placebo_design_columns_demo :
  getitem demo_prepared "year" = Ok (Int <$> demo_years) ∧
  getitem demo_prepared "treated" = Ok (Int <$> [0; 1; 0; 0; 1; 0]) ∧
  Forall int64 [0; 1; 0; 0; 1; 0] ∧
  ∃ df fake_post fake_did,
    placebo_design demo_prepared 2016 = Ok df ∧
    (∀ ols, fit_placebo_did ols demo_prepared 2016
            = ols "crime_rate_per_100k ~ fake_did + C(region) + C(year)" df) ∧
    getitem df "fake_post" = Ok (Int <$> fake_post) ∧
    getitem df "fake_did" = Ok (Int <$> fake_did) ∧
    (∀ c, c ≠ "fake_post" → c ≠ "fake_did" →
          getitem df c = getitem demo_prepared c) ∧
    (∀ i y, demo_years !! i = Some y →
       fake_post !! i = Some (if decide (2016 ≤ y) then 1 else 0)) ∧
    (∀ i y t, demo_years !! i = Some y →
       [0; 1; 0; 0; 1; 0] !! i = Some t →
       fake_did !! i = Some (if decide (2016 ≤ y) then t else 0)).
Proof.
  split; [reflexivity|]. split; [reflexivity|]. split; [exact int64_flags|].
  exact (placebo_design_columns demo_prepared demo_years [0; 1; 0; 0; 1; 0]
           2016 eq_refl eq_refl int64_flags).
Defined.

(** X12 on [demo_prepared]. *)
Lemma placebo_at_2016_is_the_design_demo :
  add_treatment_variables demo_prepared = Ok demo_prepared ∧
  ∃ df,
    placebo_design demo_prepared 2016 = Ok df ∧
    (∀ ols, fit_placebo_did ols demo_prepared 2016
            = ols "crime_rate_per_100k ~ fake_did + C(region) + C(year)" df) ∧
    getitem df "fake_post" = getitem demo_prepared "post" ∧
    getitem df "fake_did" = getitem demo_prepared "did".
Proof.
  split; [exact add_treatment_variables_prepared|].
  exact (placebo_at_2016_is_the_design demo_prepared demo_prepared
           add_treatment_variables_prepared).
Defined.

(** X13 on [early_panel] without its first column, the years. *)
Lemma models_required_columns_demo :
  ("year" ∉ columns (tail early_panel)) ∧
  run_did_with_threshold count_rows_fit (tail early_panel) 3
  = Raise (KeyError "year") ∧
  fit_placebo_did count_rows_fit (tail early_panel) 2013
  = Raise (KeyError "year") ∧
  fit_pretrend_interaction count_rows_fit (tail early_panel) 2016
  = Raise (KeyError "year").
Proof.
  assert ("year" ∉ columns (tail early_panel)) as Hno
    by by apply (bool_decide_eq_false_1 ("year" ∈ columns (tail early_panel))).
  destruct (models_required_columns count_rows_fit (tail early_panel))
    as (_ & _ & _ & H).
  destruct (H Hno) as (H1 & H2 & H3 & _).
  split; [exact Hno|].
  split; [exact (H1 3%float)|]. split; [exact (H2 2013) | exact (H3 2016)].
Defined.

(** X14 on the reference year 2015 and the year 2016. *)
Lemma event_term_round_trip_demo :
  event_study_formula 2015
  = "crime_rate_per_100k ~ C(region) + C(year, Treatment(reference=2015)) + C(year, Treatment(reference=2015)):treated" ∧
  event_term 2015 2016 = "C(year, Treatment(reference=2015))[2016]:treated" ∧
  event_pattern_match (event_term 2015 2016 +:+ "") = Some (pretty 2016) ∧
  int_of_digits (pretty 2016) = 2016.
Proof.
  destruct (event_term_round_trip 2015 2016 "") as (_ & H & _).
  destruct (H ltac:(done) ltac:(done)) as (Hmatch & Hint & _).
  split; [reflexivity|]. split; [reflexivity|].
  split; [exact Hmatch | exact Hint].
Defined.

(** X15 on [demo_model] with the reference year 2015. *)
Lemma event_table_years_and_p_values_demo :
  ∃ table,
    build_event_study_table (λ x, x) demo_model 2015 = Ok table ∧
    (∀ row, row ∈ table →
       EventRow.rel_year row = EventRow.year row - 2015) ∧
    StronglySorted (λ a b, EventRow.year a ≤ EventRow.year b) table.
Proof.
  eexists. split; [by vm_compute|].
  destruct (event_table_years_and_p_values (λ x, x) demo_model 2015 _
              ltac:(by vm_compute)) as [Hrows Hsorted].
  split; [|exact Hsorted].
  intros row Hrow. exact (proj1 (Hrows row Hrow)).
Defined.

(** X16 on [demo_prepared] and the year 2016: the rows of A and B are
    kept, the row of D has no intensity. *)
Lemma treatment_intensity_distribution_rows_demo :
  getitem demo_prepared "year" = Ok (Int <$> demo_years) ∧
  getitem demo_prepared "treatment_intensity"
  = Ok [NaN; NaN; NaN; Num 2; Num 4; NaN] ∧
  Forall numeric [NaN; NaN; NaN; Num 2; Num 4; NaN] ∧
  kept 2016 (Int <$> demo_years) [NaN; NaN; NaN; Num 2; Num 4; NaN]
  = [false; false; false; true; true; false] ∧
  ∃ df_year m,
    compute_treatment_intensity_distribution demo_prepared 2016
      "treatment_intensity" = Ok (df_year, m) ∧
    median (select [false; false; false; true; true; false]
              [NaN; NaN; NaN; Num 2; Num 4; NaN]) = Ok (Some m) ∧
    columns df_year = ["year"; "treatment_intensity"; "region"; "treated"] ∧
    ∀ c, c ∈ columns df_year →
         getitem df_year c
         = select [false; false; false; true; true; false]
             <$> getitem demo_prepared c.
Proof.
  assert (Forall numeric [NaN; NaN; NaN; Num 2; Num 4; NaN]) as Hnum
    by repeat constructor.
  split; [reflexivity|]. split; [reflexivity|]. split; [exact Hnum|].
  split; [reflexivity|].
  destruct (treatment_intensity_distribution_rows demo_prepared 2016
              "treatment_intensity" (Int <$> demo_years)
              [NaN; NaN; NaN; Num 2; Num 4; NaN]
              ltac:(done) ltac:(done) ltac:(done) eq_refl eq_refl eq_refl
              Hnum) as (_ & _ & H).
  exact (H ltac:(done)).
Defined.


(** X18 on [demo_panel] with a mean that is always 0. *)
Lemma parallel_trends_of_prepared_panel_demo :
  design_panel demo_panel demo_years demo_regions demo_counts ∧
  ("crime_rate_per_100k" ∉ columns demo_panel) ∧
  ∃ df' treated rate rates groups,
    prepare_analysis_panel demo_panel = Ok df' ∧
    getitem df' "treated" = Ok (Int <$> treated) ∧
    getitem df' "crime_rate_per_100k" = Ok rate ∧
    mapM to_float rate = Ok rates ∧
    compute_parallel_trends_data (λ _, PrimFloat.zero) df'
      "crime_rate_per_100k"
    = Ok [("year", (λ g, Int g.1) <$> groups);
          ("treated", (λ g, Int g.2) <$> groups);
          ("mean", (λ _, Num 0) <$> groups)] ∧
    StronglySorted key_le groups ∧ NoDup groups ∧
    (∀ g, g ∈ groups ↔ g ∈ zip demo_years treated) ∧
    (∀ y, y ∈ demo_years ↔ ∃ t, (y, t) ∈ groups) ∧
    (∀ y t, (y, t) ∈ groups → t = 0 ∨ t = 1).
Proof.
  assert ("crime_rate_per_100k" ∉ columns demo_panel) as Hno
    by by apply (bool_decide_eq_false_1
                   ("crime_rate_per_100k" ∈ columns demo_panel)).
  split; [exact design_panel_demo|]. split; [exact Hno|].
  apply (parallel_trends_of_prepared_panel (λ _, PrimFloat.zero) demo_panel
           demo_years demo_regions demo_counts
           [Int 3; Int 4; Int 1; Int 5; Int 6; Int 0]
           [Int 1000; Int 1000; Int 500; Int 1000; Int 2000; Int 0]
           design_panel_demo Hno eq_refl eq_refl);
    repeat constructor.
Defined.

(** X19 on [demo_panel]: the pre-period is the three rows of 2015. *)
Lemma pretrend_of_designed_panel_demo :
  design_panel demo_panel demo_years demo_regions demo_counts ∧
  filter (λ y, y < 2016) demo_years = [2015; 2015; 2015] ∧
  ∃ df' pre post did,
    add_treatment_variables demo_panel = Ok df' ∧
    pretrend_design df' 2016 = Ok pre ∧
    fit_pretrend_interaction count_rows_fit df' 2016
    = count_rows_fit "crime_rate_per_100k ~ treated * year_num + C(region)"
        pre ∧
    getitem pre "year" = Ok (Int <$> filter (λ y, y < 2016) demo_years) ∧
    getitem pre "post" = Ok post ∧
    getitem pre "did" = Ok did ∧
    length post = length (filter (λ y, y < 2016) demo_years) ∧
    length did = length (filter (λ y, y < 2016) demo_years) ∧
    Forall (λ c, c = Int 0) post ∧
    Forall (λ c, c = Int 0) did.
Proof.
  split; [exact design_panel_demo|]. split; [reflexivity|].
  exact (pretrend_of_designed_panel count_rows_fit demo_panel demo_years
           demo_regions demo_counts design_panel_demo).
Defined.

(** X20 on [demo_prepared], with a mean that is always 0 and a drawing that
    returns the lines it is given. *)
Lemma parallel_trends_lines_demo :
  getitem demo_prepared "year" = Ok (Int <$> demo_years) ∧
  getitem demo_prepared "treated" = Ok (Int <$> [0; 1; 0; 0; 1; 0]) ∧
  ∃ control treated,
    plot_parallel_trends (λ _, PrimFloat.zero) _ (λ lines _ _ _, Ok lines)
      demo_prepared "crime_rate_per_100k" None None
    = Ok (control ++ treated) ∧
    (∃ ys, StronglySorted Z.lt ys ∧
       (∀ y, y ∈ ys ↔ (y, 0) ∈ zip demo_years [0; 1; 0; 0; 1; 0]) ∧
       control = match ys with
                 | [] => []
                 | _ => [("Control regions",
                          (Int <$> ys, (λ _, Num 0) <$> ys))]
                 end) ∧
    (∃ ys, StronglySorted Z.lt ys ∧
       (∀ y, y ∈ ys ↔ (y, 1) ∈ zip demo_years [0; 1; 0; 0; 1; 0]) ∧
       treated = match ys with
                 | [] => []
                 | _ => [("Treated regions",
                          (Int <$> ys, (λ _, Num 0) <$> ys))]
                 end).
Proof.
  split; [reflexivity|]. split; [reflexivity|].
  exact (parallel_trends_lines (λ _, PrimFloat.zero) _
           (λ lines _ _ _, Ok lines) demo_prepared "crime_rate_per_100k"
           None None demo_years [0; 1; 0; 0; 1; 0]
           [Num 300; Num 400; Num 200; Num 500; Num 300; NaN]
           [300; 400; 200; 500; 300; PrimFloat.nan]%float
           ltac:(done) ltac:(done) eq_refl eq_refl eq_refl eq_refl).
Defined.

(** X21 on [demo_model] with the reference year 2015, and a drawing that
    returns [x] and [x_ci]. *)
Lemma event_study_plot_data_demo :
  (2015 ∉ extracted_years demo_model) ∧
  ∃ table x x_ci,
    build_event_study_table (λ p, p) demo_model 2015 = Ok table ∧
    plot_event_study (λ p, p) _ (λ x _ x_ci _ _ _ _ _, Ok (x, x_ci))
      demo_model 2015 None None = Ok (x, x_ci) ∧
    x = EventRow.rel_year <$> table ∧
    StronglySorted Z.le x ∧ StronglySorted Z.le x_ci ∧
    0 ∈ x ∧ 0 ∉ x_ci.
Proof.
  assert (2015 ∉ extracted_years demo_model) as Hno
    by by apply (bool_decide_eq_false_1 (2015 ∈ extracted_years demo_model)).
  split; [exact Hno|].
  destruct (event_study_plot_data (λ p, p) _
              (λ x _ x_ci _ _ _ _ _, Ok (x, x_ci)) demo_model 2015 None None)
    as [_ H].
  eexists.
  destruct (H _ ltac:(by vm_compute))
    as (x & y & x_ci & lo & hi & Hrun & Hx & _ & Hsx & Hsc & _ & _ & _ & _
        & Hzero).
  exists x, x_ci. split; [reflexivity|]. split; [exact Hrun|].
  split; [exact Hx|]. split; [exact Hsx|]. split; [exact Hsc|].
  exact (Hzero Hno).
Defined.

(** X22 on [demo_prepared] and the year 2016: with the intensity of the
    design the rows reach the drawing, with [foreigners_total] as the
    intensity the sort fails. *)
Lemma plot_treatment_intensity_needs_demo :
  "treated" ∈ columns demo_prepared ∧
  (∃ df_year m sorted treated,
     compute_treatment_intensity_distribution demo_prepared 2016
       "treatment_intensity" = Ok (df_year, m) ∧
     sort_values df_year "treatment_intensity" = Ok sorted ∧
     columns sorted = columns df_year ∧
     getitem sorted "treated" = Ok treated ∧
     plot_treatment_intensity _ (λ df colors _ _ _, Ok (df, colors))
       demo_prepared 2016 "treatment_intensity" None
     = Ok (sorted, color_of <$> treated)) ∧
  plot_treatment_intensity _ (λ df colors _ _ _, Ok (df, colors))
    demo_prepared 2016 "foreigners_total" None
  = Raise (KeyError "treatment_intensity").
Proof.
  assert ("treated" ∈ columns demo_prepared) as Hin
    by by apply (bool_decide_eq_true_1 ("treated" ∈ columns demo_prepared)).
  split; [exact Hin|]. split.
  - destruct (plot_treatment_intensity_needs _
                (λ df colors _ _ _, Ok (df, colors)) demo_prepared 2016
                "treatment_intensity" None (Int <$> demo_years)
                [NaN; NaN; NaN; Num 2; Num 4; NaN]
                ltac:(done) ltac:(done) ltac:(done) eq_refl eq_refl eq_refl
                ltac:(repeat constructor) ltac:(done)) as (_ & _ & H).
    exact (H eq_refl Hin).
  - destruct (plot_treatment_intensity_needs _
                (λ df colors _ _ _, Ok (df, colors)) demo_prepared 2016
                "foreigners_total" None (Int <$> demo_years)
                (Int <$> [10; 5; 7; 12; 9; 3])
                ltac:(done) ltac:(done) ltac:(done) eq_refl eq_refl eq_refl
                ltac:(repeat constructor) ltac:(done)) as (H & _).
    exact (H ltac:(done)).
Defined.
